(** * Daily billing and traffic-decay service: a shallow embedding

    The development embeds
      - [app/services/daily_subscription_service.py]
        (class [DailySubscriptionService]) and
      - [app/middlewares/subscription_checker.py]
        (class [SubscriptionStatusMiddleware])
    as functions of a state-and-exception monad over the ORM session, and
    proves the billing and quota properties of the specification.

    Timestamps are integers (seconds), amounts are unbounded Python
    integers ([Z]).  Tables keyed by a primary key are finite maps; the
    purchase table is a list of rows, because the order of the rows decides
    the order in which the decay pass groups them.  An ORM object is the
    row under its key in the session: assignments to its attributes update
    that row, and every holder of the object sees them.

    Exceptions are those that [except Exception] catches: a store
    operation, a call to the panel or a message to the bot may raise, as
    the environment decides.  A pass reads the clock several times; the
    model gives it one reading. *)

From stdpp Require Import gmap list strings.
From Stdlib Require Import ZArith Lia.

Local Open Scope Z_scope.

#[local] Set Warnings "-clear-no-such-hyp".

(** ** Data model *)

(** The values of [SubscriptionStatus] (declared in [app.database.models],
    listed in the specification's data model). *)
Inductive SubscriptionStatus := TRIAL | ACTIVE | EXPIRED | DISABLED | PENDING.

#[global] Instance SubscriptionStatus_eq_dec : EqDecision SubscriptionStatus.
Proof. solve_decision. Defined.

(** Modelled from the spec: the ORM classes of [app.database.models] are
    not among the sources.  The records have the attributes that the two
    source files read and write, and the billing cadence flag and the
    charge timestamps that section 3 of the specification gives a
    subscription. *)
Record User := {
  user_pk : Z;
  telegram_id : Z;
  balance_kopeks : Z;
  remnawave_uuid : option string;
  (* the [user.subscription] relationship: the key of the related row *)
  user_subscription : option Z;
}.

Record Tariff := {
  tariff_pk : Z;
  tariff_name : string;
  daily_price_kopeks : Z;
  tariff_traffic_limit_gb : option Z;
}.

Record Subscription := {
  sub_pk : Z;
  user_id : Z;
  (* the [subscription.user] relationship *)
  sub_user : option Z;
  tariff_id : option Z;
  (* the [subscription.tariff] relationship *)
  sub_tariff : option Z;
  status : SubscriptionStatus;
  end_date : option Z;
  traffic_limit_gb : Z;
  purchased_traffic_gb : option Z;
  traffic_reset_at : option Z;
  updated_at : option Z;
  (* billing cadence flag and charge timestamps of the data model *)
  daily_billing : bool;
  last_charge_at : option Z;
  next_charge_at : Z;
}.

Record TrafficPurchase := {
  purchase_pk : Z;
  subscription_id : Z;
  traffic_gb : Z;
  expires_at : Z;
}.

Inductive TransactionType := SUBSCRIPTION_PAYMENT.
Inductive PaymentMethod := MANUAL.

(** The description string of a daily payment: the tariff name, and the
    device count when it is above one. *)
Record Description := {
  descr_tariff : string;
  descr_devices : option Z;
}.

Record Transaction := {
  tx_user_id : Z;
  tx_type : TransactionType;
  amount_kopeks : Z;
  tx_description : Description;
  tx_payment_method : PaymentMethod;
}.

(** Field assignments on ORM objects. *)
Definition set_status (st : SubscriptionStatus) (s : Subscription) : Subscription :=
  {| sub_pk := sub_pk s; user_id := user_id s; sub_user := sub_user s;
     tariff_id := tariff_id s; sub_tariff := sub_tariff s; status := st;
     end_date := end_date s; traffic_limit_gb := traffic_limit_gb s;
     purchased_traffic_gb := purchased_traffic_gb s;
     traffic_reset_at := traffic_reset_at s; updated_at := updated_at s;
     daily_billing := daily_billing s; last_charge_at := last_charge_at s;
     next_charge_at := next_charge_at s |}.

Definition set_updated_at (t : Z) (s : Subscription) : Subscription :=
  {| sub_pk := sub_pk s; user_id := user_id s; sub_user := sub_user s;
     tariff_id := tariff_id s; sub_tariff := sub_tariff s; status := status s;
     end_date := end_date s; traffic_limit_gb := traffic_limit_gb s;
     purchased_traffic_gb := purchased_traffic_gb s;
     traffic_reset_at := traffic_reset_at s; updated_at := Some t;
     daily_billing := daily_billing s; last_charge_at := last_charge_at s;
     next_charge_at := next_charge_at s |}.

Definition set_traffic (limit purchased : Z) (s : Subscription) : Subscription :=
  {| sub_pk := sub_pk s; user_id := user_id s; sub_user := sub_user s;
     tariff_id := tariff_id s; sub_tariff := sub_tariff s; status := status s;
     end_date := end_date s; traffic_limit_gb := limit;
     purchased_traffic_gb := Some purchased;
     traffic_reset_at := traffic_reset_at s; updated_at := updated_at s;
     daily_billing := daily_billing s; last_charge_at := last_charge_at s;
     next_charge_at := next_charge_at s |}.

Definition set_traffic_reset_at (t : option Z) (s : Subscription) : Subscription :=
  {| sub_pk := sub_pk s; user_id := user_id s; sub_user := sub_user s;
     tariff_id := tariff_id s; sub_tariff := sub_tariff s; status := status s;
     end_date := end_date s; traffic_limit_gb := traffic_limit_gb s;
     purchased_traffic_gb := purchased_traffic_gb s;
     traffic_reset_at := t; updated_at := updated_at s;
     daily_billing := daily_billing s; last_charge_at := last_charge_at s;
     next_charge_at := next_charge_at s |}.

Definition set_charge_time (last next : Z) (s : Subscription) : Subscription :=
  {| sub_pk := sub_pk s; user_id := user_id s; sub_user := sub_user s;
     tariff_id := tariff_id s; sub_tariff := sub_tariff s; status := status s;
     end_date := end_date s; traffic_limit_gb := traffic_limit_gb s;
     purchased_traffic_gb := purchased_traffic_gb s;
     traffic_reset_at := traffic_reset_at s; updated_at := updated_at s;
     daily_billing := daily_billing s; last_charge_at := Some last;
     next_charge_at := next |}.

Definition set_balance (b : Z) (u : User) : User :=
  {| user_pk := user_pk u; telegram_id := telegram_id u; balance_kopeks := b;
     remnawave_uuid := remnawave_uuid u;
     user_subscription := user_subscription u |}.

(** Python's [x or 0] on an optional integer. *)
Definition or0 (x : option Z) : Z :=
  match x with
  | Some z => z
  | None => 0
  end.

(** Truth value of an optional integer ([None] and [0] are falsy). *)
Definition truthy (x : option Z) : bool :=
  match x with
  | Some z => negb (z =? 0)
  | None => false
  end.

(** Truth value of an optional string ([None] and the empty string are falsy). *)
Definition truthy_str (x : option string) : bool :=
  match x with
  | Some s => negb (String.eqb s "")
  | None => false
  end.

(** ** The store and the session *)

Record Store := {
  subscriptions : gmap Z Subscription;
  users : gmap Z User;
  tariffs : gmap Z Tariff;
  purchases : list TrafficPurchase;
  transactions : list Transaction;
}.

Definition set_subscriptions (m : gmap Z Subscription) (st : Store) : Store :=
  {| subscriptions := m; users := users st; tariffs := tariffs st;
     purchases := purchases st; transactions := transactions st |}.

Definition set_users (m : gmap Z User) (st : Store) : Store :=
  {| subscriptions := subscriptions st; users := m; tariffs := tariffs st;
     purchases := purchases st; transactions := transactions st |}.

Definition set_purchases (l : list TrafficPurchase) (st : Store) : Store :=
  {| subscriptions := subscriptions st; users := users st; tariffs := tariffs st;
     purchases := l; transactions := transactions st |}.

Definition set_transactions (l : list Transaction) (st : Store) : Store :=
  {| subscriptions := subscriptions st; users := users st; tariffs := tariffs st;
     purchases := purchases st; transactions := l |}.

(** Log records, one constructor per [logger] call of the two source files. *)
Inductive Level := DEBUG | INFO | WARNING | ERROR.

Inductive Msg :=
  (* process_daily_charges *)
  | MsgChargeUnitFailed (sid : Z)
  | MsgChargeBatchFailed
  | MsgChargeQueryFailed
  (* _get_device_count *)
  | MsgNoRemnawaveUuid (tg : Z)
  | MsgDeviceCount (tg : Z) (count : Z)
  | MsgDeviceCountFailed (tg : Z)
  (* _process_single_charge *)
  | MsgUserNotFound (sid : Z)
  | MsgTariffNotFound (sid : Z)
  | MsgBadDailyPrice (tid : Z)
  | MsgSuspended (sid balance required devices : Z)
  | MsgDebitRefused (sid : Z)
  | MsgCharged (sid amount devices tg : Z)
  | MsgPanelUpdateFailed
  | MsgChargeFailed (sid : Z)
  (* notifications *)
  | MsgNotifyChargeFailed
  | MsgNotifyInsufficientFailed
  | MsgNotifyResetFailed
  (* process_traffic_resets *)
  | MsgResetUnitFailed (sid : Z)
  | MsgResetBatchFailed
  | MsgResetQueryFailed
  (* _reset_subscription_traffic *)
  | MsgExpiredExceedsPurchased (sid expiring purchased : Z)
  | MsgNegativeBaseLimit (sid base tariff_base : Z)
  | MsgLimitBelowBase (new_limit base : Z)
  | MsgTrafficReset (sid old_limit base old_purchased new_limit new_purchased removed : Z)
                    (count : nat)
  | MsgPanelSyncFailed
  (* SubscriptionStatusMiddleware *)
  | MsgMarkedExpired (uid : Z)
  | MsgStatusCheckFailed.

(** Messages sent through the bot. *)
Inductive Notice :=
  | NoticeDailyCharge (amount balance devices : Z)
  | NoticeInsufficientBalance (required balance : Z)
  | NoticeTrafficReset (reset_gb limit : Z).

(** What the service does to the outside, in order. *)
Inductive Effect :=
  | Logged (lvl : Level) (m : Msg)
  | Sent (chat : Z) (n : Notice)
  | PanelPushed (sid : Z).

(** An [AsyncSession]: [live] is the state of the objects of the session,
    [saved] what the last commit wrote.  [effects] is the trace of log
    records, messages and panel calls, newest first. *)
Record World := {
  live : Store;
  saved : Store;
  effects : list Effect;
}.

Definition set_live (st : Store) (w : World) : World :=
  {| live := st; saved := saved w; effects := effects w |}.

(** ** The environment *)

(** Who commits. *)
Inductive Committer :=
  | ByChargeBatch
  | ByResetBatch
  | ByReset (sid : Z)
  | ByMiddleware (uid : Z).

(** The operations on the store that can raise. *)
Inductive Op :=
  | OpSession                      (* AsyncSessionLocal() *)
  | OpSelectDue                    (* get_daily_subscriptions_for_charge *)
  | OpGetUser (uid : Z)            (* get_user_by_id *)
  | OpDebit (uid : Z)              (* subtract_user_balance *)
  | OpCreateTransaction (uid : Z)  (* create_transaction *)
  | OpUpdateChargeTime (sid : Z)   (* update_daily_charge_time *)
  | OpSelectExpired                (* select(TrafficPurchase) ... <= now *)
  | OpSelectSubscription (sid : Z) (* select(Subscription) by id *)
  | OpGetTariff (tid : Z)          (* get_tariff_by_id *)
  | OpDelete (pid : Z)             (* db.delete(purchase) *)
  | OpSelectRemaining (sid : Z)    (* select(TrafficPurchase) ... > now *)
  | OpCommit (who : Committer)     (* db.commit() *)
  | OpRollback.                    (* db.rollback() *)

(** The answer of the panel to [get_user_devices]. *)
Inductive DevicesReply :=
  | ApiFailure                     (* any exception: timeout, HTTP error, ... *)
  | Response (total : option Z).   (* response.get("total") *)

(** Everything the service reads from outside the store. *)
Record Env := {
  now : Z;                         (* datetime.utcnow() *)
  bot : bool;                      (* self._bot is set *)
  raises : Op -> bool;             (* the store operation raises *)
  debit_refused : Z -> bool;       (* the debit answers "error" *)
  is_configured : bool;            (* RemnaWaveService().is_configured *)
  get_user_devices : string -> DevicesReply;
  panel_fails : Z -> bool;         (* the panel push raises *)
  send_fails : Z -> bool;          (* bot.send_message raises *)
}.

Inductive exn :=
  | StoreError (op : Op)
  | ApiError
  | PanelError (sid : Z)
  | SendError (chat : Z).

(** ** The monad: state and exceptions *)

Inductive Res (A : Type) :=
  | Ok (a : A)
  | Raise (e : exn).
Arguments Ok {A} a.
Arguments Raise {A} e.

Definition M (S A : Type) : Type := S -> Res A * S.

Definition ret {S A} (a : A) : M S A := fun s => (Ok a, s).

Definition bind {S A B} (m : M S A) (k : A -> M S B) : M S B :=
  fun s =>
    match m s with
    | (Ok a, s') => k a s'
    | (Raise e, s') => (Raise e, s')
    end.

Definition raise {S A} (e : exn) : M S A := fun s => (Raise e, s).

(** [try: m except Exception as e: h e] *)
Definition try_except {S A} (m : M S A) (h : exn -> M S A) : M S A :=
  fun s =>
    match m s with
    | (Ok a, s') => (Ok a, s')
    | (Raise e, s') => h e s'
    end.

Notation "'let!' x ':=' m 'in' k" := (bind m (fun x => k))
  (at level 10, x pattern, m at level 100, k at level 200).
Notation "m ';;' k" := (bind m (fun _ => k))
  (at level 100, k at level 200, right associativity).

(** [for x in l: f x] *)
Fixpoint for_each {S A} (l : list A) (f : A -> M S unit) : M S unit :=
  match l with
  | [] => ret tt
  | x :: l' => f x ;; for_each l' f
  end.

Definition get {S} : M S S := fun s => (Ok s, s).
Definition modify {S} (f : S -> S) : M S unit := fun s => (Ok tt, f s).

(** ** Primitive operations of the session *)

Definition emit (e : Effect) : M World unit :=
  modify (fun w => {| live := live w; saved := saved w; effects := e :: effects w |}).

Definition logger (lvl : Level) (m : Msg) : M World unit := emit (Logged lvl m).

(** A store operation raises when the environment says so, before it has
    any effect. *)
Definition attempt (env : Env) (op : Op) : M World unit :=
  if raises env op then raise (StoreError op) else ret tt.

(** [AsyncSessionLocal()]: a new session sees the committed state. *)
Definition AsyncSessionLocal (env : Env) : M World unit :=
  attempt env OpSession ;;
  modify (fun w => {| live := saved w; saved := saved w; effects := effects w |}).

Definition db_commit (env : Env) (who : Committer) : M World unit :=
  attempt env (OpCommit who) ;;
  modify (fun w => {| live := live w; saved := live w; effects := effects w |}).

Definition db_rollback (env : Env) : M World unit :=
  attempt env OpRollback ;;
  modify (fun w => {| live := saved w; saved := saved w; effects := effects w |}).

(** Assignment to the attributes of the subscription object with key [sid]. *)
Definition update_subscription (sid : Z) (f : Subscription -> Subscription) : M World unit :=
  modify (fun w => set_live (set_subscriptions (alter f sid (subscriptions (live w))) (live w)) w).

Definition update_user (uid : Z) (f : User -> User) : M World unit :=
  modify (fun w => set_live (set_users (alter f uid (users (live w))) (live w)) w).

(** [db.delete(purchase)] *)
Definition db_delete (env : Env) (purchase : TrafficPurchase) : M World unit :=
  attempt env (OpDelete (purchase_pk purchase)) ;;
  modify (fun w =>
    set_live (set_purchases
      (filter (fun p => purchase_pk p <> purchase_pk purchase) (purchases (live w)))
      (live w)) w).

Definition send_message (env : Env) (chat : Z) (n : Notice) : M World unit :=
  if send_fails env chat then raise (SendError chat) else emit (Sent chat n).

(** ** Collaborators declared outside the two source files *)

(** Modelled from the spec: [get_user_by_id] of [app.database.crud.user]
    is not among the sources; it resolves the owning account by its
    identifier and answers nothing when the account is missing. *)
Definition get_user_by_id (env : Env) (uid : Z) : M World (option User) :=
  attempt env (OpGetUser uid) ;;
  let! w := get in
  ret (users (live w) !! uid).

(** Modelled from the spec: [get_tariff_by_id] of [app.database.crud.tariff]
    is not among the sources; it resolves a tariff by its identifier. *)
Definition get_tariff_by_id (env : Env) (tid : Z) : M World (option Tariff) :=
  attempt env (OpGetTariff tid) ;;
  let! w := get in
  ret (tariffs (live w) !! tid).

(** Modelled from the spec: one billing cycle of the per-day plan, in
    seconds. *)
Definition billing_cycle : Z := 86400.

(** Modelled from the spec: a subscription is due when its billing cadence
    flag is set and its next-charge timestamp is at or before the current
    time. *)
Definition is_due (t : Z) (s : Subscription) : bool :=
  daily_billing s && (next_charge_at s <=? t).

(** Modelled from the spec: [get_daily_subscriptions_for_charge] of
    [app.database.crud.subscription] is not among the sources; it selects
    the due subscriptions. *)
Definition get_daily_subscriptions_for_charge (env : Env) : M World (list Subscription) :=
  attempt env OpSelectDue ;;
  let! w := get in
  ret (filter (fun s => is_due (now env) s) (map_to_list (subscriptions (live w))).*2).

(** Modelled from the spec: [suspend_daily_subscription_insufficient_balance]
    of [app.database.crud.subscription] is not among the sources; it sets the
    status to the disabled state and leaves everything else. *)
Definition suspend_daily_subscription_insufficient_balance
    (env : Env) (subscription : Subscription) : M World unit :=
  update_subscription (sub_pk subscription) (set_status DISABLED).

(** Modelled from the spec: [subtract_user_balance] of
    [app.database.crud.user] is not among the sources; it is the atomic
    debit of the Ledger and Balance Store, [debit(account_id, amount) ->
    success | insufficient_funds | error]: it checks and decrements in one
    step, answers false on insufficient funds and on an error, and leaves
    the balance as it was unless it succeeds.  [uid] is the key of the user
    object in the session. *)
Definition subtract_user_balance
    (env : Env) (uid : Z) (amount : Z) (description : Description) : M World bool :=
  attempt env (OpDebit uid) ;;
  let! w := get in
  match users (live w) !! uid with
  | None => ret false
  | Some user =>
      if debit_refused env uid then ret false
      else if balance_kopeks user <? amount then ret false
      else update_user uid (set_balance (balance_kopeks user - amount)) ;; ret true
  end.

(** Modelled from the spec: [create_transaction] of
    [app.database.crud.transaction] is not among the sources; it is
    [append_ledger_entry(account_id, amount, category, description)], which
    appends one immutable entry to the ledger.  It is awaited inside the
    try block of the charge step, after the debit; it may raise, and then
    it appends nothing. *)
Definition create_transaction
    (env : Env) (user_id : Z) (type : TransactionType) (amount_kopeks : Z)
    (description : Description) (payment_method : PaymentMethod) : M World unit :=
  attempt env (OpCreateTransaction user_id) ;;
  modify (fun w =>
    set_live (set_transactions
      (transactions (live w) ++
       [{| tx_user_id := user_id; tx_type := type; amount_kopeks := amount_kopeks;
           tx_description := description; tx_payment_method := payment_method |}])
      (live w)) w).

(** Modelled from the spec: [update_daily_charge_time] of
    [app.database.crud.subscription] is not among the sources; on a
    successful charge [last_charge_at] becomes now and the next-charge
    timestamp is one billing cycle later.  It returns the subscription.
    It is awaited inside the try block of the charge step, after the
    ledger write; it may raise, and then it writes nothing. *)
Definition update_daily_charge_time
    (env : Env) (subscription : Subscription) : M World Subscription :=
  attempt env (OpUpdateChargeTime (sub_pk subscription)) ;;
  update_subscription (sub_pk subscription)
    (set_charge_time (now env) (now env + billing_cycle)) ;;
  ret (set_charge_time (now env) (now env + billing_cycle) subscription).

(** Modelled from the spec: [SubscriptionService] of
    [app.services.subscription_service] is not among the sources; its
    [create_remnawave_user] and [update_remnawave_user] are the Panel Sync
    pushes of the subscription state, which either raise or reach the
    panel. *)
Definition create_remnawave_user (env : Env) (subscription : Subscription) : M World unit :=
  if panel_fails env (sub_pk subscription) then raise (PanelError (sub_pk subscription))
  else emit (PanelPushed (sub_pk subscription)).

Definition update_remnawave_user (env : Env) (sid : Z) : M World unit :=
  if panel_fails env sid then raise (PanelError sid)
  else emit (PanelPushed sid).

(** ** Local variables of a pass

    The counters dictionary [stats] of a pass is a local variable that is
    updated in place inside the [try] blocks: what was counted before an
    exception stays counted.  The state of a pass is therefore the pair of
    its locals and the session. *)

Definition lift {L A} (m : M World A) : M (L * World) A :=
  fun s =>
    match m (snd s) with
    | (r, w') => (r, (fst s, w'))
    end.

Definition update_locals {L} (f : L -> L) : M (L * World) unit :=
  modify (fun s => (f (fst s), snd s)).

Definition locals {L} : M (L * World) L := fun s => (Ok (fst s), s).

Definition with_locals {L A} (init : L) (m : M (L * World) A) : M World A :=
  fun w =>
    match m (init, w) with
    | (r, s') => (r, snd s')
    end.

(** ** DailySubscriptionService: the daily charge processor *)

Inductive Outcome := OutCharged | OutSuspended | OutError | OutSkipped.

Record ChargeStats := {
  checked : nat;
  charged : nat;
  suspended : nat;
  errors : nat;
}.

Definition set_checked (n : nat) (s : ChargeStats) : ChargeStats :=
  {| checked := n; charged := charged s; suspended := suspended s; errors := errors s |}.
Definition incr_charged (s : ChargeStats) : ChargeStats :=
  {| checked := checked s; charged := S (charged s); suspended := suspended s;
     errors := errors s |}.
Definition incr_suspended (s : ChargeStats) : ChargeStats :=
  {| checked := checked s; charged := charged s; suspended := S (suspended s);
     errors := errors s |}.
Definition incr_errors (s : ChargeStats) : ChargeStats :=
  {| checked := checked s; charged := charged s; suspended := suspended s;
     errors := S (errors s) |}.

Definition _get_device_count
    (env : Env) (subscription : Subscription) (user : User) : M World Z :=
  let remnawave_uuid := remnawave_uuid user in
  if negb (truthy_str remnawave_uuid) then
    logger DEBUG (MsgNoRemnawaveUuid (telegram_id user)) ;;
    ret 1
  else
    try_except
      (if negb (is_configured env) then ret 1
       else
         match get_user_devices env (default ""%string remnawave_uuid) with
         | ApiFailure => raise ApiError
         | Response total =>
             let device_count := or0 total in
             logger DEBUG (MsgDeviceCount (telegram_id user) device_count) ;;
             ret (Z.max 1 device_count)
         end)
      (fun e =>
         logger DEBUG (MsgDeviceCountFailed (telegram_id user)) ;;
         ret 1).

(** The balance shown in a message is read from the user object when the
    message is built, that is after a debit. *)
Definition _notify_daily_charge
    (env : Env) (uid : Z) (user : User) (subscription : Subscription)
    (amount_kopeks : Z) (device_count : Z) : M World unit :=
  if negb (bot env) then ret tt
  else
    try_except
      (let! w := get in
       let balance := balance_kopeks (default user (users (live w) !! uid)) in
       send_message env (telegram_id user)
         (NoticeDailyCharge amount_kopeks balance device_count))
      (fun e => logger WARNING MsgNotifyChargeFailed).

Definition _notify_insufficient_balance
    (env : Env) (uid : Z) (user : User) (subscription : Subscription)
    (required_amount : Z) : M World unit :=
  if negb (bot env) then ret tt
  else
    try_except
      (let! w := get in
       let balance := balance_kopeks (default user (users (live w) !! uid)) in
       send_message env (telegram_id user)
         (NoticeInsufficientBalance required_amount balance))
      (fun e => logger WARNING MsgNotifyInsufficientFailed).

(** [subscription.user], and [get_user_by_id] when the relationship is
    empty.  The user object is returned with its key in the session. *)
Definition resolve_user (env : Env) (subscription : Subscription) : M World (option (Z * User)) :=
  let! w := get in
  let user :=
    match sub_user subscription with
    | Some uid => pair uid <$> users (live w) !! uid
    | None => None
    end in
  match user with
  | Some u => ret (Some u)
  | None =>
      let! user := get_user_by_id env (user_id subscription) in
      ret (pair (user_id subscription) <$> user)
  end.

(** [subscription.tariff] *)
Definition resolve_tariff (subscription : Subscription) : M World (option Tariff) :=
  let! w := get in
  ret (match sub_tariff subscription with
       | Some tid => tariffs (live w) !! tid
       | None => None
       end).

Definition _process_single_charge (env : Env) (subscription : Subscription) : M World Outcome :=
  let! user := resolve_user env subscription in
  match user with
  | None =>
      logger WARNING (MsgUserNotFound (sub_pk subscription)) ;;
      ret OutError
  | Some (uid, user) =>
  let! tariff := resolve_tariff subscription in
  match tariff with
  | None =>
      logger WARNING (MsgTariffNotFound (sub_pk subscription)) ;;
      ret OutError
  | Some tariff =>
  let daily_price_per_device := daily_price_kopeks tariff in
  if daily_price_per_device <=? 0 then
    logger WARNING (MsgBadDailyPrice (tariff_pk tariff)) ;;
    ret OutError
  else
  let! device_count := _get_device_count env subscription user in
  let total_daily_price := daily_price_per_device * device_count in
  if balance_kopeks user <? total_daily_price then
    suspend_daily_subscription_insufficient_balance env subscription ;;
    (if bot env
     then _notify_insufficient_balance env uid user subscription total_daily_price
     else ret tt) ;;
    logger INFO (MsgSuspended (sub_pk subscription) (balance_kopeks user)
                   total_daily_price device_count) ;;
    ret OutSuspended
  else
  let description :=
    if 1 <? device_count
    then {| descr_tariff := tariff_name tariff; descr_devices := Some device_count |}
    else {| descr_tariff := tariff_name tariff; descr_devices := None |} in
  try_except
    (let! deducted := subtract_user_balance env uid total_daily_price description in
     if negb deducted then
       logger WARNING (MsgDebitRefused (sub_pk subscription)) ;;
       ret OutError
     else
     create_transaction env (user_pk user) SUBSCRIPTION_PAYMENT total_daily_price
       description MANUAL ;;
     let! subscription := update_daily_charge_time env subscription in
     logger INFO (MsgCharged (sub_pk subscription) total_daily_price device_count
                    (telegram_id user)) ;;
     try_except
       (create_remnawave_user env subscription)
       (fun e => logger WARNING MsgPanelUpdateFailed) ;;
     (if bot env
      then _notify_daily_charge env uid user subscription total_daily_price device_count
      else ret tt) ;;
     ret OutCharged)
    (fun e =>
       logger ERROR (MsgChargeFailed (sub_pk subscription)) ;;
       ret OutError)
  end
  end.

Definition process_daily_charges (env : Env) : M World ChargeStats :=
  with_locals {| checked := 0; charged := 0; suspended := 0; errors := 0 |}
    (try_except
       (lift (AsyncSessionLocal env) ;;
        try_except
          (let! subscriptions := lift (get_daily_subscriptions_for_charge env) in
           update_locals (set_checked (length subscriptions)) ;;
           for_each subscriptions (fun subscription =>
             try_except
               (let! result := lift (_process_single_charge env subscription) in
                match result with
                | OutCharged => update_locals incr_charged
                | OutSuspended => update_locals incr_suspended
                | OutError => update_locals incr_errors
                | OutSkipped => ret tt
                end)
               (fun e =>
                  lift (logger ERROR (MsgChargeUnitFailed (sub_pk subscription))) ;;
                  update_locals incr_errors)) ;;
           lift (db_commit env ByChargeBatch))
          (fun e =>
             lift (logger ERROR MsgChargeBatchFailed) ;;
             lift (db_rollback env)))
       (fun e => lift (logger ERROR MsgChargeQueryFailed)) ;;
     let! stats := locals in
     ret stats).

(** ** DailySubscriptionService: the traffic quota decay processor *)

Record ResetStats := {
  reset_checked : nat;           (* stats["checked"] *)
  reset : nat;                   (* stats["reset"] *)
  reset_errors : nat;            (* stats["errors"] *)
}.

Definition set_reset_checked (n : nat) (s : ResetStats) : ResetStats :=
  {| reset_checked := n; reset := reset s; reset_errors := reset_errors s |}.
Definition add_reset (n : nat) (s : ResetStats) : ResetStats :=
  {| reset_checked := reset_checked s; reset := (reset s + n)%nat;
     reset_errors := reset_errors s |}.
Definition incr_reset_errors (s : ResetStats) : ResetStats :=
  {| reset_checked := reset_checked s; reset := reset s;
     reset_errors := S (reset_errors s) |}.

(** [select(TrafficPurchase).where(TrafficPurchase.expires_at <= now)] *)
Definition select_expired (env : Env) : M World (list TrafficPurchase) :=
  attempt env OpSelectExpired ;;
  let! w := get in
  ret (filter (fun p => expires_at p <= now env) (purchases (live w))).

(** [select(Subscription).where(Subscription.id == subscription_id)],
    [scalar_one_or_none()] *)
Definition select_subscription (env : Env) (subscription_id : Z) : M World (option Subscription) :=
  attempt env (OpSelectSubscription subscription_id) ;;
  let! w := get in
  ret (subscriptions (live w) !! subscription_id).

(** The purchases of the subscription that expire after now. *)
Definition select_remaining (env : Env) (sid : Z) : M World (list TrafficPurchase) :=
  attempt env (OpSelectRemaining sid) ;;
  let! w := get in
  ret (filter (fun p => subscription_id p = sid /\ now env < expires_at p)
         (purchases (live w))).

(** The dictionary [subscriptions_to_update]: keys in the order of their
    first purchase, each with its purchases in order. *)
Fixpoint group_add (purchase : TrafficPurchase) (groups : list (Z * list TrafficPurchase))
    : list (Z * list TrafficPurchase) :=
  match groups with
  | [] => [(subscription_id purchase, [purchase])]
  | (sid, ps) :: rest =>
      if decide (sid = subscription_id purchase)
      then (sid, ps ++ [purchase]) :: rest
      else (sid, ps) :: group_add purchase rest
  end.

Definition group_by_subscription (expired_purchases : list TrafficPurchase)
    : list (Z * list TrafficPurchase) :=
  fold_left (fun groups purchase => group_add purchase groups) expired_purchases [].

(** [sum(p.traffic_gb for p in expired_purchases)] *)
Definition sum_traffic_gb (l : list TrafficPurchase) : Z :=
  fold_left (fun acc p => acc + traffic_gb p) l 0.

(** [min(p.expires_at for p in remaining_purchases)] *)
Definition min_expires_at (first : TrafficPurchase) (others : list TrafficPurchase) : Z :=
  fold_left (fun acc p => Z.min acc (expires_at p)) others (expires_at first).

Definition _notify_traffic_reset
    (env : Env) (user : User) (sid : Z) (reset_gb : Z) : M World unit :=
  if negb (bot env) then ret tt
  else
    try_except
      (let! w := get in
       let limit :=
         match subscriptions (live w) !! sid with
         | Some s => traffic_limit_gb s
         | None => 0
         end in
       send_message env (telegram_id user) (NoticeTrafficReset reset_gb limit))
      (fun e => logger WARNING MsgNotifyResetFailed).

Definition _reset_subscription_traffic
    (env : Env) (subscription_id : Z) (expired_purchases : list TrafficPurchase)
    : M World unit :=
  let! subscription := select_subscription env subscription_id in
  match subscription with
  | None => ret tt
  | Some subscription =>
  let total_expired_gb := sum_traffic_gb expired_purchases in
  let old_limit := traffic_limit_gb subscription in
  let old_purchased := or0 (purchased_traffic_gb subscription) in
  let! total_expired_gb :=
    if old_purchased <? total_expired_gb then
      logger ERROR (MsgExpiredExceedsPurchased (sub_pk subscription)
                      total_expired_gb old_purchased) ;;
      ret old_purchased
    else ret total_expired_gb in
  let base_limit := old_limit - old_purchased in
  let! base_limit :=
    if truthy (tariff_id subscription) then
      let! tariff := get_tariff_by_id env (or0 (tariff_id subscription)) in
      match tariff with
      | Some tariff =>
          let tariff_base_limit := or0 (tariff_traffic_limit_gb tariff) in
          if base_limit <? 0 then
            logger WARNING (MsgNegativeBaseLimit (sub_pk subscription) base_limit
                              tariff_base_limit) ;;
            ret tariff_base_limit
          else ret base_limit
      | None => ret base_limit
      end
    else ret base_limit in
  let base_limit := Z.max 0 base_limit in
  for_each expired_purchases (db_delete env) ;;
  let new_purchased := old_purchased - total_expired_gb in
  let new_limit := base_limit + new_purchased in
  let! guarded :=
    if new_limit <? base_limit then
      logger ERROR (MsgLimitBelowBase new_limit base_limit) ;;
      ret (base_limit, 0)
    else ret (new_limit, new_purchased) in
  let new_limit := fst guarded in
  let new_purchased := snd guarded in
  update_subscription subscription_id
    (set_traffic (Z.max 0 new_limit) (Z.max 0 new_purchased)) ;;
  let! remaining_purchases := select_remaining env subscription_id in
  update_subscription subscription_id
    (set_traffic_reset_at
       match remaining_purchases with
       | [] => None
       | p :: ps => Some (min_expires_at p ps)
       end) ;;
  update_subscription subscription_id (set_updated_at (now env)) ;;
  db_commit env (ByReset subscription_id) ;;
  logger INFO (MsgTrafficReset (sub_pk subscription) old_limit base_limit old_purchased
                 (Z.max 0 new_limit) new_purchased total_expired_gb
                 (length expired_purchases)) ;;
  try_except
    (update_remnawave_user env subscription_id)
    (fun e => logger WARNING MsgPanelSyncFailed) ;;
  if bot env && negb (user_id subscription =? 0) then
    let! user := get_user_by_id env (user_id subscription) in
    match user with
    | Some user => _notify_traffic_reset env user subscription_id total_expired_gb
    | None => ret tt
    end
  else ret tt
  end.

Definition process_traffic_resets (env : Env) : M World ResetStats :=
  with_locals {| reset_checked := 0; reset := 0; reset_errors := 0 |}
    (try_except
       (lift (AsyncSessionLocal env) ;;
        try_except
          (let! expired_purchases := lift (select_expired env) in
           update_locals (set_reset_checked (length expired_purchases)) ;;
           let subscriptions_to_update := group_by_subscription expired_purchases in
           for_each subscriptions_to_update (fun '(subscription_id, purchases) =>
             try_except
               (lift (_reset_subscription_traffic env subscription_id purchases) ;;
                update_locals (add_reset (length purchases)))
               (fun e =>
                  lift (logger ERROR (MsgResetUnitFailed subscription_id)) ;;
                  update_locals incr_reset_errors)) ;;
           lift (db_commit env ByResetBatch))
          (fun e =>
             lift (logger ERROR MsgResetBatchFailed) ;;
             lift (db_rollback env)))
       (fun e => lift (logger ERROR MsgResetQueryFailed)) ;;
     let! stats := locals in
     ret stats).

(** ** SubscriptionStatusMiddleware *)

(** The [data] dictionary of an event: whether [data.get('db')] holds a
    session, and the user object under ['db_user']. *)
Record Data := {
  data_db : bool;
  db_user : option User;
}.

Section Middleware.

(** The event and the result of the wrapped handler are opaque. *)
Context {TelegramObject Any : Type}.

Definition SubscriptionStatusMiddleware_call
    (env : Env)
    (handler : TelegramObject -> Data -> M World Any)
    (event : TelegramObject) (data : Data) : M World Any :=
  let db := data_db data in
  let user := db_user data in
  let! w := get in
  let subscription :=
    match user with
    | Some user =>
        match user_subscription user with
        | Some sid => pair sid <$> subscriptions (live w) !! sid
        | None => None
        end
    | None => None
    end in
  match db, user, subscription with
  | true, Some user, Some (sid, subscription) =>
      try_except
        (let current_time := now env in
         if decide (status subscription = ACTIVE) then
           match end_date subscription with
           | Some end_date =>
               if end_date <=? current_time then
                 update_subscription sid (set_status EXPIRED) ;;
                 update_subscription sid (set_updated_at current_time) ;;
                 db_commit env (ByMiddleware (user_pk user)) ;;
                 logger INFO (MsgMarkedExpired (user_pk user))
               else ret tt
           | None => ret tt
           end
         else ret tt)
        (fun e => logger ERROR MsgStatusCheckFailed)
  | _, _, _ => ret tt
  end ;;
  handler event data.

End Middleware.

(** ** DailySubscriptionService: the instance and the monitoring loop *)

(** [app.config.settings], as far as the service reads it: an attribute is
    present with its value, or missing. *)
Record Settings := {
  DAILY_SUBSCRIPTIONS_ENABLED : option bool;
  DAILY_SUBSCRIPTIONS_CHECK_INTERVAL_MINUTES : option Z;
}.

(** An [aiogram.Bot]. *)
Inductive Bot := TheBot.

(** The attributes of an instance of [DailySubscriptionService]. *)
Record Service := {
  _running : bool;
  _bot : option Bot;
  _check_interval_minutes : Z;
}.

(** [__init__] *)
Definition DailySubscriptionService_init : Service :=
  {| _running := false; _bot := None; _check_interval_minutes := 30 |}.

Definition set_running (b : bool) (self : Service) : Service :=
  {| _running := b; _bot := _bot self;
     _check_interval_minutes := _check_interval_minutes self |}.

Definition set_bot (bot : Bot) (self : Service) : Service :=
  {| _running := _running self; _bot := Some bot;
     _check_interval_minutes := _check_interval_minutes self |}.

(** [getattr(settings, 'DAILY_SUBSCRIPTIONS_ENABLED', True)] *)
Definition is_enabled (settings : Settings) : bool :=
  default true (DAILY_SUBSCRIPTIONS_ENABLED settings).

(** [getattr(settings, 'DAILY_SUBSCRIPTIONS_CHECK_INTERVAL_MINUTES', 30)] *)
Definition get_check_interval_minutes (settings : Settings) : Z :=
  default 30 (DAILY_SUBSCRIPTIONS_CHECK_INTERVAL_MINUTES settings).

(** The log records of the monitoring loop and its sleeps are kept in a
    journal of their own, newest first. *)
Inductive MonitorMsg :=
  | MsgMonitorStarted (interval_minutes : Z)
  | MsgChargesReport (stats : ChargeStats)
  | MsgResetsReport (traffic_stats : ResetStats)
  | MsgMonitorFailed
  | MsgMonitorStopped.

Inductive MonitorEvent :=
  | MonitorLogged (lvl : Level) (m : MonitorMsg)
  | Slept (seconds : Z).

(** The state of the process that runs the loop: the instance, the
    database with the trace of the passes, and the journal. *)
Record Monitor := {
  service : Service;
  world : World;
  journal : list MonitorEvent;
}.

Definition set_service (self : Service) (s : Monitor) : Monitor :=
  {| service := self; world := world s; journal := journal s |}.

Definition set_world (w : World) (s : Monitor) : Monitor :=
  {| service := service s; world := w; journal := journal s |}.

Definition record (e : MonitorEvent) (s : Monitor) : Monitor :=
  {| service := service s; world := world s; journal := e :: journal s |}.

Definition monitor_logger (lvl : Level) (m : MonitorMsg) : M Monitor unit :=
  modify (record (MonitorLogged lvl m)).

(** A pass runs on the database of the process. *)
Definition in_world {A} (m : M World A) : M Monitor A :=
  fun s =>
    match m (world s) with
    | (r, w') => (r, set_world w' s)
    end.

(** A pass reads [self._bot]. *)
Definition pass_env (self : Service) (env : Env) : Env :=
  {| now := now env; bot := bool_decide (is_Some (_bot self)); raises := raises env;
     debit_refused := debit_refused env; is_configured := is_configured env;
     get_user_devices := get_user_devices env; panel_fails := panel_fails env;
     send_fails := send_fails env |}.

(** The three [await]s of an iteration of the loop. *)
Inductive Await := AwaitCharges | AwaitResets | AwaitSleep.

(** What the loop meets from outside: the environment of each pass of
    each iteration, and whether another task calls [stop_monitoring] while
    the loop waits at an [await]. *)
Record Schedule := {
  charge_env : nat -> Env;
  reset_env : nat -> Env;
  stop_at : nat -> Await -> bool;
}.

Definition stop_monitoring : M Monitor unit :=
  modify (fun s => set_service (set_running false (service s)) s) ;;
  monitor_logger INFO MsgMonitorStopped.

Definition other_tasks (sched : Schedule) (i : nat) (a : Await) : M Monitor unit :=
  if stop_at sched i a then stop_monitoring else ret tt.

(** [asyncio.sleep(seconds)] *)
Definition asyncio_sleep (sched : Schedule) (i : nat) (seconds : Z) : M Monitor unit :=
  modify (record (Slept seconds)) ;;
  other_tasks sched i AwaitSleep.

(** The body of the [while] loop of [start_monitoring], in iteration [i]. *)
Definition monitoring_iteration (sched : Schedule) (interval_minutes : Z) (i : nat)
    : M Monitor unit :=
  try_except
    (let! s := get in
     let! stats := in_world (process_daily_charges (pass_env (service s) (charge_env sched i))) in
     other_tasks sched i AwaitCharges ;;
     (if Nat.ltb 0 (charged stats) || Nat.ltb 0 (suspended stats)
      then monitor_logger INFO (MsgChargesReport stats)
      else ret tt) ;;
     let! s := get in
     let! traffic_stats :=
       in_world (process_traffic_resets (pass_env (service s) (reset_env sched i))) in
     other_tasks sched i AwaitResets ;;
     if Nat.ltb 0 (reset traffic_stats)
     then monitor_logger INFO (MsgResetsReport traffic_stats)
     else ret tt)
    (fun e => monitor_logger ERROR MsgMonitorFailed) ;;
  asyncio_sleep sched i (interval_minutes * 60).

(** [while self._running: ...], from iteration [i] on.  The loop has no
    bound of its own: [fuel] bounds the number of times its condition is
    tested, and [None] says that the bound was reached. *)
Fixpoint while_running (fuel : nat) (sched : Schedule) (interval_minutes : Z) (i : nat)
    (s : Monitor) : option (Res unit * Monitor) :=
  match fuel with
  | O => None
  | S fuel =>
      if _running (service s) then
        match monitoring_iteration sched interval_minutes i s with
        | (Ok _, s') => while_running fuel sched interval_minutes (S i) s'
        | (Raise e, s') => Some (Raise e, s')
        end
      else Some (Ok tt, s)
  end.

Definition start_monitoring (fuel : nat) (settings : Settings) (sched : Schedule)
    (s : Monitor) : option (Res unit * Monitor) :=
  let s := set_service (set_running true (service s)) s in
  let interval_minutes := get_check_interval_minutes settings in
  let s := record (MonitorLogged INFO (MsgMonitorStarted interval_minutes)) s in
  while_running fuel sched interval_minutes 0 s.

(** * Definitions of the statements

    What the lemmas and theorems below speak about: the traces that the
    blocks of the service leave, the results of the units of a batch, the
    counters, the quota fields after a decay, and the example states. *)

(** [push es w]: the world after the effects [es] (newest first). *)
Definition push (es : list Effect) (w : World) : World :=
  {| live := live w; saved := saved w; effects := es ++ effects w |}.

(** No store operation raises. *)
Definition store_ok (env : Env) : Prop := forall op, raises env op = false.

(** What a notifier leaves in the trace: the message, or the warning that
    it could not be sent; nothing without a bot. *)
Definition notice_effects (env : Env) (chat : Z) (n : Notice) (failed : Msg) : list Effect :=
  if bot env then
    if send_fails env chat then [Logged WARNING failed] else [Sent chat n]
  else [].

(** What a guarded panel push leaves in the trace. *)
Definition panel_effects (env : Env) (sid : Z) (failed : Msg) : list Effect :=
  if panel_fails env sid then [Logged WARNING failed] else [PanelPushed sid].

(** The description of the ledger entry of a charge. *)
Definition charge_description (tariff : Tariff) (device_count : Z) : Description :=
  if 1 <? device_count
  then {| descr_tariff := tariff_name tariff; descr_devices := Some device_count |}
  else {| descr_tariff := tariff_name tariff; descr_devices := None |}.

(** The objects of the session after a suspension and after a charge. *)
Definition suspended_store (subscription : Subscription) (st : Store) : Store :=
  set_subscriptions
    (alter (set_status DISABLED) (sub_pk subscription) (subscriptions st)) st.

Definition charged_store
    (env : Env) (subscription : Subscription) (uid : Z) (user : User)
    (tariff : Tariff) (device_count : Z) (st : Store) : Store :=
  let amount := daily_price_kopeks tariff * device_count in
  set_subscriptions
    (alter (set_charge_time (now env) (now env + billing_cycle))
       (sub_pk subscription) (subscriptions st))
    (set_transactions
       (transactions st ++
        [{| tx_user_id := user_pk user; tx_type := SUBSCRIPTION_PAYMENT;
            amount_kopeks := amount;
            tx_description := charge_description tariff device_count;
            tx_payment_method := MANUAL |}])
       (set_users (alter (set_balance (balance_kopeks user - amount)) uid (users st)) st)).

(** The body of the loop of [process_daily_charges]. *)
Definition charge_iteration (env : Env) (subscription : Subscription)
    : M (ChargeStats * World) unit :=
  try_except
    (let! result := lift (_process_single_charge env subscription) in
     match result with
     | OutCharged => update_locals incr_charged
     | OutSuspended => update_locals incr_suspended
     | OutError => update_locals incr_errors
     | OutSkipped => ret tt
     end)
    (fun e =>
       lift (logger ERROR (MsgChargeUnitFailed (sub_pk subscription))) ;;
       update_locals incr_errors).

(** How the result of one unit is counted. *)
Definition count_outcome (r : Res Outcome) (st : ChargeStats) : ChargeStats :=
  match r with
  | Ok OutCharged => incr_charged st
  | Ok OutSuspended => incr_suspended st
  | Ok OutError => incr_errors st
  | Ok OutSkipped => st
  | Raise _ => incr_errors st
  end.

(** The session after a unit: an exception of the unit is logged. *)
Definition after_charge (subscription : Subscription) (r : Res Outcome) (w : World) : World :=
  match r with
  | Ok _ => w
  | Raise _ => push [Logged ERROR (MsgChargeUnitFailed (sub_pk subscription))] w
  end.

(** The results of the units of a batch, in order, and the session after
    the last one. *)
Fixpoint charge_units (env : Env) (subs : list Subscription) (w : World)
    : list (Res Outcome) * World :=
  match subs with
  | [] => ([], w)
  | s :: rest =>
      let r := fst (_process_single_charge env s w) in
      let w' := after_charge s r (snd (_process_single_charge env s w)) in
      (r :: fst (charge_units env rest w'), snd (charge_units env rest w'))
  end.

Definition tally (rs : list (Res Outcome)) (st : ChargeStats) : ChargeStats :=
  fold_left (fun st r => count_outcome r st) rs st.




Definition count_if {A} (f : A -> bool) (l : list A) : nat :=
  length (filter (fun x => f x) l).

(** The session that [AsyncSessionLocal()] opens. *)
Definition session (w : World) : World :=
  {| live := saved w; saved := saved w; effects := effects w |}.

(** The subscriptions that the batch selects. *)
Definition due_subscriptions (env : Env) (st : Store) : list Subscription :=
  filter (fun s => is_due (now env) s) (map_to_list (subscriptions st)).*2.

Definition no_charges : ChargeStats :=
  {| checked := 0; charged := 0; suspended := 0; errors := 0 |}.

(** The counters that [process_daily_charges] returns. *)
Definition charge_stats (env : Env) (w : World) : ChargeStats :=
  if raises env OpSession || raises env OpSelectDue then no_charges
  else
    let subs := due_subscriptions env (saved w) in
    tally (fst (charge_units env subs (session w)))
      (set_checked (length subs) no_charges).

(** Step 2 of the decay: the expired total, clamped to what is stored as
    purchased. *)
Definition clamped_total (subscription : Subscription) (expired : list TrafficPurchase) : Z :=
  if or0 (purchased_traffic_gb subscription) <? sum_traffic_gb expired
  then or0 (purchased_traffic_gb subscription)
  else sum_traffic_gb expired.

(** Step 3 of the decay: the tariff's allotment stands in for a negative
    base limit, when the subscription has a tariff and the tariff exists. *)
Definition tariff_fallback (st : Store) (subscription : Subscription) : option Z :=
  if truthy (tariff_id subscription) then
    match tariffs st !! or0 (tariff_id subscription) with
    | Some tariff =>
        if traffic_limit_gb subscription - or0 (purchased_traffic_gb subscription) <? 0
        then Some (or0 (tariff_traffic_limit_gb tariff))
        else None
    | None => None
    end
  else None.

(** The base limit that the decay uses. *)
Definition base_limit_used (st : Store) (subscription : Subscription) : Z :=
  Z.max 0
    match tariff_fallback st subscription with
    | Some tariff_base_limit => tariff_base_limit
    | None => traffic_limit_gb subscription - or0 (purchased_traffic_gb subscription)
    end.

(** Step 4 of the decay: the rows with the keys [pks] are deleted. *)
Definition without (pks : list Z) (l : list TrafficPurchase) : list TrafficPurchase :=
  filter (fun p => purchase_pk p ∉ pks) l.

(** What remains purchased after the decay. *)
Definition new_purchased (subscription : Subscription) (expired : list TrafficPurchase) : Z :=
  or0 (purchased_traffic_gb subscription) - clamped_total subscription expired.

(** What a run of [_reset_subscription_traffic] on an existing subscription
    leaves, wherever it stops. *)
Definition reset_post (env : Env) (sid : Z) (expired : list TrafficPurchase)
    (subscription : Subscription) (w : World) (r : Res unit) (w' : World) : Prop :=
  users (live w') = users (live w) /\
  tariffs (live w') = tariffs (live w) /\
  transactions (live w') = transactions (live w) /\
  (exists es, effects w' = es ++ effects w) /\
  (forall e, r = Raise e -> exists op, e = StoreError op /\ raises env op = true) /\
  ((* it stopped before the fields were written *)
   (subscriptions (live w') = subscriptions (live w) /\ saved w' = saved w /\
    r <> Ok tt /\
    exists deleted, deleted ⊆ purchase_pk <$> expired /\
                    purchases (live w') = without deleted (purchases (live w)))
   \/
   (* the fields are written and all expired purchases are deleted *)
   (exists subscription',
      subscriptions (live w') = <[sid := subscription']> (subscriptions (live w)) /\
      traffic_limit_gb subscription' =
        base_limit_used (live w) subscription + new_purchased subscription expired /\
      purchased_traffic_gb subscription' = Some (new_purchased subscription expired) /\
      purchases (live w') = without (purchase_pk <$> expired) (purchases (live w)) /\
      (or0 (purchased_traffic_gb subscription) < sum_traffic_gb expired ->
       Logged ERROR
         (MsgExpiredExceedsPurchased (sub_pk subscription) (sum_traffic_gb expired)
            (or0 (purchased_traffic_gb subscription))) ∈ effects w') /\
      (forall tariff_base_limit,
         tariff_fallback (live w) subscription = Some tariff_base_limit ->
         Logged WARNING
           (MsgNegativeBaseLimit (sub_pk subscription)
              (traffic_limit_gb subscription - or0 (purchased_traffic_gb subscription))
              tariff_base_limit) ∈ effects w') /\
      ((saved w' = saved w /\ r <> Ok tt) \/ saved w' = live w'))).

(** The body of the loop of [process_traffic_resets]. *)
Definition reset_iteration (env : Env) (group : Z * list TrafficPurchase)
    : M (ResetStats * World) unit :=
  let '(subscription_id, purchases) := group in
  try_except
    (lift (_reset_subscription_traffic env subscription_id purchases) ;;
     update_locals (add_reset (length purchases)))
    (fun e =>
       lift (logger ERROR (MsgResetUnitFailed subscription_id)) ;;
       update_locals incr_reset_errors).

(** How one group is counted: its purchases when the run returns, one error
    when it raises. *)
Definition count_group (group : Z * list TrafficPurchase) (r : Res unit) (st : ResetStats)
    : ResetStats :=
  match r with
  | Ok _ => add_reset (length (snd group)) st
  | Raise _ => incr_reset_errors st
  end.

Definition after_reset (group : Z * list TrafficPurchase) (r : Res unit) (w : World) : World :=
  match r with
  | Ok _ => w
  | Raise _ => push [Logged ERROR (MsgResetUnitFailed (fst group))] w
  end.

(** The results of the groups of a batch, in order, and the session after
    the last one. *)
Fixpoint reset_units (env : Env) (groups : list (Z * list TrafficPurchase)) (w : World)
    : list (Res unit) * World :=
  match groups with
  | [] => ([], w)
  | g :: rest =>
      let r := fst (_reset_subscription_traffic env (fst g) (snd g) w) in
      let w' := after_reset g r (snd (_reset_subscription_traffic env (fst g) (snd g) w)) in
      (r :: fst (reset_units env rest w'), snd (reset_units env rest w'))
  end.

Fixpoint tally_groups (groups : list (Z * list TrafficPurchase)) (rs : list (Res unit))
    (st : ResetStats) : ResetStats :=
  match groups, rs with
  | g :: groups', r :: rs' => tally_groups groups' rs' (count_group g r st)
  | _, _ => st
  end.

Definition no_resets : ResetStats :=
  {| reset_checked := 0; reset := 0; reset_errors := 0 |}.

Definition expired_purchases (env : Env) (st : Store) : list TrafficPurchase :=
  filter (fun p => expires_at p <= now env) (purchases st).

(** The inner [try] block of [process_traffic_resets]. *)
Definition reset_inner (env : Env) : M (ResetStats * World) unit :=
  let! expired_purchases := lift (select_expired env) in
  update_locals (set_reset_checked (length expired_purchases)) ;;
  let subscriptions_to_update := group_by_subscription expired_purchases in
  for_each subscriptions_to_update (reset_iteration env) ;;
  lift (db_commit env ByResetBatch).

(** The session after the commit that ends a batch. *)
Definition commit_batch (env : Env) (who : Committer) (w : World) : World :=
  if raises env (OpCommit who) then w
  else {| live := live w; saved := live w; effects := effects w |}.

(** [q] is in the group of its subscription. *)
Definition grouped_in (groups : list (Z * list TrafficPurchase)) (q : TrafficPurchase) : Prop :=
  exists ps, (subscription_id q, ps) ∈ groups /\ q ∈ ps.

(** The number of purchases in the groups. *)
Definition group_total (groups : list (Z * list TrafficPurchase)) : nat :=
  sum_list (length ∘ snd <$> groups).

(** A property [P] of the subscription rows holds in both states of the
    session, and the rows are those with the keys [D]. *)
Definition rows_keep (D : gset Z) (P : Z -> Subscription -> Prop) (w : World) : Prop :=
  (dom (subscriptions (live w)) = D /\ map_Forall P (subscriptions (live w))) /\
  (dom (subscriptions (saved w)) = D /\ map_Forall P (subscriptions (saved w))).

(** The quota invariant of the data model. *)
Definition quota_ok (s : Subscription) : Prop :=
  0 <= or0 (purchased_traffic_gb s) <= traffic_limit_gb s.

(** The counters that [process_traffic_resets] returns. *)
Definition reset_stats (env : Env) (w : World) : ResetStats :=
  if raises env OpSession || raises env OpSelectExpired then no_resets
  else
    let expired := expired_purchases env (saved w) in
    let groups := group_by_subscription expired in
    tally_groups groups (fst (reset_units env groups (session w)))
      (set_reset_checked (length expired) no_resets).

(** The purchases of the groups that were counted as reset, and the groups
    that were counted as errors. *)
Fixpoint purchases_reset (groups : list (Z * list TrafficPurchase)) (rs : list (Res unit))
    : nat :=
  match groups, rs with
  | g :: groups', Ok _ :: rs' => (length (snd g) + purchases_reset groups' rs')%nat
  | _ :: groups', Raise _ :: rs' => purchases_reset groups' rs'
  | _, _ => 0%nat
  end.

Fixpoint purchases_failed (groups : list (Z * list TrafficPurchase)) (rs : list (Res unit))
    : nat :=
  match groups, rs with
  | _ :: groups', Ok _ :: rs' => purchases_failed groups' rs'
  | g :: groups', Raise _ :: rs' => (length (snd g) + purchases_failed groups' rs')%nat
  | _, _ => 0%nat
  end.

Definition is_raise {A} (r : Res A) : bool :=
  match r with Raise _ => true | Ok _ => false end.

(** After a decay batch with a store that does not raise, a purchase that
    is still there although it has expired belongs to no subscription. *)
Definition expired_are_orphans (t : Z) (st : Store) : Prop :=
  forall p, p ∈ purchases st -> expires_at p <= t ->
            subscriptions st !! subscription_id p = None.

(** An environment in which nothing fails; the panel reports [devices]. *)
Definition calm_env (t : Z) (devices : DevicesReply) : Env :=
  {| now := t; bot := true; raises := fun _ => false; debit_refused := fun _ => false;
     is_configured := true; get_user_devices := fun _ => devices;
     panel_fails := fun _ => false; send_fails := fun _ => false |}.

(** The same, but the debit answers "error". *)
Definition refusing_env (t : Z) (devices : DevicesReply) : Env :=
  {| now := t; bot := true; raises := fun _ => false; debit_refused := fun _ => true;
     is_configured := true; get_user_devices := fun _ => devices;
     panel_fails := fun _ => false; send_fails := fun _ => false |}.

Definition example_tariff : Tariff :=
  {| tariff_pk := 3; tariff_name := "daily"; daily_price_kopeks := 100;
     tariff_traffic_limit_gb := Some 30 |}.

Definition example_user (balance : Z) : User :=
  {| user_pk := 7; telegram_id := 77; balance_kopeks := balance;
     remnawave_uuid := Some "uuid-7"%string; user_subscription := Some 1 |}.

(** A due subscription of user 7 on tariff 3, with the given quota fields. *)
Definition example_subscription (limit : Z) (purchased : option Z) (tariff : option Z)
    : Subscription :=
  {| sub_pk := 1; user_id := 7; sub_user := Some 7; tariff_id := tariff;
     sub_tariff := tariff; status := ACTIVE; end_date := Some 2000;
     traffic_limit_gb := limit; purchased_traffic_gb := purchased;
     traffic_reset_at := Some 1000; updated_at := None; daily_billing := true;
     last_charge_at := None; next_charge_at := 500 |}.

Definition example_lot (pk sid gb expires : Z) : TrafficPurchase :=
  {| purchase_pk := pk; subscription_id := sid; traffic_gb := gb; expires_at := expires |}.

Definition example_store (balance : Z) (s : Subscription) (lots : list TrafficPurchase)
    : Store :=
  {| subscriptions := {[ 1 := s ]}; users := {[ 7 := example_user balance ]};
     tariffs := {[ 3 := example_tariff ]}; purchases := lots; transactions := [] |}.

Definition example_world (balance : Z) (s : Subscription) (lots : list TrafficPurchase)
    : World :=
  {| live := example_store balance s lots; saved := example_store balance s lots;
     effects := [] |}.

(** Scenarios A and B of the specification. *)
Definition scenario_a : World := example_world 500 (example_subscription 50 (Some 20) (Some 3)) [].

Definition scenario_b : World := example_world 50 (example_subscription 50 (Some 20) (Some 3)) [].

(** Scenarios C and D: one lot of 20 GB that expires now. *)
Definition scenario_c : World :=
  example_world 500 (example_subscription 50 (Some 20) (Some 3)) [example_lot 11 1 20 1000].

Definition scenario_d : World :=
  example_world 500 (example_subscription 50 (Some 10) (Some 3)) [example_lot 11 1 20 1000].

(** A stored state with a negative base limit and no tariff. *)
Definition scenario_no_tariff : World :=
  example_world 500 (example_subscription 5 (Some 10) None) [example_lot 11 1 4 1000].

(** A lot whose subscription row does not exist. *)
Definition scenario_orphan : World :=
  example_world 500 (example_subscription 50 (Some 20) (Some 3)) [example_lot 12 9 5 900].

(** The ledger entry of a daily charge. *)
Definition charge_entry (user : User) (tariff : Tariff) (device_count : Z) : Transaction :=
  {| tx_user_id := user_pk user; tx_type := SUBSCRIPTION_PAYMENT;
     amount_kopeks := daily_price_kopeks tariff * device_count;
     tx_description := charge_description tariff device_count;
     tx_payment_method := MANUAL |}.


(** The objects of the session after a debit of [amount], and after the
    debit and the ledger entry of a charge. *)
Definition debited_store (uid : Z) (user : User) (amount : Z) (st : Store) : Store :=
  set_users (alter (set_balance (balance_kopeks user - amount)) uid (users st)) st.

Definition recorded_store
    (uid : Z) (user : User) (tariff : Tariff) (device_count : Z) (st : Store) : Store :=
  set_transactions
    (transactions st ++ [charge_entry user tariff device_count])
    (debited_store uid user (daily_price_kopeks tariff * device_count) st).




(** A sequence of decay batches, one per environment. *)
Fixpoint decay_passes (envs : list Env) (w : World) : World :=
  match envs with
  | [] => w
  | env :: rest => decay_passes rest (snd (process_traffic_resets env w))
  end.

(** An event that carries a loaded user but no database session. *)
Definition data_without_session : Data :=
  {| data_db := false; db_user := Some (example_user 500) |}.

(** Two due subscriptions: the first has no loaded user, so that its
    user is looked up in the store; the second is the one of scenario A. *)
Definition two_subscriptions : World :=
  let first :=
    {| sub_pk := 2; user_id := 8; sub_user := None; tariff_id := Some 3;
       sub_tariff := Some 3; status := ACTIVE; end_date := None;
       traffic_limit_gb := 10; purchased_traffic_gb := None;
       traffic_reset_at := None; updated_at := None; daily_billing := true;
       last_charge_at := None; next_charge_at := 0 |} in
  let st :=
    {| subscriptions := {[ 1 := example_subscription 50 (Some 20) (Some 3); 2 := first ]};
       users := {[ 7 := example_user 500 ]};
       tariffs := {[ 3 := example_tariff ]}; purchases := []; transactions := [] |} in
  {| live := st; saved := st; effects := [] |}.

(** The lookup of user 8 raises; nothing else fails. *)
Definition lookup_fails_env : Env :=
  {| now := 1000; bot := true;
     raises := fun op => match op with OpGetUser 8 => true | _ => false end;
     debit_refused := fun _ => false; is_configured := true;
     get_user_devices := fun _ => Response (Some 2);
     panel_fails := fun _ => false; send_fails := fun _ => false |}.

(** The purchases of the subscription [sid] that expire after [t]. *)
Definition remaining_of (t : Z) (sid : Z) (l : list TrafficPurchase) : list TrafficPurchase :=
  filter (fun p => subscription_id p = sid /\ t < expires_at p) l.

(** The next reset date of a subscription with these remaining purchases. *)
Definition next_reset (remaining : list TrafficPurchase) : option Z :=
  match remaining with
  | [] => None
  | p :: ps => Some (min_expires_at p ps)
  end.

(** The row of a subscription and the objects of the session after a decay
    of the purchases [expired] that went through. *)
Definition decayed_row (env : Env) (sid : Z) (expired : list TrafficPurchase)
    (subscription : Subscription) (st : Store) : Subscription :=
  set_updated_at (now env)
    (set_traffic_reset_at
       (next_reset (remaining_of (now env) sid
                      (without (purchase_pk <$> expired) (purchases st))))
       (set_traffic
          (base_limit_used st subscription + new_purchased subscription expired)
          (new_purchased subscription expired) subscription)).

Definition decayed_store (env : Env) (sid : Z) (expired : list TrafficPurchase)
    (subscription : Subscription) (st : Store) : Store :=
  set_subscriptions
    (<[sid := decayed_row env sid expired subscription st]> (subscriptions st))
    (set_purchases (without (purchase_pk <$> expired) (purchases st)) st).

(** The warning of the fallback to the tariff's allotment. *)
Definition is_fallback_warning (e : Effect) : Prop :=
  match e with
  | Logged WARNING (MsgNegativeBaseLimit _ _ _) => True
  | _ => False
  end.

(** A log record, as opposed to a message to a user or a push to the
    panel. *)
Definition is_logged (e : Effect) : Prop :=
  match e with
  | Logged _ _ => True
  | _ => False
  end.

(** The result of a decay that committed: the lookup of the user to
    notify, after the commit, is outside every [try]. *)
Definition notify_result (env : Env) (subscription : Subscription) : Res unit :=
  if bot env && negb (user_id subscription =? 0)
     && raises env (OpGetUser (user_id subscription))
  then Raise (StoreError (OpGetUser (user_id subscription)))
  else Ok tt.

(** Only the lookup of user [uid] raises; the bot is set. *)
Definition user_lookup_fails_env (t : Z) (uid : Z) : Env :=
  {| now := t; bot := true;
     raises := fun op => match op with OpGetUser u => bool_decide (u = uid) | _ => false end;
     debit_refused := fun _ => false; is_configured := true;
     get_user_devices := fun _ => ApiFailure;
     panel_fails := fun _ => false; send_fails := fun _ => false |}.

(** Both states of the session have the users, the tariffs and the ledger
    of the store [st], and no purchase that [st] does not have. *)
Definition frame_kept (st : Store) (w : World) : Prop :=
  (users (live w) = users st /\ tariffs (live w) = tariffs st /\
   transactions (live w) = transactions st /\
   forall p, p ∈ purchases (live w) -> p ∈ purchases st) /\
  (users (saved w) = users st /\ tariffs (saved w) = tariffs st /\
   transactions (saved w) = transactions st /\
   forall p, p ∈ purchases (saved w) -> p ∈ purchases st).

(** What the status check of the middleware finds: the loaded user and
    the subscription to mark, when the event carries a session and the
    subscription of its user is active with an end date at or before
    now. *)
Definition expiry_found (env : Env) (data : Data) (w : World)
    : option (User * Z * Subscription) :=
  if data_db data then
    match db_user data with
    | Some user =>
        match user_subscription user with
        | Some sid =>
            match subscriptions (live w) !! sid with
            | Some subscription =>
                if decide (status subscription = ACTIVE) then
                  match end_date subscription with
                  | Some t =>
                      if t <=? now env then Some (user, sid, subscription) else None
                  | None => None
                  end
                else None
            | None => None
            end
        | None => None
        end
    | None => None
    end
  else None.

(** The objects of the session after the middleware has marked the
    subscription [sid]. *)
Definition marked_store (env : Env) (sid : Z) (subscription : Subscription) (st : Store)
    : Store :=
  set_subscriptions
    (<[sid := set_updated_at (now env) (set_status EXPIRED subscription)]> (subscriptions st))
    st.

(** The session in which the middleware calls the handler. *)
Definition status_check (env : Env) (data : Data) (w : World) : World :=
  match expiry_found env data w with
  | None => w
  | Some (user, sid, subscription) =>
      if raises env (OpCommit (ByMiddleware (user_pk user)))
      then {| live := marked_store env sid subscription (live w); saved := saved w;
              effects := Logged ERROR MsgStatusCheckFailed :: effects w |}
      else {| live := marked_store env sid subscription (live w);
              saved := marked_store env sid subscription (live w);
              effects := Logged INFO (MsgMarkedExpired (user_pk user)) :: effects w |}
  end.

(** An event of user 7 that carries a session, and an environment in which
    only the commit of the middleware for user 7 raises. *)
Definition data_with_session : Data :=
  {| data_db := true; db_user := Some (example_user 500) |}.

Definition commit_fails_env (t : Z) : Env :=
  {| now := t; bot := true;
     raises := fun op => match op with OpCommit (ByMiddleware 7) => true | _ => false end;
     debit_refused := fun _ => false; is_configured := true;
     get_user_devices := fun _ => ApiFailure;
     panel_fails := fun _ => false; send_fails := fun _ => false |}.

(** The sum of the balances of the users, and the sum of the amounts of
    ledger entries. *)
Definition total_balance (m : gmap Z User) : Z :=
  map_fold (fun _ user acc => balance_kopeks user + acc) 0 m.

Definition ledger_total (l : list Transaction) : Z :=
  foldr (fun tx acc => amount_kopeks tx + acc) 0 l.

(** The inner [try] block of [process_daily_charges]. *)
Definition charge_inner (env : Env) : M (ChargeStats * World) unit :=
  let! subscriptions := lift (get_daily_subscriptions_for_charge env) in
  update_locals (set_checked (length subscriptions)) ;;
  for_each subscriptions (charge_iteration env) ;;
  lift (db_commit env ByChargeBatch).

(** The store [st'] comes from the store [st] by charges: the ledger
    gained at most what the balances lost, it only grew, by entries of
    positive amounts, no user row was added or removed, and no balance
    grew or became negative. *)
Definition charged_from (st st' : Store) : Prop :=
  ledger_total (transactions st') - ledger_total (transactions st)
  <= total_balance (users st) - total_balance (users st') /\
  (exists new, transactions st' = transactions st ++ new /\
               Forall (fun tx => 0 < amount_kopeks tx) new) /\
  (forall uid user, users st !! uid = Some user ->
     exists user', users st' !! uid = Some user' /\
       balance_kopeks user' <= balance_kopeks user /\
       (0 <= balance_kopeks user -> 0 <= balance_kopeks user')) /\
  dom (users st') = dom (users st).

(** The ledger gained exactly what the balances lost. *)
Definition balanced_from (st st' : Store) : Prop :=
  total_balance (users st) - total_balance (users st')
  = ledger_total (transactions st') - ledger_total (transactions st).

(** No ledger write raises. *)
Definition ledger_ok (env : Env) : Prop :=
  forall uid, raises env (OpCreateTransaction uid) = false.

(** Another task calls [stop_monitoring] during iteration [i]. *)
Definition stopped_in (sched : Schedule) (i : nat) : bool :=
  stop_at sched i AwaitCharges || stop_at sched i AwaitResets || stop_at sched i AwaitSleep.

(** The database after the iterations [i], ..., [i + k - 1] of the loop:
    each is a charge pass followed by a decay pass. *)
Fixpoint monitored_world (self : Service) (sched : Schedule) (i : nat) (k : nat) (w : World)
    : World :=
  match k with
  | O => w
  | S k =>
      monitored_world self sched (S i) k
        (snd (process_traffic_resets (pass_env self (reset_env sched i))
                (snd (process_daily_charges (pass_env self (charge_env sched i)) w))))
  end.

(** The sleeps of a journal, in seconds. *)
Definition sleeps (j : list MonitorEvent) : list Z :=
  omap (fun e => match e with Slept seconds => Some seconds | _ => None end) j.

(** Nothing fails; another task calls [stop_monitoring] while the loop
    sleeps in iteration [n]. *)
Definition stop_in_sleep (n : nat) : Schedule :=
  {| charge_env := fun _ => calm_env 1000 ApiFailure;
     reset_env := fun _ => calm_env 1000 ApiFailure;
     stop_at := fun i a =>
       match a with
       | AwaitSleep => Nat.eqb i n
       | _ => false
       end |}.

(** Nothing fails and nobody calls [stop_monitoring]. *)
Definition never_stopped : Schedule :=
  {| charge_env := fun _ => calm_env 1000 ApiFailure;
     reset_env := fun _ => calm_env 1000 ApiFailure;
     stop_at := fun _ _ => false |}.

Definition default_settings : Settings :=
  {| DAILY_SUBSCRIPTIONS_ENABLED := None;
     DAILY_SUBSCRIPTIONS_CHECK_INTERVAL_MINUTES := None |}.

(** A new instance of the service on the database of scenario A. *)
Definition example_monitor : Monitor :=
  {| service := DailySubscriptionService_init; world := scenario_a; journal := [] |}.

(** No store operation raises, except perhaps the commit that ends a decay
    batch and the rollback that follows its failure. *)
Definition units_ok (env : Env) : Prop :=
  forall op, raises env op = true -> op = OpCommit ByResetBatch \/ op = OpRollback.

(** Only the commit that ends a decay batch raises. *)
Definition batch_commit_fails_env (t : Z) : Env :=
  {| now := t; bot := true;
     raises := fun op => match op with OpCommit ByResetBatch => true | _ => false end;
     debit_refused := fun _ => false; is_configured := true;
     get_user_devices := fun _ => ApiFailure;
     panel_fails := fun _ => false; send_fails := fun _ => false |}.

(** * Reasoning about runs *)

Lemma push_nil w : push [] w = w.
Proof. by destruct w. Qed.

Lemma push_push es1 es2 w : push es1 (push es2 w) = push (es1 ++ es2) w.
Proof. unfold push; simpl. by rewrite app_assoc. Qed.

Lemma set_live_push st es w : set_live st (push es w) = push es (set_live st w).
Proof. reflexivity. Qed.

Lemma set_live_set_live st1 st2 w : set_live st1 (set_live st2 w) = set_live st1 w.
Proof. reflexivity. Qed.

Lemma live_push es w : live (push es w) = live w.
Proof. reflexivity. Qed.

Lemma saved_push es w : saved (push es w) = saved w.
Proof. reflexivity. Qed.

Lemma live_set_live st w : live (set_live st w) = st.
Proof. reflexivity. Qed.

Lemma saved_set_live st w : saved (set_live st w) = saved w.
Proof. reflexivity. Qed.

Lemma effects_push es w : effects (push es w) = es ++ effects w.
Proof. reflexivity. Qed.

Lemma effects_set_live st w : effects (set_live st w) = effects w.
Proof. reflexivity. Qed.

Create Rewrite HintDb world.
#[local] Hint Rewrite set_live_push set_live_set_live live_push saved_push
  live_set_live saved_set_live effects_push effects_set_live push_push : world.

(** Projections of updated stores, without unfolding the maps. *)
Ltac store_simpl :=
  cbn [live saved effects subscriptions users tariffs purchases transactions
       set_subscriptions set_users set_purchases set_transactions fst snd] in *.

Lemma logger_run lvl m w : logger lvl m w = (Ok tt, push [Logged lvl m] w).
Proof. reflexivity. Qed.

Lemma bind_run {S A B} (m : M S A) (k : A -> M S B) s :
  bind m k s = match m s with
               | (Ok a, s') => k a s'
               | (Raise e, s') => (Raise e, s')
               end.
Proof. reflexivity. Qed.

Lemma bind_ok {S A B} (m : M S A) (k : A -> M S B) s a s' :
  m s = (Ok a, s') -> bind m k s = k a s'.
Proof. intros H. by rewrite bind_run, H. Qed.

Lemma bind_raise {S A B} (m : M S A) (k : A -> M S B) s e s' :
  m s = (Raise e, s') -> bind m k s = (Raise e, s').
Proof. intros H. by rewrite bind_run, H. Qed.

Lemma try_ok {S A} (m : M S A) h s a s' :
  m s = (Ok a, s') -> try_except m h s = (Ok a, s').
Proof. intros H. unfold try_except. by rewrite H. Qed.

Lemma try_raise {S A} (m : M S A) h s e s' :
  m s = (Raise e, s') -> try_except m h s = h e s'.
Proof. intros H. unfold try_except. by rewrite H. Qed.

Lemma attempt_run env op w :
  attempt env op w =
  if raises env op then (Raise (StoreError op), w) else (Ok tt, w).
Proof. unfold attempt. by destruct (raises env op). Qed.

(** ** The device count *)

Lemma _get_device_count_run env subscription user w :
  exists n es,
    _get_device_count env subscription user w = (Ok n, push es w) /\
    1 <= n /\
    (truthy_str (remnawave_uuid user) = false -> n = 1) /\
    (is_configured env = false -> n = 1) /\
    (forall uuid, remnawave_uuid user = Some uuid ->
       get_user_devices env uuid = ApiFailure -> n = 1) /\
    (forall uuid total, remnawave_uuid user = Some uuid ->
       truthy_str (remnawave_uuid user) = true -> is_configured env = true ->
       get_user_devices env uuid = Response total -> n = Z.max 1 (or0 total)).
Proof.
  unfold _get_device_count.
  destruct (truthy_str (remnawave_uuid user)) eqn:Hu; simpl.
  2:{ exists 1, [Logged DEBUG (MsgNoRemnawaveUuid (telegram_id user))].
      repeat split; auto; try lia; intros; congruence. }
  destruct (remnawave_uuid user) as [uuid|] eqn:Huuid; [|discriminate]. simpl.
  unfold try_except.
  destruct (is_configured env) eqn:Hc; simpl.
  2:{ exists 1, []. rewrite push_nil.
      repeat split; auto; try lia; intros; congruence. }
  destruct (get_user_devices env uuid) as [|total] eqn:Hd; simpl.
  - exists 1, [Logged DEBUG (MsgDeviceCountFailed (telegram_id user))].
    repeat split; auto; try lia; intros; simplify_eq; congruence.
  - exists (Z.max 1 (or0 total)),
      [Logged DEBUG (MsgDeviceCount (telegram_id user) (or0 total))].
    repeat split; auto; try lia; intros; simplify_eq; congruence.
Qed.

(** ** Small blocks that always return *)

Lemma resolve_user_run env subscription w :
  exists r, resolve_user env subscription w = (r, w) /\
    (forall uid user, r = Ok (Some (uid, user)) -> users (live w) !! uid = Some user) /\
    (forall e, r = Raise e ->
       e = StoreError (OpGetUser (user_id subscription)) /\
       raises env (OpGetUser (user_id subscription)) = true).
Proof.
  assert (Hfallback : exists r,
    (let! user := get_user_by_id env (user_id subscription) in
     ret (pair (user_id subscription) <$> user)) w = (r, w) /\
    (forall uid user, r = Ok (Some (uid, user)) -> users (live w) !! uid = Some user) /\
    (forall e, r = Raise e ->
       e = StoreError (OpGetUser (user_id subscription)) /\
       raises env (OpGetUser (user_id subscription)) = true)).
  { unfold get_user_by_id. rewrite !bind_run, attempt_run.
    destruct (raises env _) eqn:Hr; simpl.
    - eexists; split; [reflexivity|]. split; intros ? ?; intros; simplify_eq; eauto.
    - destruct (users (live w) !! user_id subscription) eqn:Hu; simpl;
        (eexists; split; [reflexivity|]); split; intros ? ?; intros; simplify_eq; eauto. }
  unfold resolve_user. rewrite bind_run; simpl.
  destruct (sub_user subscription) as [uid|] eqn:Hrel; simpl; [|exact Hfallback].
  destruct (users (live w) !! uid) as [u|] eqn:Hu; simpl; [|exact Hfallback].
  eexists; split; [reflexivity|]. split; intros ? ?; intros; simplify_eq; eauto.
Qed.

Lemma resolve_tariff_run subscription w :
  resolve_tariff subscription w =
  (Ok (match sub_tariff subscription with
       | Some tid => tariffs (live w) !! tid
       | None => None
       end), w).
Proof. reflexivity. Qed.

Lemma send_message_run env chat n w :
  send_message env chat n w =
  if send_fails env chat then (Raise (SendError chat), w) else (Ok tt, push [Sent chat n] w).
Proof. unfold send_message. by destruct (send_fails env chat). Qed.

Lemma _notify_daily_charge_run env uid user subscription amount device_count w :
  _notify_daily_charge env uid user subscription amount device_count w =
  (Ok tt,
   push (notice_effects env (telegram_id user)
           (NoticeDailyCharge amount
              (balance_kopeks (default user (users (live w) !! uid))) device_count)
           MsgNotifyChargeFailed) w).
Proof.
  unfold _notify_daily_charge, notice_effects. destruct (bot env); simpl.
  - unfold try_except. rewrite bind_run; simpl. rewrite send_message_run.
    by destruct (send_fails env _).
  - by rewrite push_nil.
Qed.

Lemma _notify_insufficient_balance_run env uid user subscription amount w :
  _notify_insufficient_balance env uid user subscription amount w =
  (Ok tt,
   push (notice_effects env (telegram_id user)
           (NoticeInsufficientBalance amount
              (balance_kopeks (default user (users (live w) !! uid))))
           MsgNotifyInsufficientFailed) w).
Proof.
  unfold _notify_insufficient_balance, notice_effects. destruct (bot env); simpl.
  - unfold try_except. rewrite bind_run; simpl. rewrite send_message_run.
    by destruct (send_fails env _).
  - by rewrite push_nil.
Qed.

Lemma _notify_traffic_reset_run env user sid reset_gb w :
  _notify_traffic_reset env user sid reset_gb w =
  (Ok tt,
   push (notice_effects env (telegram_id user)
           (NoticeTrafficReset reset_gb
              match subscriptions (live w) !! sid with
              | Some s => traffic_limit_gb s
              | None => 0
              end)
           MsgNotifyResetFailed) w).
Proof.
  unfold _notify_traffic_reset, notice_effects. destruct (bot env); simpl.
  - unfold try_except. rewrite bind_run; simpl. rewrite send_message_run.
    by destruct (send_fails env _).
  - by rewrite push_nil.
Qed.

(** A notifier called under [if self._bot] is the notifier. *)
Lemma if_bot_run env (notify : M World unit) es w :
  notify w = (Ok tt, push (if bot env then es else []) w) ->
  (if bot env then notify else ret tt) w = notify w.
Proof.
  intros H. destruct (bot env); [done|]. rewrite H. by rewrite push_nil.
Qed.

Lemma create_remnawave_user_guarded env subscription w :
  try_except (create_remnawave_user env subscription)
    (fun e => logger WARNING MsgPanelUpdateFailed) w =
  (Ok tt, push (panel_effects env (sub_pk subscription) MsgPanelUpdateFailed) w).
Proof.
  unfold try_except, create_remnawave_user, panel_effects.
  by destruct (panel_fails env _).
Qed.

Lemma update_remnawave_user_guarded env sid w :
  try_except (update_remnawave_user env sid)
    (fun e => logger WARNING MsgPanelSyncFailed) w =
  (Ok tt, push (panel_effects env sid MsgPanelSyncFailed) w).
Proof.
  unfold try_except, update_remnawave_user, panel_effects.
  by destruct (panel_fails env _).
Qed.

(** ** One charge *)

Lemma subtract_user_balance_run env uid amount description w user :
  users (live w) !! uid = Some user ->
  subtract_user_balance env uid amount description w =
  if raises env (OpDebit uid) then (Raise (StoreError (OpDebit uid)), w)
  else if debit_refused env uid then (Ok false, w)
  else if balance_kopeks user <? amount then (Ok false, w)
  else (Ok true,
        set_live (set_users
          (alter (set_balance (balance_kopeks user - amount)) uid (users (live w)))
          (live w)) w).
Proof.
  intros Hfound. unfold subtract_user_balance.
  rewrite bind_run, attempt_run.
  destruct (raises env (OpDebit uid)); [reflexivity|].
  rewrite bind_run. simpl. rewrite Hfound.
  destruct (debit_refused env uid); [reflexivity|].
  destruct (balance_kopeks user <? amount); reflexivity.
Qed.

Lemma create_transaction_run env user_id type amount description payment_method w :
  create_transaction env user_id type amount description payment_method w =
  if raises env (OpCreateTransaction user_id)
  then (Raise (StoreError (OpCreateTransaction user_id)), w)
  else (Ok tt,
        set_live (set_transactions
          (transactions (live w) ++
           [{| tx_user_id := user_id; tx_type := type; amount_kopeks := amount;
               tx_description := description; tx_payment_method := payment_method |}])
          (live w)) w).
Proof.
  unfold create_transaction. rewrite bind_run, attempt_run.
  by destruct (raises env _).
Qed.

Lemma update_daily_charge_time_run env subscription w :
  update_daily_charge_time env subscription w =
  if raises env (OpUpdateChargeTime (sub_pk subscription))
  then (Raise (StoreError (OpUpdateChargeTime (sub_pk subscription))), w)
  else (Ok (set_charge_time (now env) (now env + billing_cycle) subscription),
        set_live (set_subscriptions
          (alter (set_charge_time (now env) (now env + billing_cycle))
             (sub_pk subscription) (subscriptions (live w)))
          (live w)) w).
Proof.
  unfold update_daily_charge_time. rewrite bind_run, attempt_run.
  by destruct (raises env _).
Qed.

Lemma _process_single_charge_run env subscription w uid user tariff :
  resolve_user env subscription w = (Ok (Some (uid, user)), w) ->
  resolve_tariff subscription w = (Ok (Some tariff), w) ->
  0 < daily_price_kopeks tariff ->
  exists n es,
    _get_device_count env subscription user w = (Ok n, push es w) /\
    let total := daily_price_kopeks tariff * n in
    (balance_kopeks user < total ->
       exists es', _process_single_charge env subscription w =
         (Ok OutSuspended, push es' (set_live (suspended_store subscription (live w)) w))) /\
    (total <= balance_kopeks user ->
     raises env (OpDebit uid) = true \/ debit_refused env uid = true ->
       exists es', _process_single_charge env subscription w = (Ok OutError, push es' w)) /\
    (total <= balance_kopeks user ->
     raises env (OpDebit uid) = false -> debit_refused env uid = false ->
     raises env (OpCreateTransaction (user_pk user)) = false ->
     raises env (OpUpdateChargeTime (sub_pk subscription)) = false ->
       exists es', _process_single_charge env subscription w =
         (Ok OutCharged,
          push es' (set_live (charged_store env subscription uid user tariff n (live w)) w))) /\
    (total <= balance_kopeks user ->
     raises env (OpDebit uid) = false -> debit_refused env uid = false ->
     raises env (OpCreateTransaction (user_pk user)) = true ->
       exists es', _process_single_charge env subscription w =
         (Ok OutError, push es' (set_live (debited_store uid user total (live w)) w))) /\
    (total <= balance_kopeks user ->
     raises env (OpDebit uid) = false -> debit_refused env uid = false ->
     raises env (OpCreateTransaction (user_pk user)) = false ->
     raises env (OpUpdateChargeTime (sub_pk subscription)) = true ->
       exists es', _process_single_charge env subscription w =
         (Ok OutError, push es' (set_live (recorded_store uid user tariff n (live w)) w))).
Proof.
  intros Hu Ht Hprice.
  destruct (resolve_user_run env subscription w) as (r & Hr & Hfound & _).
  rewrite Hu in Hr. injection Hr as <-. specialize (Hfound _ _ eq_refl).
  destruct (_get_device_count_run env subscription user w) as (n & es & Hn & Hge & _).
  exists n, es. split; [exact Hn|]. simpl.
  unfold _process_single_charge.
  rewrite (bind_ok _ _ _ _ _ Hu). rewrite (bind_ok _ _ _ _ _ Ht).
  destruct (daily_price_kopeks tariff <=? 0) eqn:Hp; [lia|].
  rewrite (bind_ok _ _ _ _ _ Hn).
  split_and!.
  - intros Hlt.
    destruct (balance_kopeks user <? daily_price_kopeks tariff * n) eqn:Hb; [|lia].
    rewrite bind_run.
    unfold suspend_daily_subscription_insufficient_balance, update_subscription, modify.
    match goal with |- context [ set_live ?st (push es w) ] =>
      set (w1 := set_live st (push es w)) end.
    rewrite bind_run.
    erewrite if_bot_run by (rewrite _notify_insufficient_balance_run; reflexivity).
    rewrite _notify_insufficient_balance_run, bind_run, logger_run.
    unfold ret, w1. autorewrite with world. eexists. reflexivity.
  - intros Hle Hfail.
    destruct (balance_kopeks user <? daily_price_kopeks tariff * n) eqn:Hb; [lia|].
    unfold try_except. rewrite bind_run.
    rewrite (subtract_user_balance_run _ _ _ _ _ user) by exact Hfound.
    destruct (raises env (OpDebit uid)) eqn:Hraise.
    { eexists (_ :: es). reflexivity. }
    destruct (debit_refused env uid) eqn:Hrefused; [|by destruct Hfail].
    eexists (_ :: es). reflexivity.
  - intros Hle Hraise Hrefused Hcreate Hupdate.
    destruct (balance_kopeks user <? daily_price_kopeks tariff * n) eqn:Hb; [lia|].
    match goal with |- exists es', try_except ?m ?h ?s = (?r, @?W es') =>
      cut (exists es', m s = (r, W es'));
        [intros [es' H']; exists es'; by apply try_ok|] end.
    rewrite bind_run.
    rewrite (subtract_user_balance_run _ _ _ _ _ user) by exact Hfound.
    rewrite Hraise, Hrefused, Hb. cbv beta iota. cbn [negb]. cbv iota.
    rewrite bind_run, create_transaction_run, Hcreate. cbv beta iota.
    rewrite bind_run, update_daily_charge_time_run, Hupdate. cbv beta iota.
    rewrite bind_run, logger_run. cbv beta iota.
    rewrite bind_run, create_remnawave_user_guarded. cbv beta iota.
    rewrite bind_run.
    erewrite if_bot_run by (rewrite _notify_daily_charge_run; reflexivity).
    rewrite _notify_daily_charge_run.
    unfold ret. autorewrite with world. eexists. reflexivity.
  - intros Hle Hraise Hrefused Hcreate.
    destruct (balance_kopeks user <? daily_price_kopeks tariff * n) eqn:Hb; [lia|].
    erewrite try_raise.
    2:{ rewrite bind_run.
        rewrite (subtract_user_balance_run _ _ _ _ _ user) by exact Hfound.
        rewrite Hraise, Hrefused, Hb. cbv beta iota. cbn [negb]. cbv iota.
        rewrite bind_run, create_transaction_run, Hcreate. reflexivity. }
    rewrite bind_run, logger_run. unfold ret. autorewrite with world.
    eexists. reflexivity.
  - intros Hle Hraise Hrefused Hcreate Hupdate.
    destruct (balance_kopeks user <? daily_price_kopeks tariff * n) eqn:Hb; [lia|].
    erewrite try_raise.
    2:{ rewrite bind_run.
        rewrite (subtract_user_balance_run _ _ _ _ _ user) by exact Hfound.
        rewrite Hraise, Hrefused, Hb. cbv beta iota. cbn [negb]. cbv iota.
        rewrite bind_run, create_transaction_run, Hcreate. cbv beta iota.
        rewrite bind_run, update_daily_charge_time_run, Hupdate. reflexivity. }
    rewrite bind_run, logger_run. unfold ret. autorewrite with world.
    eexists. reflexivity.
Qed.

(** The early exits of a charge: the user or the tariff is missing, or the
    configured price is not positive. *)
Lemma _process_single_charge_no_user env subscription w :
  resolve_user env subscription w = (Ok None, w) ->
  _process_single_charge env subscription w =
  (Ok OutError, push [Logged WARNING (MsgUserNotFound (sub_pk subscription))] w).
Proof.
  intros Hu. unfold _process_single_charge. by rewrite (bind_ok _ _ _ _ _ Hu).
Qed.

Lemma _process_single_charge_user_raises env subscription w e :
  resolve_user env subscription w = (Raise e, w) ->
  _process_single_charge env subscription w = (Raise e, w).
Proof.
  intros Hu. unfold _process_single_charge. by rewrite (bind_raise _ _ _ _ _ Hu).
Qed.

Lemma _process_single_charge_no_tariff env subscription w uid user :
  resolve_user env subscription w = (Ok (Some (uid, user)), w) ->
  resolve_tariff subscription w = (Ok None, w) ->
  _process_single_charge env subscription w =
  (Ok OutError, push [Logged WARNING (MsgTariffNotFound (sub_pk subscription))] w).
Proof.
  intros Hu Ht. unfold _process_single_charge.
  by rewrite (bind_ok _ _ _ _ _ Hu), (bind_ok _ _ _ _ _ Ht).
Qed.

Lemma _process_single_charge_bad_price env subscription w uid user tariff :
  resolve_user env subscription w = (Ok (Some (uid, user)), w) ->
  resolve_tariff subscription w = (Ok (Some tariff), w) ->
  daily_price_kopeks tariff <= 0 ->
  _process_single_charge env subscription w =
  (Ok OutError, push [Logged WARNING (MsgBadDailyPrice (tariff_pk tariff))] w).
Proof.
  intros Hu Ht Hp. unfold _process_single_charge.
  rewrite (bind_ok _ _ _ _ _ Hu), (bind_ok _ _ _ _ _ Ht).
  destruct (daily_price_kopeks tariff <=? 0) eqn:Hle; [done|lia].
Qed.


(** ** The charge batch *)

Lemma lift_run {L A} (m : M World A) (st : L) w :
  lift m (st, w) = (fst (m w), (st, snd (m w))).
Proof. unfold lift. simpl. by destruct (m w). Qed.

Lemma charge_iteration_run env subscription st w :
  charge_iteration env subscription (st, w) =
  (Ok tt,
   (count_outcome (fst (_process_single_charge env subscription w)) st,
    after_charge subscription (fst (_process_single_charge env subscription w))
      (snd (_process_single_charge env subscription w)))).
Proof.
  unfold charge_iteration, try_except. rewrite bind_run, lift_run.
  destruct (_process_single_charge env subscription w) as [[[]|e] w']; reflexivity.
Qed.

Lemma for_each_charge_run env subs st w :
  for_each subs (charge_iteration env) (st, w) =
  (Ok tt, (tally (fst (charge_units env subs w)) st, snd (charge_units env subs w))).
Proof.
  revert st w. induction subs as [|s rest IH]; intros st w; [reflexivity|].
  cbn [for_each]. rewrite bind_run, charge_iteration_run. cbv beta iota.
  rewrite IH. reflexivity.
Qed.




(** ** The shape of a batch

    Both batches are
    [try: async with AsyncSessionLocal(): try: inner except: log, rollback
     except: log] followed by [return stats]. *)

Lemma lift_ok {L A} (m : M World A) (st : L) w a w' :
  m w = (Ok a, w') -> lift m (st, w) = (Ok a, (st, w')).
Proof. intros H. unfold lift. simpl. by rewrite H. Qed.

Lemma lift_raise {L A} (m : M World A) (st : L) w e w' :
  m w = (Raise e, w') -> lift (A:=A) m (st, w) = (Raise e, (st, w')).
Proof. intros H. unfold lift. simpl. by rewrite H. Qed.

Lemma AsyncSessionLocal_run env w :
  AsyncSessionLocal env w =
  if raises env OpSession then (Raise (StoreError OpSession), w)
  else (Ok tt, session w).
Proof.
  unfold AsyncSessionLocal. rewrite bind_run, attempt_run.
  by destruct (raises env OpSession).
Qed.

Lemma db_rollback_run env w :
  db_rollback env w =
  if raises env OpRollback then (Raise (StoreError OpRollback), w)
  else (Ok tt, session w).
Proof.
  unfold db_rollback. rewrite bind_run, attempt_run.
  by destruct (raises env OpRollback).
Qed.

Lemma db_commit_run env who w :
  db_commit env who w =
  if raises env (OpCommit who) then (Raise (StoreError (OpCommit who)), w)
  else (Ok tt, {| live := live w; saved := live w; effects := effects w |}).
Proof.
  unfold db_commit. rewrite bind_run, attempt_run.
  by destruct (raises env (OpCommit who)).
Qed.

(** The handler of the inner [try] keeps the counters. *)
Lemma log_and_rollback_run {L} env msg (st : L) w :
  exists r,
    (lift (logger ERROR msg) ;; lift (db_rollback env)) (st, w) =
    (r, (st, if raises env OpRollback then push [Logged ERROR msg] w
             else session (push [Logged ERROR msg] w))).
Proof.
  rewrite bind_run. erewrite lift_ok by apply logger_run.
  destruct (raises env OpRollback) eqn:Hr.
  - erewrite lift_raise by (rewrite db_rollback_run, Hr; reflexivity). eauto.
  - erewrite lift_ok by (rewrite db_rollback_run, Hr; reflexivity). eauto.
Qed.

(** A batch always returns its counters: those it started with when the
    session cannot be opened, otherwise those that [inner] left. *)
Lemma batch_shape {L} env (inner : M (L * World) unit) msg1 msg2 (st : L) w :
  exists w',
    with_locals st
      (try_except
         (lift (AsyncSessionLocal env) ;;
          try_except inner
            (fun e => lift (logger ERROR msg1) ;; lift (db_rollback env)))
         (fun e => lift (logger ERROR msg2)) ;;
       let! stats := locals in
       ret stats) w =
    (Ok (if raises env OpSession then st else fst (snd (inner (st, session w)))), w').
Proof.
  unfold with_locals. rewrite bind_run.
  destruct (raises env OpSession) eqn:Hs.
  - erewrite try_raise.
    2:{ apply bind_raise, lift_raise. rewrite AsyncSessionLocal_run, Hs. reflexivity. }
    erewrite lift_ok by apply logger_run. cbn. eauto.
  - destruct (inner (st, session w)) as [r [st' w1]] eqn:Hinner. cbn [fst snd].
    assert (exists r' w2,
      (lift (AsyncSessionLocal env) ;;
       try_except inner
         (fun e => lift (logger ERROR msg1) ;; lift (db_rollback env))) (st, w)
      = (r', (st', w2))) as (r' & w2 & Hrun).
    { erewrite bind_ok
        by (apply lift_ok; rewrite AsyncSessionLocal_run, Hs; reflexivity).
      destruct r as [[]|e].
      - erewrite try_ok by exact Hinner. eauto.
      - erewrite try_raise by exact Hinner.
        destruct (log_and_rollback_run (L:=L) env msg1 st' w1) as [r' ->]. eauto. }
    destruct r' as [[]|e].
    + erewrite try_ok by exact Hrun. cbn. eauto.
    + erewrite try_raise by exact Hrun.
      erewrite lift_ok by apply logger_run. cbn. eauto.
Qed.

(** What holds of the session after a batch: a property that logging and
    opening or rolling back a session keep, and that holds after [inner]. *)
Lemma batch_world {L} env (inner : M (L * World) unit) msg1 msg2 (st : L) w
    (Q : World -> Prop) :
  (forall es w', Q w' -> Q (push es w')) ->
  (forall w', Q w' -> Q (session w')) ->
  (raises env OpSession = true -> Q w) ->
  (raises env OpSession = false -> Q (snd (snd (inner (st, session w))))) ->
  Q (snd (with_locals st
            (try_except
               (lift (AsyncSessionLocal env) ;;
                try_except inner
                  (fun e => lift (logger ERROR msg1) ;; lift (db_rollback env)))
               (fun e => lift (logger ERROR msg2)) ;;
             let! stats := locals in
             ret stats) w)).
Proof.
  intros Hpush Hsession Hclosed Hinner.
  unfold with_locals. rewrite bind_run.
  destruct (raises env OpSession) eqn:Hs.
  - erewrite try_raise.
    2:{ apply bind_raise, lift_raise. rewrite AsyncSessionLocal_run, Hs. reflexivity. }
    erewrite lift_ok by apply logger_run. cbn. by apply Hpush, Hclosed.
  - specialize (Hinner eq_refl).
    destruct (inner (st, session w)) as [r [st' w1]] eqn:Hrun. cbn [fst snd] in Hinner.
    assert (exists r' w2,
      (lift (AsyncSessionLocal env) ;;
       try_except inner
         (fun e => lift (logger ERROR msg1) ;; lift (db_rollback env))) (st, w)
      = (r', (st', w2)) /\ Q w2) as (r' & w2 & Hrun' & HQ).
    { erewrite bind_ok
        by (apply lift_ok; rewrite AsyncSessionLocal_run, Hs; reflexivity).
      destruct r as [[]|e].
      - erewrite try_ok by exact Hrun. eauto.
      - erewrite try_raise by exact Hrun.
        destruct (log_and_rollback_run (L:=L) env msg1 st' w1) as [r' ->].
        eexists _, _. split; [reflexivity|].
        destruct (raises env OpRollback); auto. }
    destruct r' as [[]|e].
    + erewrite try_ok by exact Hrun'. cbn. exact HQ.
    + erewrite try_raise by exact Hrun'.
      erewrite lift_ok by apply logger_run. cbn. by apply Hpush.
Qed.

Lemma get_daily_subscriptions_for_charge_run env w :
  get_daily_subscriptions_for_charge env w =
  if raises env OpSelectDue then (Raise (StoreError OpSelectDue), w)
  else (Ok (due_subscriptions env (live w)), w).
Proof.
  unfold get_daily_subscriptions_for_charge. rewrite bind_run, attempt_run.
  by destruct (raises env OpSelectDue).
Qed.

Lemma process_daily_charges_run env w :
  exists w', process_daily_charges env w = (Ok (charge_stats env w), w').
Proof.
  unfold process_daily_charges.
  edestruct (batch_shape (L:=ChargeStats) env) as [w' Hrun].
  rewrite Hrun. exists w'. do 2 f_equal. clear Hrun.
  unfold charge_stats.
  destruct (raises env OpSession); [reflexivity|]. cbn [orb].
  rewrite bind_run.
  destruct (raises env OpSelectDue) eqn:Hd.
  - erewrite lift_raise
      by (rewrite get_daily_subscriptions_for_charge_run, Hd; reflexivity).
    reflexivity.
  - erewrite lift_ok
      by (rewrite get_daily_subscriptions_for_charge_run, Hd; reflexivity).
    rewrite bind_run. unfold update_locals at 1, modify at 1. cbn [fst snd].
    rewrite bind_run.
    change (for_each ?l _ ?s) with (for_each l (charge_iteration env) s).
    rewrite for_each_charge_run.
    destruct (lift (L:=ChargeStats) (db_commit env ByChargeBatch)
                (tally (fst (charge_units env (due_subscriptions env (live (session w)))
                               (session w)))
                   (set_checked (length (due_subscriptions env (live (session w))))
                      {| checked := 0; charged := 0; suspended := 0; errors := 0 |}),
                 snd (charge_units env (due_subscriptions env (live (session w)))
                        (session w))))
      as [r [st' w1]] eqn:Hc.
    unfold lift in Hc. cbn [fst snd] in Hc.
    destruct (db_commit env ByChargeBatch _) as [r' w1'].
    injection Hc as _ <- _. reflexivity.
Qed.

(** ** One group of expired purchases *)

Lemma select_subscription_run env sid w :
  select_subscription env sid w =
  if raises env (OpSelectSubscription sid)
  then (Raise (StoreError (OpSelectSubscription sid)), w)
  else (Ok (subscriptions (live w) !! sid), w).
Proof.
  unfold select_subscription. rewrite bind_run, attempt_run.
  by destruct (raises env _).
Qed.

Lemma select_remaining_run env sid w :
  select_remaining env sid w =
  if raises env (OpSelectRemaining sid)
  then (Raise (StoreError (OpSelectRemaining sid)), w)
  else (Ok (filter (fun p => subscription_id p = sid /\ now env < expires_at p)
              (purchases (live w))), w).
Proof.
  unfold select_remaining. rewrite bind_run, attempt_run.
  by destruct (raises env _).
Qed.

Lemma get_tariff_by_id_run env tid w :
  get_tariff_by_id env tid w =
  if raises env (OpGetTariff tid) then (Raise (StoreError (OpGetTariff tid)), w)
  else (Ok (tariffs (live w) !! tid), w).
Proof.
  unfold get_tariff_by_id. rewrite bind_run, attempt_run.
  by destruct (raises env _).
Qed.

Lemma get_user_by_id_run env uid w :
  get_user_by_id env uid w =
  if raises env (OpGetUser uid) then (Raise (StoreError (OpGetUser uid)), w)
  else (Ok (users (live w) !! uid), w).
Proof.
  unfold get_user_by_id. rewrite bind_run, attempt_run.
  by destruct (raises env _).
Qed.

Lemma clamp_run sid total old_purchased w :
  (if old_purchased <? total then
     logger ERROR (MsgExpiredExceedsPurchased sid total old_purchased) ;;
     ret old_purchased
   else ret total) w =
  (Ok (if old_purchased <? total then old_purchased else total),
   push (if old_purchased <? total
         then [Logged ERROR (MsgExpiredExceedsPurchased sid total old_purchased)]
         else []) w).
Proof. destruct (old_purchased <? total); [reflexivity|]. by rewrite push_nil. Qed.

Lemma base_limit_run env subscription w :
  (if truthy (tariff_id subscription) then
     let! tariff := get_tariff_by_id env (or0 (tariff_id subscription)) in
     match tariff with
     | Some tariff =>
         if traffic_limit_gb subscription - or0 (purchased_traffic_gb subscription) <? 0
         then
           logger WARNING
             (MsgNegativeBaseLimit (sub_pk subscription)
                (traffic_limit_gb subscription - or0 (purchased_traffic_gb subscription))
                (or0 (tariff_traffic_limit_gb tariff))) ;;
           ret (or0 (tariff_traffic_limit_gb tariff))
         else
           ret (traffic_limit_gb subscription - or0 (purchased_traffic_gb subscription))
     | None =>
         ret (traffic_limit_gb subscription - or0 (purchased_traffic_gb subscription))
     end
   else ret (traffic_limit_gb subscription - or0 (purchased_traffic_gb subscription))) w =
  if truthy (tariff_id subscription) && raises env (OpGetTariff (or0 (tariff_id subscription)))
  then (Raise (StoreError (OpGetTariff (or0 (tariff_id subscription)))), w)
  else
    (Ok match tariff_fallback (live w) subscription with
        | Some tariff_base_limit => tariff_base_limit
        | None => traffic_limit_gb subscription - or0 (purchased_traffic_gb subscription)
        end,
     push match tariff_fallback (live w) subscription with
          | Some tariff_base_limit =>
              [Logged WARNING
                 (MsgNegativeBaseLimit (sub_pk subscription)
                    (traffic_limit_gb subscription
                     - or0 (purchased_traffic_gb subscription))
                    tariff_base_limit)]
          | None => []
          end w).
Proof.
  unfold tariff_fallback.
  destruct (truthy (tariff_id subscription)); cbn [andb].
  2:{ by rewrite push_nil. }
  rewrite bind_run, get_tariff_by_id_run.
  destruct (raises env _); [reflexivity|].
  destruct (tariffs (live w) !! or0 (tariff_id subscription)) as [tariff|].
  2:{ by rewrite push_nil. }
  destruct (_ <? 0); [reflexivity|]. by rewrite push_nil.
Qed.

(** Step 5 of the decay: the guard that the new limit is not below the base. *)
Lemma guard_run new_limit new_purchased base_limit w :
  (if new_limit <? base_limit then
     logger ERROR (MsgLimitBelowBase new_limit base_limit) ;;
     ret (base_limit, 0)
   else ret (new_limit, new_purchased)) w =
  (Ok (if new_limit <? base_limit then (base_limit, 0) else (new_limit, new_purchased)),
   push (if new_limit <? base_limit
         then [Logged ERROR (MsgLimitBelowBase new_limit base_limit)]
         else []) w).
Proof. destruct (new_limit <? base_limit); [reflexivity|]. by rewrite push_nil. Qed.

Lemma without_nil l : without [] l = l.
Proof.
  unfold without. induction l as [|p l IH]; [done|].
  rewrite filter_cons_True by set_solver. by rewrite IH.
Qed.

Lemma without_cons pk pks l :
  without pks (filter (fun p => purchase_pk p <> pk) l) = without (pk :: pks) l.
Proof.
  unfold without. induction l as [|p l IH]; [done|].
  rewrite !filter_cons.
  destruct (decide (purchase_pk p <> pk)) as [Hne|Heq].
  - rewrite filter_cons. rewrite IH.
    destruct (decide (purchase_pk p ∉ pks)), (decide (purchase_pk p ∉ pk :: pks));
      set_solver.
  - rewrite IH. destruct (decide (purchase_pk p ∉ pk :: pks)); [|done].
    apply dec_stable in Heq. set_solver.
Qed.

Lemma db_delete_run env purchase w :
  db_delete env purchase w =
  if raises env (OpDelete (purchase_pk purchase))
  then (Raise (StoreError (OpDelete (purchase_pk purchase))), w)
  else (Ok tt,
        set_live (set_purchases
          (filter (fun p => purchase_pk p <> purchase_pk purchase) (purchases (live w)))
          (live w)) w).
Proof.
  unfold db_delete. rewrite bind_run, attempt_run.
  by destruct (raises env _).
Qed.

(** The loop over the expired purchases deletes them in order and stops at
    the first deletion that raises. *)
Lemma delete_loop_run env expired w :
  exists r deleted,
    for_each expired (db_delete env) w =
    (r, set_live (set_purchases (without deleted (purchases (live w))) (live w)) w) /\
    deleted ⊆ purchase_pk <$> expired /\
    (r = Ok tt -> deleted = purchase_pk <$> expired) /\
    (forall e, r = Raise e -> exists op, e = StoreError op /\ raises env op = true).
Proof.
  revert w. induction expired as [|p rest IH]; intros w.
  - exists (Ok tt), []. rewrite without_nil. split; [by destruct w as [[] ? ?]|].
    split; [done|]. split; [done|]. intros e He. discriminate He.
  - cbn [for_each]. rewrite bind_run, db_delete_run.
    destruct (raises env (OpDelete (purchase_pk p))) eqn:Hr.
    + exists (Raise (StoreError (OpDelete (purchase_pk p)))), [].
      rewrite without_nil. split; [by destruct w as [[] ? ?]|].
      split; [set_solver|]. split; [done|]. intros e [= <-]. eauto.
    + destruct (IH (set_live (set_purchases
                  (filter (fun q => purchase_pk q <> purchase_pk p) (purchases (live w)))
                  (live w)) w)) as (r & deleted & Hrun & Hsub & Hok & Hraise).
      exists r, (purchase_pk p :: deleted). rewrite Hrun.
      split; [|split; [|split; [|exact Hraise]]].
      * autorewrite with world. store_simpl. by rewrite without_cons.
      * rewrite fmap_cons. set_solver.
      * intros Hr'. rewrite (Hok Hr'). reflexivity.
Qed.

Lemma new_purchased_nonneg subscription expired :
  0 <= new_purchased subscription expired.
Proof.
  unfold new_purchased, clamped_total.
  destruct (_ <? _) eqn:H; lia.
Qed.

(** The last steps of a decay, after the commit: the notification. *)
Lemma notify_tail_run env subscription sid total w :
  exists r es,
    (if bot env && negb (user_id subscription =? 0) then
       let! user := get_user_by_id env (user_id subscription) in
       match user with
       | Some user => _notify_traffic_reset env user sid total
       | None => ret tt
       end
     else ret tt) w = (r, push es w) /\
    (forall e, r = Raise e -> exists op, e = StoreError op /\ raises env op = true).
Proof.
  destruct (bot env && negb (user_id subscription =? 0)).
  2:{ exists (Ok tt), []. rewrite push_nil. split; [done|]. intros e He; discriminate He. }
  rewrite bind_run, get_user_by_id_run.
  destruct (raises env _) eqn:Hr.
  { eexists _, []. rewrite push_nil. split; [done|]. intros e [= <-]. eauto. }
  destruct (users (live w) !! user_id subscription) as [user|].
  - rewrite _notify_traffic_reset_run. eexists _, _. split; [done|].
    intros e He; discriminate He.
  - exists (Ok tt), []. rewrite push_nil. split; [done|]. intros e He; discriminate He.
Qed.

Lemma reset_fields subscription expired base :
  0 <= base ->
  let np := new_purchased subscription expired in
  let guarded := if base + np <? base then (base, 0) else (base + np, np) in
  (base + np <? base) = false /\
  Z.max 0 (fst guarded) = base + np /\ Z.max 0 (snd guarded) = np.
Proof.
  intros Hb. pose proof (new_purchased_nonneg subscription expired) as Hnp.
  cbv zeta. destruct (_ <? _) eqn:H; cbn [fst snd]; lia.
Qed.

Lemma alter_Some {A} (f : A -> A) (i : Z) (m : gmap Z A) x :
  m !! i = Some x -> alter f i m = <[i := f x]> m.
Proof.
  intros H. apply map_eq. intros j. rewrite lookup_alter, lookup_insert.
  case_decide; [subst; by rewrite H|done].
Qed.

Lemma alter_insert_same {A} (f : A -> A) (i : Z) (m : gmap Z A) x :
  alter f i (<[i := x]> m) = <[i := f x]> m.
Proof.
  apply map_eq. intros j. rewrite lookup_alter, !lookup_insert.
  case_decide; [|done]. by rewrite decide_True.
Qed.

Lemma reset_unit_spec env sid expired w subscription :
  subscriptions (live w) !! sid = Some subscription ->
  exists r w',
    _reset_subscription_traffic env sid expired w = (r, w') /\
    reset_post env sid expired subscription w r w'.
Proof.
  intros Hsub.
  unfold _reset_subscription_traffic.
  rewrite bind_run, select_subscription_run.
  destruct (raises env (OpSelectSubscription sid)) eqn:Hsel.
  { eexists _, _. split; [reflexivity|]. unfold reset_post.
    split_and!; try done.
    - by exists [].
    - intros e [= <-]. eauto.
    - left. split_and!; try done. exists []. split; [set_solver|]. by rewrite without_nil. }
  rewrite Hsub. cbv beta iota zeta.
  rewrite bind_run, clamp_run. cbv beta iota.
  fold (clamped_total subscription expired).
  fold (new_purchased subscription expired).
  set (es1 := if _ <? _ then _ else []).
  rewrite bind_run, base_limit_run. rewrite live_push.
  destruct (truthy (tariff_id subscription) && raises env _) eqn:Htar.
  { eexists _, _. split; [reflexivity|]. unfold reset_post.
    autorewrite with world. split_and!; try done.
    - by eexists.
    - intros e [= <-]. apply andb_true_iff in Htar as [_ Htar]. eauto.
    - left. split_and!; try done. exists []. split; [set_solver|]. by rewrite without_nil. }
  cbv beta iota. fold (base_limit_used (live w) subscription).
  set (es2 := match tariff_fallback (live w) subscription with Some _ => _ | None => [] end).
  rewrite push_push.
  assert (Hlog1 :
    or0 (purchased_traffic_gb subscription) < sum_traffic_gb expired ->
    Logged ERROR
      (MsgExpiredExceedsPurchased (sub_pk subscription) (sum_traffic_gb expired)
         (or0 (purchased_traffic_gb subscription))) ∈ es1).
  { intros Hlt. unfold es1.
    destruct (_ <? sum_traffic_gb expired) eqn:Hc; [set_solver|lia]. }
  assert (Hlog2 : forall tariff_base_limit,
    tariff_fallback (live w) subscription = Some tariff_base_limit ->
    Logged WARNING
      (MsgNegativeBaseLimit (sub_pk subscription)
         (traffic_limit_gb subscription - or0 (purchased_traffic_gb subscription))
         tariff_base_limit) ∈ es2).
  { intros b Hb. unfold es2. rewrite Hb. set_solver. }
  clearbody es1 es2.
  assert (Hbase : 0 <= base_limit_used (live w) subscription)
    by (unfold base_limit_used; lia).
  destruct (reset_fields subscription expired _ Hbase) as (Hguard & Hlimit & Hpurchased).
  rewrite bind_run.
  destruct (delete_loop_run env expired (push (es2 ++ es1) w))
    as (r1 & deleted & Hrun & Hdeleted & Hdone & Hraise).
  rewrite Hrun. clear Hrun. autorewrite with world.
  destruct r1 as [[]|e1].
  2:{ eexists _, _. split; [reflexivity|]. unfold reset_post.
      autorewrite with world. store_simpl. split_and!; try done.
      - by eexists.
      - left. split_and!; try done. by exists deleted. }
  rewrite (Hdone eq_refl). clear Hdone Hraise Hdeleted deleted.
  rewrite bind_run, guard_run. rewrite Hguard. cbv beta iota. rewrite push_nil.
  rewrite Hguard in Hlimit, Hpurchased. cbn [fst snd] in Hlimit, Hpurchased |- *.
  rewrite Hlimit, Hpurchased.
  rewrite bind_run. unfold update_subscription at 1, modify at 1. cbv beta iota.
  autorewrite with world. store_simpl.
  rewrite (alter_Some _ _ _ _ Hsub).
  rewrite bind_run, select_remaining_run.
  destruct (raises env (OpSelectRemaining sid)) eqn:Hrem.
  { eexists _, _. split; [reflexivity|]. unfold reset_post.
    autorewrite with world. store_simpl. split_and!; try done.
    - by eexists.
    - intros e [= <-]. eauto.
    - right. eexists. split_and!; try done.
      + intros Hlt. specialize (Hlog1 Hlt). set_solver.
      + intros b Hb. specialize (Hlog2 b Hb). set_solver.
      + by left. }
  cbv beta iota. autorewrite with world. store_simpl.
  rewrite bind_run. unfold update_subscription at 1, modify at 1. cbv beta iota.
  autorewrite with world. store_simpl. rewrite alter_insert_same.
  rewrite bind_run. unfold update_subscription at 1, modify at 1. cbv beta iota.
  autorewrite with world. store_simpl. rewrite alter_insert_same.
  rewrite bind_run, db_commit_run.
  destruct (raises env (OpCommit (ByReset sid))) eqn:Hcommit.
  { eexists _, _. split; [reflexivity|]. unfold reset_post.
    autorewrite with world. store_simpl. split_and!; try done.
    - by eexists.
    - intros e [= <-]. eauto.
    - right. eexists. split_and!; try done.
      + intros Hlt. specialize (Hlog1 Hlt). set_solver.
      + intros b Hb. specialize (Hlog2 b Hb). set_solver.
      + by left. }
  cbv beta iota.
  rewrite bind_run, logger_run. cbv beta iota.
  rewrite bind_run, update_remnawave_user_guarded. cbv beta iota.
  rewrite push_push.
  match goal with |- context [ (if bot env && _ then _ else _) ?W ] =>
    destruct (notify_tail_run env subscription sid
                (clamped_total subscription expired) W) as (r3 & es3 & Hrun & Hraise)
  end.
  rewrite Hrun. clear Hrun.
  eexists _, _. split; [reflexivity|]. unfold reset_post.
  unfold push. store_simpl. split_and!; try done.
  - eexists. rewrite !app_assoc. reflexivity.
  - right. eexists. split_and!; try done.
    + intros Hlt. specialize (Hlog1 Hlt). set_solver.
    + intros b Hb. specialize (Hlog2 b Hb). set_solver.
    + by right.
Qed.

(** A group whose subscription row does not exist: the run returns at once
    and leaves the world as it is. *)
Lemma reset_unit_orphan env sid expired w :
  subscriptions (live w) !! sid = None ->
  _reset_subscription_traffic env sid expired w =
  if raises env (OpSelectSubscription sid)
  then (Raise (StoreError (OpSelectSubscription sid)), w)
  else (Ok tt, w).
Proof.
  intros Hsub. unfold _reset_subscription_traffic.
  rewrite bind_run, select_subscription_run.
  destruct (raises env _); [reflexivity|]. by rewrite Hsub.
Qed.


(** Without a fallback to the tariff, a run logs no fallback warning,
    wherever it stops. *)
Lemma notify_tail_warnings env subscription sid total w :
  exists r es,
    (if bot env && negb (user_id subscription =? 0) then
       let! user := get_user_by_id env (user_id subscription) in
       match user with
       | Some user => _notify_traffic_reset env user sid total
       | None => ret tt
       end
     else ret tt) w = (r, push es w) /\
    Forall (fun e => ~ is_fallback_warning e) es.
Proof.
  destruct (bot env && negb (user_id subscription =? 0)).
  2:{ exists (Ok tt), []. rewrite push_nil. split; [done|constructor]. }
  rewrite bind_run, get_user_by_id_run.
  destruct (raises env _) eqn:Hr.
  { eexists _, []. rewrite push_nil. split; [done|constructor]. }
  destruct (users (live w) !! user_id subscription) as [user|].
  - rewrite _notify_traffic_reset_run. eexists _, _. split; [done|].
    unfold notice_effects.
    destruct (bot env); [destruct (send_fails env _)|]; repeat constructor; cbn; tauto.
  - exists (Ok tt), []. rewrite push_nil. split; [done|constructor].
Qed.

Lemma reset_unit_warnings env sid expired w subscription :
  subscriptions (live w) !! sid = Some subscription ->
  tariff_fallback (live w) subscription = None ->
  exists es,
    effects (snd (_reset_subscription_traffic env sid expired w)) = es ++ effects w /\
    Forall (fun e => ~ is_fallback_warning e) es.
Proof.
  intros Hsub Hfb.
  unfold _reset_subscription_traffic.
  rewrite bind_run, select_subscription_run.
  destruct (raises env (OpSelectSubscription sid)) eqn:Hsel.
  { exists []. split; [done|constructor]. }
  rewrite Hsub. cbv beta iota zeta.
  rewrite bind_run, clamp_run. cbv beta iota.
  fold (clamped_total subscription expired).
  fold (new_purchased subscription expired).
  set (es1 := if _ <? _ then _ else []).
  assert (Hes1 : Forall (fun e => ~ is_fallback_warning e) es1).
  { unfold es1. destruct (_ <? _); repeat constructor; cbn; tauto. }
  rewrite bind_run, base_limit_run. rewrite live_push.
  destruct (truthy (tariff_id subscription) && raises env _) eqn:Htar.
  { exists es1. split; [done|done]. }
  cbv beta iota. fold (base_limit_used (live w) subscription).
  rewrite Hfb. rewrite push_nil.
  clearbody es1.
  assert (Hbase : 0 <= base_limit_used (live w) subscription)
    by (unfold base_limit_used; lia).
  destruct (reset_fields subscription expired _ Hbase) as (Hguard & Hlimit & Hpurchased).
  rewrite bind_run.
  destruct (delete_loop_run env expired (push es1 w))
    as (r1 & deleted & Hrun & Hdeleted & Hdone & Hraise).
  rewrite Hrun. clear Hrun. autorewrite with world.
  destruct r1 as [[]|e1].
  2:{ exists es1. autorewrite with world. split; [done|done]. }
  rewrite (Hdone eq_refl). clear Hdone Hraise Hdeleted deleted.
  rewrite bind_run, guard_run. rewrite Hguard. cbv beta iota. rewrite push_nil.
  rewrite Hguard in Hlimit, Hpurchased. cbn [fst snd] in Hlimit, Hpurchased |- *.
  rewrite Hlimit, Hpurchased.
  rewrite bind_run. unfold update_subscription at 1, modify at 1. cbv beta iota.
  autorewrite with world. store_simpl.
  rewrite bind_run, select_remaining_run.
  destruct (raises env (OpSelectRemaining sid)) eqn:Hrem.
  { exists es1. autorewrite with world. split; [done|done]. }
  cbv beta iota. autorewrite with world. store_simpl.
  rewrite bind_run. unfold update_subscription at 1, modify at 1. cbv beta iota.
  autorewrite with world. store_simpl.
  rewrite bind_run. unfold update_subscription at 1, modify at 1. cbv beta iota.
  autorewrite with world. store_simpl.
  rewrite bind_run, db_commit_run.
  destruct (raises env (OpCommit (ByReset sid))) eqn:Hcommit.
  { exists es1. autorewrite with world. split; [done|done]. }
  cbv beta iota.
  rewrite bind_run, logger_run. cbv beta iota.
  rewrite bind_run, update_remnawave_user_guarded. cbv beta iota.
  rewrite push_push.
  match goal with |- context [ (if bot env && _ then _ else _) ?W ] =>
    destruct (notify_tail_warnings env subscription sid
                (clamped_total subscription expired) W) as (r3 & es3 & Hrun & Hes3)
  end.
  rewrite Hrun. clear Hrun. cbn [snd].
  eexists. unfold push. store_simpl. split; [by rewrite !app_assoc|].
  repeat apply Forall_app_2; try done.
  - unfold panel_effects. destruct (panel_fails env sid); repeat constructor; cbn; tauto.
  - repeat constructor; cbn; tauto.
Qed.

(** ** The decay batch *)

Lemma reset_iteration_run env group st w :
  reset_iteration env group (st, w) =
  (Ok tt,
   (count_group group (fst (_reset_subscription_traffic env (fst group) (snd group) w)) st,
    after_reset group (fst (_reset_subscription_traffic env (fst group) (snd group) w))
      (snd (_reset_subscription_traffic env (fst group) (snd group) w)))).
Proof.
  destruct group as [sid ps]. unfold reset_iteration, try_except.
  rewrite bind_run, lift_run. cbn [fst snd].
  destruct (_reset_subscription_traffic env sid ps w) as [[[]|e] w']; reflexivity.
Qed.

Lemma for_each_reset_run env groups st w :
  for_each groups (reset_iteration env) (st, w) =
  (Ok tt, (tally_groups groups (fst (reset_units env groups w)) st,
           snd (reset_units env groups w))).
Proof.
  revert st w. induction groups as [|g rest IH]; intros st w; [reflexivity|].
  cbn [for_each]. rewrite bind_run, reset_iteration_run. cbv beta iota.
  rewrite IH. reflexivity.
Qed.

Lemma reset_units_length env groups w :
  length (fst (reset_units env groups w)) = length groups.
Proof.
  revert w. induction groups as [|g rest IH]; intros w; [reflexivity|].
  cbn [reset_units fst length]. by rewrite IH.
Qed.

Lemma select_expired_run env w :
  select_expired env w =
  if raises env OpSelectExpired then (Raise (StoreError OpSelectExpired), w)
  else (Ok (expired_purchases env (live w)), w).
Proof.
  unfold select_expired. rewrite bind_run, attempt_run.
  by destruct (raises env OpSelectExpired).
Qed.

Lemma process_traffic_resets_unfold env :
  process_traffic_resets env =
  with_locals no_resets
    (try_except
       (lift (AsyncSessionLocal env) ;;
        try_except (reset_inner env)
          (fun e => lift (logger ERROR MsgResetBatchFailed) ;; lift (db_rollback env)))
       (fun e => lift (logger ERROR MsgResetQueryFailed)) ;;
     let! stats := locals in
     ret stats).
Proof. reflexivity. Qed.

Lemma reset_inner_run env st w :
  exists r,
    reset_inner env (st, w) =
    if raises env OpSelectExpired then (Raise (StoreError OpSelectExpired), (st, w))
    else
      let groups := group_by_subscription (expired_purchases env (live w)) in
      (r,
       (tally_groups groups (fst (reset_units env groups w))
          (set_reset_checked (length (expired_purchases env (live w))) st),
        commit_batch env ByResetBatch (snd (reset_units env groups w)))).
Proof.
  unfold reset_inner. rewrite bind_run.
  destruct (raises env OpSelectExpired) eqn:Hs.
  - erewrite lift_raise by (rewrite select_expired_run, Hs; reflexivity).
    by exists (Ok tt).
  - erewrite lift_ok by (rewrite select_expired_run, Hs; reflexivity).
    rewrite bind_run. unfold update_locals at 1, modify at 1. cbn [fst snd].
    cbv zeta. rewrite bind_run, for_each_reset_run.
    unfold commit_batch.
    destruct (raises env (OpCommit ByResetBatch)) eqn:Hc.
    + erewrite lift_raise by (rewrite db_commit_run, Hc; reflexivity). eauto.
    + erewrite lift_ok by (rewrite db_commit_run, Hc; reflexivity). eauto.
Qed.

(** ** Grouping the expired purchases by subscription *)

Lemma group_add_new p groups : grouped_in (group_add p groups) p.
Proof.
  induction groups as [|[sid ps] rest IH]; cbn [group_add].
  - exists [p]. split; set_solver.
  - case_decide as Hsid.
    + subst sid. exists (ps ++ [p]). split; set_solver.
    + destruct IH as (ps' & Hin & Hp). exists ps'. split; set_solver.
Qed.

Lemma group_add_old p groups q : grouped_in groups q -> grouped_in (group_add p groups) q.
Proof.
  intros (qs & Hin & Hq).
  induction groups as [|[sid ps] rest IH]; cbn [group_add]; [set_solver|].
  apply elem_of_cons in Hin as [Heq|Hin].
  - injection Heq as <- <-. case_decide.
    + exists (qs ++ [p]). split; set_solver.
    + exists qs. split; set_solver.
  - destruct (IH Hin) as (qs' & Hin' & Hq').
    case_decide.
    + exists qs. split; set_solver.
    + exists qs'. split; set_solver.
Qed.

Lemma group_add_sound p groups sid ps q :
  (sid, ps) ∈ group_add p groups -> q ∈ ps ->
  (q = p /\ sid = subscription_id p) \/ (exists ps0, (sid, ps0) ∈ groups /\ q ∈ ps0).
Proof.
  induction groups as [|[sid0 ps0] rest IH]; cbn [group_add]; intros Hin Hq.
  - apply list_elem_of_singleton in Hin. injection Hin as -> ->.
    apply list_elem_of_singleton in Hq. by left.
  - case_decide as Hsid.
    + apply elem_of_cons in Hin as [Heq|Hin].
      * injection Heq as -> ->. apply elem_of_app in Hq as [Hq|Hq].
        -- right. exists ps0. split; set_solver.
        -- apply list_elem_of_singleton in Hq. by left.
      * right. exists ps. split; set_solver.
    + apply elem_of_cons in Hin as [Heq|Hin].
      * injection Heq as -> ->. right. exists ps0. split; set_solver.
      * destruct (IH Hin Hq) as [?|(ps1 & ? & ?)]; [by left|].
        right. exists ps1. split; set_solver.
Qed.

Lemma group_add_total p groups :
  group_total (group_add p groups) = S (group_total groups).
Proof.
  unfold group_total.
  induction groups as [|[sid ps] rest IH]; cbn [group_add]; [reflexivity|].
  case_decide; cbn.
  - rewrite length_app. cbn. lia.
  - cbn in IH. rewrite IH. lia.
Qed.

Lemma group_fold_spec l acc :
  let groups := fold_left (fun groups purchase => group_add purchase groups) l acc in
  (forall q, q ∈ l \/ grouped_in acc q -> grouped_in groups q) /\
  (forall sid ps q, (sid, ps) ∈ groups -> q ∈ ps ->
     (q ∈ l /\ sid = subscription_id q) \/ (exists ps0, (sid, ps0) ∈ acc /\ q ∈ ps0)) /\
  group_total groups = (length l + group_total acc)%nat.
Proof.
  revert acc. induction l as [|p l IH]; intros acc; cbn [fold_left].
  - split_and!; [|eauto|done]. intros q [Hq|Hq]; [set_solver|done].
  - destruct (IH (group_add p acc)) as (Hcomplete & Hsound & Htotal).
    split_and!.
    + intros q [Hq|Hq]; apply Hcomplete.
      * apply elem_of_cons in Hq as [->|Hq]; [right; apply group_add_new|by left].
      * right. by apply group_add_old.
    + intros sid ps q Hin Hq.
      destruct (Hsound sid ps q Hin Hq) as [[Hl ->]|(ps0 & Hin0 & Hq0)].
      * left. split; [set_solver|done].
      * destruct (group_add_sound _ _ _ _ _ Hin0 Hq0) as [[-> ->]|?]; [|by right].
        left. split; [set_solver|done].
    + rewrite Htotal, group_add_total. cbn. lia.
Qed.

(** Every expired purchase is in the group of its subscription, the groups
    hold nothing else, and no purchase is counted twice. *)
Lemma group_by_subscription_spec l :
  (forall q, q ∈ l -> grouped_in (group_by_subscription l) q) /\
  (forall sid ps q, (sid, ps) ∈ group_by_subscription l -> q ∈ ps ->
     q ∈ l /\ subscription_id q = sid) /\
  group_total (group_by_subscription l) = length l.
Proof.
  destruct (group_fold_spec l []) as (Hcomplete & Hsound & Htotal).
  split_and!.
  - intros q Hq. apply Hcomplete. by left.
  - intros sid ps q Hin Hq.
    destruct (Hsound sid ps q Hin Hq) as [[? ->]|(ps0 & Hin0 & _)]; [done|set_solver].
  - unfold group_by_subscription. rewrite Htotal. cbn. lia.
Qed.

Lemma group_add_nonempty p groups :
  Forall (fun g => snd g <> []) groups ->
  Forall (fun g : Z * list TrafficPurchase => snd g <> []) (group_add p groups).
Proof.
  induction groups as [|[sid ps] rest IH]; cbn [group_add]; intros Hall.
  - by repeat constructor.
  - inversion Hall as [|? ? Hps Hrest]; subst. case_decide.
    + constructor; [|done]. cbn. by destruct ps.
    + constructor; [done|]. by apply IH.
Qed.

Lemma group_by_subscription_nonempty l :
  Forall (fun g : Z * list TrafficPurchase => snd g <> []) (group_by_subscription l).
Proof.
  unfold group_by_subscription.
  assert (Hacc : Forall (fun g : Z * list TrafficPurchase => snd g <> []) []) by constructor.
  revert Hacc. generalize (@nil (Z * list TrafficPurchase)).
  induction l as [|p l IH]; intros acc Hacc; cbn [fold_left]; [done|].
  by apply IH, group_add_nonempty.
Qed.

(** ** What a decay batch keeps *)

Lemma reset_unit_keeps D (P : Z -> Subscription -> Prop) env sid expired w :
  (forall k s, quota_ok s -> P k s) ->
  rows_keep D P w ->
  rows_keep D P (snd (_reset_subscription_traffic env sid expired w)).
Proof.
  intros HP [[Hdl Hl] [Hds Hs]].
  destruct (subscriptions (live w) !! sid) as [subscription|] eqn:Hsub.
  2:{ rewrite (reset_unit_orphan _ _ _ _ Hsub). by destruct (raises env _). }
  destruct (reset_unit_spec env sid expired w subscription Hsub)
    as (r & w' & -> & _ & _ & _ & _ & _ & Hpost). cbn [snd].
  destruct Hpost as [(Hsubs & Hsaved & _)|(sub' & Hsubs & Hlimit & Hpurchased & _ & _ & _ & Hsaved)].
  { unfold rows_keep. by rewrite Hsubs, Hsaved. }
  assert (Hlive : dom (subscriptions (live w')) = D /\ map_Forall P (subscriptions (live w'))).
  { rewrite Hsubs. split.
    - rewrite dom_insert_L, <- Hdl. apply elem_of_dom_2 in Hsub. set_solver.
    - apply map_Forall_insert_2; [|done]. apply HP. unfold quota_ok.
      rewrite Hlimit, Hpurchased. cbn [or0].
      pose proof (new_purchased_nonneg subscription expired).
      unfold base_limit_used. lia. }
  split; [done|].
  destruct Hsaved as [[-> _]| ->]; done.
Qed.

Lemma reset_units_keep D (P : Z -> Subscription -> Prop) env groups w :
  (forall k s, quota_ok s -> P k s) ->
  rows_keep D P w ->
  rows_keep D P (snd (reset_units env groups w)).
Proof.
  intros HP. revert w. induction groups as [|g rest IH]; intros w Hw; [done|].
  cbn [reset_units snd]. apply IH.
  pose proof (reset_unit_keeps D P env (fst g) (snd g) w HP Hw) as Hunit.
  unfold after_reset. by destruct (fst (_reset_subscription_traffic _ _ _ _)).
Qed.

(** A decay batch keeps the rows of the committed state and every property
    that the quota invariant implies. *)
Lemma process_traffic_resets_keeps D (P : Z -> Subscription -> Prop) env w :
  (forall k s, quota_ok s -> P k s) ->
  dom (subscriptions (saved w)) = D -> map_Forall P (subscriptions (saved w)) ->
  dom (subscriptions (saved (snd (process_traffic_resets env w)))) = D /\
  map_Forall P (subscriptions (saved (snd (process_traffic_resets env w)))).
Proof.
  intros HP Hd Hall. rewrite process_traffic_resets_unfold.
  apply (batch_world env (reset_inner env) _ _ no_resets w
           (fun w' => dom (subscriptions (saved w')) = D /\
                      map_Forall P (subscriptions (saved w')))); try done.
  intros _.
  destruct (reset_inner_run env no_resets (session w)) as [r ->].
  destruct (raises env OpSelectExpired); [done|]. cbn [snd].
  assert (Hkeep : rows_keep D P
            (snd (reset_units env
                    (group_by_subscription (expired_purchases env (live (session w))))
                    (session w)))).
  { apply reset_units_keep; [done|]. by split. }
  unfold commit_batch. destruct (raises env _); [apply Hkeep|]. cbn. apply Hkeep.
Qed.

Lemma process_traffic_resets_run env w :
  exists w', process_traffic_resets env w = (Ok (reset_stats env w), w').
Proof.
  rewrite process_traffic_resets_unfold.
  edestruct (batch_shape (L:=ResetStats) env) as [w' Hrun].
  rewrite Hrun. exists w'. do 2 f_equal. clear Hrun.
  unfold reset_stats.
  destruct (raises env OpSession); [reflexivity|]. cbn [orb].
  destruct (reset_inner_run env no_resets (session w)) as [r ->].
  by destruct (raises env OpSelectExpired).
Qed.

Lemma tally_groups_counts groups rs st :
  length rs = length groups ->
  reset_checked (tally_groups groups rs st) = reset_checked st /\
  reset (tally_groups groups rs st) = (reset st + purchases_reset groups rs)%nat /\
  reset_errors (tally_groups groups rs st) = (reset_errors st + count_if is_raise rs)%nat /\
  (purchases_reset groups rs + purchases_failed groups rs = group_total groups)%nat.
Proof.
  unfold count_if, group_total. revert rs st.
  induction groups as [|g groups IH]; intros [|r rs] st Hlen; try discriminate Hlen.
  - cbn. repeat split; lia.
  - injection Hlen as Hlen.
    cbn [tally_groups purchases_reset purchases_failed].
    destruct (IH rs (count_group g r st) Hlen) as (H1 & H2 & H3 & H4).
    rewrite H1, H2, H3. rewrite filter_cons.
    destruct r as [[]|e]; repeat case_decide; cbn in *; try done; repeat split; lia.
Qed.

(** Groups without a subscription row change nothing. *)
Lemma reset_units_orphans env groups w :
  Forall (fun g => subscriptions (live w) !! fst g = None) groups ->
  live (snd (reset_units env groups w)) = live w /\
  saved (snd (reset_units env groups w)) = saved w.
Proof.
  revert w. induction groups as [|g rest IH]; intros w Hall; [done|].
  inversion Hall as [|? ? Hg Hrest]; subst.
  cbn [reset_units snd]. rewrite (reset_unit_orphan _ _ _ _ Hg).
  destruct (raises env _); cbn [fst snd after_reset].
  - destruct (IH (push [Logged ERROR (MsgResetUnitFailed (fst g))] w)) as [-> ->]; done.
  - by apply IH.
Qed.



(** A decay batch that finds only expired purchases without a subscription
    leaves the committed state as it is. *)
Lemma process_traffic_resets_orphans env w :
  expired_are_orphans (now env) (saved w) ->
  saved (snd (process_traffic_resets env w)) = saved w.
Proof.
  intros Horphans. rewrite process_traffic_resets_unfold.
  apply (batch_world env (reset_inner env) _ _ no_resets w
           (fun w' => saved w' = saved w)); try done.
  intros _.
  destruct (reset_inner_run env no_resets (session w)) as [r ->].
  destruct (raises env OpSelectExpired); [done|]. cbn [snd].
  destruct (reset_units_orphans env
              (group_by_subscription (expired_purchases env (live (session w))))
              (session w)) as [Hlive Hsaved].
  { destruct (group_by_subscription_spec (expired_purchases env (live (session w))))
      as (_ & Hsound & _).
    pose proof (group_by_subscription_nonempty (expired_purchases env (live (session w))))
      as Hne.
    apply Forall_forall. intros [sid ps] Hin.
    rewrite Forall_forall in Hne. specialize (Hne _ Hin). cbn [fst snd] in *.
    destruct ps as [|p ps]; [done|].
    destruct (Hsound sid (p :: ps) p Hin) as [Hp <-]; [set_solver|].
    unfold expired_purchases in Hp. apply list_elem_of_filter in Hp as [Hexp Hp].
    by apply Horphans. }
  unfold commit_batch. destruct (raises env _); [done|]. cbn [saved]. by rewrite Hlive.
Qed.

(** ** Purchases that a decay batch leaves *)

Lemma NoDup_fmap_eq {A B} (f : A -> B) (l : list A) x y :
  NoDup (f <$> l) -> x ∈ l -> y ∈ l -> f x = f y -> x = y.
Proof.
  induction l as [|a l IH]; intros Hnd Hx Hy Hf; [set_solver|].
  rewrite fmap_cons in Hnd. apply NoDup_cons in Hnd as [Ha Hnd].
  apply elem_of_cons in Hx as [->|Hx]; apply elem_of_cons in Hy as [->|Hy]; try done.
  - exfalso. apply Ha. rewrite Hf. by apply list_elem_of_fmap_2.
  - exfalso. apply Ha. rewrite <- Hf. by apply list_elem_of_fmap_2.
  - by apply IH.
Qed.

(** A purchase stays in both states of the session through a run on a
    group that does not hold its key, or whose subscription is missing. *)
Lemma reset_unit_leaves env sid expired w p :
  p ∈ purchases (live w) -> p ∈ purchases (saved w) ->
  (purchase_pk p ∈ purchase_pk <$> expired -> subscriptions (live w) !! sid = None) ->
  p ∈ purchases (live (snd (_reset_subscription_traffic env sid expired w))) /\
  p ∈ purchases (saved (snd (_reset_subscription_traffic env sid expired w))).
Proof.
  intros Hl Hs Hkey.
  destruct (subscriptions (live w) !! sid) as [subscription|] eqn:Hsub.
  2:{ rewrite (reset_unit_orphan _ _ _ _ Hsub). by destruct (raises env _). }
  assert (Hnot : purchase_pk p ∉ purchase_pk <$> expired).
  { intros Hin. by specialize (Hkey Hin). }
  destruct (reset_unit_spec env sid expired w subscription Hsub)
    as (r & w' & -> & _ & _ & _ & _ & _ & Hpost). cbn [snd].
  destruct Hpost as [(_ & Hsaved & _ & deleted & Hdel & ->)
                    |(sub' & _ & _ & _ & Hdel & _ & _ & Hsaved)].
  - rewrite Hsaved. split; [|done].
    unfold without. apply list_elem_of_filter. split; [set_solver|done].
  - assert (p ∈ purchases (live w')).
    { rewrite Hdel. unfold without. by apply list_elem_of_filter. }
    split; [done|]. by destruct Hsaved as [[-> _]| ->].
Qed.

Lemma reset_units_leave D env groups w p :
  rows_keep D (fun _ _ => True) w ->
  p ∈ purchases (live w) -> p ∈ purchases (saved w) ->
  Forall (fun g => purchase_pk p ∈ purchase_pk <$> snd g -> fst g ∉ D) groups ->
  p ∈ purchases (live (snd (reset_units env groups w))) /\
  p ∈ purchases (saved (snd (reset_units env groups w))).
Proof.
  revert w. induction groups as [|g rest IH]; intros w Hrows Hl Hs Hall; [done|].
  inversion Hall as [|? ? Hg Hrest]; subst.
  cbn [reset_units snd].
  pose proof (reset_unit_keeps D _ env (fst g) (snd g) w (fun _ _ _ => I) Hrows) as Hrows'.
  destruct (reset_unit_leaves env (fst g) (snd g) w p Hl Hs) as [Hl' Hs'].
  { intros Hin. apply not_elem_of_dom. destruct Hrows as [[-> _] _]. by apply Hg. }
  apply IH; try done;
    unfold after_reset; by destruct (fst (_reset_subscription_traffic _ _ _ _)).
Qed.

(** An expired purchase without a subscription row survives a decay batch,
    when the keys of the purchases are distinct. *)
Lemma process_traffic_resets_leaves env w p :
  NoDup (purchase_pk <$> purchases (saved w)) ->
  p ∈ purchases (saved w) ->
  subscriptions (saved w) !! subscription_id p = None ->
  p ∈ purchases (saved (snd (process_traffic_resets env w))) /\
  subscriptions (saved (snd (process_traffic_resets env w))) !! subscription_id p = None.
Proof.
  intros Hnd Hp Horphan.
  split.
  2:{ apply not_elem_of_dom.
      destruct (process_traffic_resets_keeps (dom (subscriptions (saved w)))
                  (fun _ _ => True) env w) as [-> _]; try done.
      by apply not_elem_of_dom. }
  rewrite process_traffic_resets_unfold.
  apply (batch_world env (reset_inner env) _ _ no_resets w
           (fun w' => p ∈ purchases (saved w'))); try done.
  intros _.
  destruct (reset_inner_run env no_resets (session w)) as [r ->].
  destruct (raises env OpSelectExpired); [done|]. cbn [snd].
  destruct (reset_units_leave (dom (subscriptions (saved w))) env
              (group_by_subscription (expired_purchases env (live (session w))))
              (session w) p) as [Hl Hs]; try done.
  { apply Forall_forall. intros [sid ps] Hin Hkey. cbn [fst snd] in *.
    destruct (group_by_subscription_spec (expired_purchases env (live (session w))))
      as (_ & Hsound & _).
    apply list_elem_of_fmap in Hkey as (q & Hpk & Hq).
    destruct (Hsound sid ps q Hin Hq) as [Hq' <-].
    unfold expired_purchases in Hq'. apply list_elem_of_filter in Hq' as [_ Hq'].
    cbn [session live] in Hq'.
    rewrite <- (NoDup_fmap_eq purchase_pk _ p q Hnd Hp Hq' Hpk).
    by apply not_elem_of_dom. }
  unfold commit_batch. by destruct (raises env _).
Qed.

(** Groups without a subscription row are all counted as reset when the
    store does not raise. *)
Lemma reset_units_orphans_counted env groups w :
  store_ok env ->
  Forall (fun g => subscriptions (live w) !! fst g = None) groups ->
  purchases_reset groups (fst (reset_units env groups w)) = group_total groups.
Proof.
  intros Hok. unfold group_total.
  revert w. induction groups as [|g rest IH]; intros w Hall; [done|].
  inversion Hall as [|? ? Hg Hrest]; subst.
  cbn [reset_units fst snd]. rewrite (reset_unit_orphan _ _ _ _ Hg), (Hok _).
  cbn [fst snd after_reset purchases_reset]. rewrite (IH w Hrest). reflexivity.
Qed.

(** ** The frame of a decay batch *)

Lemma reset_unit_frame st env sid expired w :
  frame_kept st w ->
  frame_kept st (snd (_reset_subscription_traffic env sid expired w)).
Proof.
  intros [(Hu & Ht & Hx & Hp) Hsaved0].
  destruct (subscriptions (live w) !! sid) as [subscription|] eqn:Hsub.
  2:{ rewrite (reset_unit_orphan _ _ _ _ Hsub). by destruct (raises env _). }
  destruct (reset_unit_spec env sid expired w subscription Hsub)
    as (r & w' & -> & Hu' & Ht' & Hx' & _ & _ & Hpost). cbn [snd].
  assert (Hlive : users (live w') = users st /\ tariffs (live w') = tariffs st /\
                  transactions (live w') = transactions st /\
                  forall p, p ∈ purchases (live w') -> p ∈ purchases st).
  { rewrite Hu', Ht', Hx'. split_and!; try done.
    intros p Hin. apply Hp.
    destruct Hpost as [(_ & _ & _ & deleted & _ & Hdel)|(sub' & _ & _ & _ & Hdel & _)];
      rewrite Hdel in Hin; unfold without in Hin;
      apply list_elem_of_filter in Hin; tauto. }
  split; [done|].
  destruct Hpost as [(_ & -> & _)|(sub' & _ & _ & _ & _ & _ & _ & [[-> _]| ->])]; done.
Qed.

Lemma reset_units_frame st env groups w :
  frame_kept st w -> frame_kept st (snd (reset_units env groups w)).
Proof.
  revert w. induction groups as [|g rest IH]; intros w Hw; [done|].
  cbn [reset_units snd]. apply IH.
  pose proof (reset_unit_frame st env (fst g) (snd g) w Hw) as Hunit.
  unfold after_reset. by destruct (fst (_reset_subscription_traffic _ _ _ _)).
Qed.

Lemma process_traffic_resets_frame env w :
  let w' := snd (process_traffic_resets env w) in
  users (saved w') = users (saved w) /\
  tariffs (saved w') = tariffs (saved w) /\
  transactions (saved w') = transactions (saved w) /\
  forall p, p ∈ purchases (saved w') -> p ∈ purchases (saved w).
Proof.
  cbv zeta. rewrite process_traffic_resets_unfold.
  apply (batch_world env (reset_inner env) _ _ no_resets w
           (fun w' => users (saved w') = users (saved w) /\
                      tariffs (saved w') = tariffs (saved w) /\
                      transactions (saved w') = transactions (saved w) /\
                      forall p, p ∈ purchases (saved w') -> p ∈ purchases (saved w)));
    try done.
  intros _.
  destruct (reset_inner_run env no_resets (session w)) as [r ->].
  destruct (raises env OpSelectExpired); [done|]. cbn [snd].
  destruct (reset_units_frame (saved w) env
              (group_by_subscription (expired_purchases env (live (session w))))
              (session w)) as [Hlive Hsaved]; [done|].
  unfold commit_batch. by destruct (raises env _).
Qed.

Lemma process_traffic_resets_spares env w p :
  NoDup (purchase_pk <$> purchases (saved w)) ->
  p ∈ purchases (saved w) -> now env < expires_at p ->
  p ∈ purchases (saved (snd (process_traffic_resets env w))).
Proof.
  intros Hnd Hp Hlater.
  rewrite process_traffic_resets_unfold.
  apply (batch_world env (reset_inner env) _ _ no_resets w
           (fun w' => p ∈ purchases (saved w'))); try done.
  intros _.
  destruct (reset_inner_run env no_resets (session w)) as [r ->].
  destruct (raises env OpSelectExpired); [done|]. cbn [snd].
  destruct (reset_units_leave (dom (subscriptions (saved w))) env
              (group_by_subscription (expired_purchases env (live (session w))))
              (session w) p) as [Hl Hs]; try done.
  { apply Forall_forall. intros [sid ps] Hin Hkey. cbn [fst snd] in *. exfalso.
    destruct (group_by_subscription_spec (expired_purchases env (live (session w))))
      as (_ & Hsound & _).
    apply list_elem_of_fmap in Hkey as (q & Hpk & Hq).
    destruct (Hsound sid ps q Hin Hq) as [Hq' _].
    unfold expired_purchases in Hq'. apply list_elem_of_filter in Hq' as [Hexp Hq'].
    cbn [session live] in Hq'.
    rewrite <- (NoDup_fmap_eq purchase_pk _ p q Hnd Hp Hq' Hpk) in Hexp. lia. }
  unfold commit_batch. by destruct (raises env _).
Qed.

(** ** Keys and entries of the groups *)

Lemma group_add_keys p groups :
  fst <$> group_add p groups =
  if decide (subscription_id p ∈ fst <$> groups) then fst <$> groups
  else (fst <$> groups) ++ [subscription_id p].
Proof.
  induction groups as [|[s0 ps0] rest IH]; cbn [group_add].
  - rewrite decide_False by set_solver. reflexivity.
  - destruct (decide (s0 = subscription_id p)) as [->|Hne].
    + rewrite decide_True by set_solver. reflexivity.
    + rewrite !fmap_cons, IH. cbn [fst].
      destruct (decide (subscription_id p ∈ fst <$> rest)) as [Hin|Hout].
      * rewrite decide_True by set_solver. reflexivity.
      * rewrite decide_False by set_solver. reflexivity.
Qed.

Lemma group_add_cases p groups sid ps :
  NoDup (fst <$> groups) ->
  (sid, ps) ∈ group_add p groups ->
  (sid = subscription_id p /\
   ((exists ps0, (sid, ps0) ∈ groups /\ ps = ps0 ++ [p]) \/
    ((sid ∉ fst <$> groups) /\ ps = [p]))) \/
  (sid <> subscription_id p /\ (sid, ps) ∈ groups).
Proof.
  induction groups as [|[s0 ps0] rest IH]; cbn [group_add]; intros Hnd Hin.
  - apply list_elem_of_singleton in Hin as [= -> ->]. left. split; [done|]. right.
    split; [set_solver|done].
  - rewrite fmap_cons in Hnd. apply NoDup_cons in Hnd as [Hs0 Hnd]. cbn [fst] in Hs0.
    destruct (decide (s0 = subscription_id p)) as [->|Hne].
    + apply elem_of_cons in Hin as [[= -> ->]|Hin].
      * left. split; [done|]. left. exists ps0. split; [set_solver|done].
      * right. split; [|set_solver]. intros ->. apply Hs0.
        apply list_elem_of_fmap. by exists (subscription_id p, ps).
    + apply elem_of_cons in Hin as [[= -> ->]|Hin].
      * right. split; [done|set_solver].
      * destruct (IH Hnd Hin) as [[-> [(ps1 & Hps1 & ->)|[Hout ->]]]|[Hne' Hin']].
        -- left. split; [done|]. left. exists ps1. split; [set_solver|done].
        -- left. split; [done|]. right. split; [|done]. rewrite fmap_cons. set_solver.
        -- right. split; [done|set_solver].
Qed.

Lemma filter_none {A} (P : A -> Prop) `{forall x, Decision (P x)} (l : list A) :
  (forall x, x ∈ l -> ~ P x) -> filter P l = [].
Proof.
  induction l as [|a l IH]; intros Hall; [done|].
  rewrite filter_cons_False by (apply Hall; set_solver). apply IH. set_solver.
Qed.

Lemma group_fold_filter l seen groups :
  NoDup (fst <$> groups) ->
  (forall sid ps, (sid, ps) ∈ groups ->
     ps = filter (fun q => subscription_id q = sid) seen) ->
  (forall q, q ∈ seen -> subscription_id q ∈ fst <$> groups) ->
  let groups' := fold_left (fun groups purchase => group_add purchase groups) l groups in
  NoDup (fst <$> groups') /\
  (forall sid ps, (sid, ps) ∈ groups' ->
     ps = filter (fun q => subscription_id q = sid) (seen ++ l)) /\
  (forall q, q ∈ seen ++ l -> subscription_id q ∈ fst <$> groups').
Proof.
  cbv zeta. revert seen groups.
  induction l as [|p l IH]; intros seen groups Hnd Hfilter Hcover; cbn [fold_left].
  { rewrite app_nil_r. done. }
  replace (seen ++ p :: l) with ((seen ++ [p]) ++ l) by by rewrite <- app_assoc.
  apply IH.
  - rewrite group_add_keys. case_decide; [done|].
    apply NoDup_app. split_and!; [done|set_solver|apply NoDup_singleton].
  - intros sid ps Hin. rewrite filter_app.
    destruct (group_add_cases p groups sid ps Hnd Hin)
      as [[-> [(ps0 & Hps0 & ->)|[Hout ->]]]|[Hne Hin']].
    + rewrite <- (Hfilter _ _ Hps0). by rewrite filter_cons_True.
    + rewrite filter_none; [by rewrite filter_cons_True|].
      intros q Hq Heq. apply Hout. rewrite <- Heq. by apply Hcover.
    + rewrite <- (Hfilter _ _ Hin'). rewrite filter_cons_False by done.
      by rewrite filter_nil, app_nil_r.
  - intros q Hq. rewrite group_add_keys.
    apply elem_of_app in Hq as [Hq|Hq%list_elem_of_singleton].
    + specialize (Hcover q Hq). case_decide; set_solver.
    + subst q. case_decide; set_solver.
Qed.

Lemma group_by_subscription_filter (expired : list TrafficPurchase) :
  let groups := group_by_subscription expired in
  NoDup (fst <$> groups) /\
  (forall sid ps, (sid, ps) ∈ groups ->
     ps <> [] /\ ps = filter (fun p => subscription_id p = sid) expired) /\
  (forall p, p ∈ expired ->
     (subscription_id p, filter (fun q => subscription_id q = subscription_id p) expired)
       ∈ groups).
Proof.
  cbv zeta. unfold group_by_subscription.
  destruct (group_fold_filter expired [] []) as (Hnd & Hfilter & Hcover).
  { constructor. }
  { intros sid ps Hin. set_solver. }
  { intros q Hq. set_solver. }
  cbn [app] in Hfilter, Hcover.
  split_and!; [done| |].
  - intros sid ps Hin. split; [|by apply Hfilter].
    pose proof (group_by_subscription_nonempty expired) as Hne.
    rewrite Forall_forall in Hne. apply (Hne _ Hin).
  - intros p Hp. apply Hcover in Hp.
    apply list_elem_of_fmap in Hp as ([sid ps] & Hsid & Hin). cbn [fst] in Hsid. subst sid.
    by rewrite <- (Hfilter _ _ Hin).
Qed.

(** A group without a subscription row whose lookup does not raise is
    counted as reset, whatever happens to the other groups. *)
Lemma reset_units_count_orphan D env groups w sid ps :
  rows_keep D (fun _ _ => True) w -> sid ∉ D ->
  raises env (OpSelectSubscription sid) = false ->
  (sid, ps) ∈ groups ->
  (length ps <= purchases_reset groups (fst (reset_units env groups w)))%nat.
Proof.
  intros Hrows Hout Hlookup. revert w Hrows.
  induction groups as [|g rest IH]; intros w Hrows Hin; [set_solver|].
  cbn [reset_units fst purchases_reset].
  pose proof (reset_unit_keeps D _ env (fst g) (snd g) w (fun _ _ _ => I) Hrows) as Hrows'.
  apply elem_of_cons in Hin as [<-|Hin].
  - cbn [fst snd].
    assert (Hnone : subscriptions (live w) !! sid = None).
    { apply not_elem_of_dom. by destruct Hrows as [[-> _] _]. }
    rewrite (reset_unit_orphan _ _ _ _ Hnone), Hlookup. cbn [fst]. lia.
  - assert (Hrest : (length ps <= purchases_reset rest
               (fst (reset_units env rest
                  (after_reset g (fst (_reset_subscription_traffic env (fst g) (snd g) w))
                     (snd (_reset_subscription_traffic env (fst g) (snd g) w))))))%nat).
    { apply IH; [|done]. unfold after_reset.
      by destruct (fst (_reset_subscription_traffic _ _ _ _)). }
    destruct (fst (_reset_subscription_traffic env (fst g) (snd g) w)); lia.
Qed.

(** * The scenarios of the specification, run *)

(** Scenario A: balance 500, price 100 per device, 2 devices: one charge
    of 200, the balance becomes 300. *)
Example scenario_a_charged :
  let run := process_daily_charges (calm_env 1000 (Response (Some 2))) scenario_a in
  fst run = Ok {| checked := 1; charged := 1; suspended := 0; errors := 0 |} /\
  (balance_kopeks <$> users (saved (snd run)) !! 7) = Some 300 /\
  (amount_kopeks <$> transactions (saved (snd run))) = [200].
Proof. cbv zeta. split_and!; vm_compute; reflexivity. Qed.

(** Scenario B: balance 50, price 100 per device, 1 device: no charge, the
    status becomes disabled, the balance stays 50. *)
Example scenario_b_suspended :
  let run := process_daily_charges (calm_env 1000 (Response (Some 1))) scenario_b in
  fst run = Ok {| checked := 1; charged := 0; suspended := 1; errors := 0 |} /\
  (balance_kopeks <$> users (saved (snd run)) !! 7) = Some 50 /\
  (status <$> subscriptions (saved (snd run)) !! 1) = Some DISABLED /\
  transactions (saved (snd run)) = [].
Proof. cbv zeta. split_and!; vm_compute; reflexivity. Qed.

(** Scenario E: the call to the panel fails: the device count is 1 and the
    charge of 100 goes through. *)
Example scenario_e_default_device :
  let run := process_daily_charges (calm_env 1000 ApiFailure) scenario_a in
  fst run = Ok {| checked := 1; charged := 1; suspended := 0; errors := 0 |} /\
  (balance_kopeks <$> users (saved (snd run)) !! 7) = Some 400.
Proof. cbv zeta. split_and!; vm_compute; reflexivity. Qed.

(** An exception in one unit: the lookup of the user of subscription 2
    raises; the batch counts one error, still charges subscription 1, and
    returns. *)
Example failing_unit_is_isolated :
  let run := process_daily_charges lookup_fails_env two_subscriptions in
  fst run = Ok {| checked := 2; charged := 1; suspended := 0; errors := 1 |} /\
  (balance_kopeks <$> users (saved (snd run)) !! 7) = Some 300 /\
  Logged ERROR (MsgChargeUnitFailed 2) ∈ effects (snd run).
Proof. cbv zeta. split_and!; try (vm_compute; reflexivity). vm_compute. set_solver. Qed.

(** * The claims *)

(** C1, as stated, fails: in scenario A (balance 500, price 100, 2 devices)
    with a debit that answers "error", the user and the tariff resolve, the
    price is positive and the balance covers the charge of 200, yet the
    outcome is "error", the balance is still 500 and the ledger has no
    entry. *)
Lemma charge_dichotomy_counterexample :
  let env := refusing_env 1000 (Response (Some 2)) in
  let subscription := example_subscription 50 (Some 20) (Some 3) in
  let run := _process_single_charge env subscription scenario_a in
  resolve_user env subscription scenario_a = (Ok (Some (7, example_user 500)), scenario_a) /\
  resolve_tariff subscription scenario_a = (Ok (Some example_tariff), scenario_a) /\
  0 < daily_price_kopeks example_tariff /\
  is_due (now env) subscription = true /\
  fst (_get_device_count env subscription (example_user 500) scenario_a) = Ok 2 /\
  daily_price_kopeks example_tariff * 2 <= balance_kopeks (example_user 500) /\
  fst run = Ok OutError /\
  fst run <> Ok OutCharged /\
  users (live (snd run)) !! 7 = Some (example_user 500) /\
  transactions (live (snd run)) = [].
Proof.
  cbv zeta. split_and!; try (vm_compute; reflexivity); done.
Qed.

(** C1 (amended): for a subscription whose user and tariff resolve and
    whose daily price per device is positive, with
    charge = price * device count: when the balance is below the charge the
    status becomes disabled, the balance and the ledger stay as they were
    and the outcome is "suspended"; when the balance covers the charge and
    the debit, the ledger write and the update of the charge time all
    succeed, the balance drops by exactly the charge, one ledger entry of
    that amount is appended and the outcome is "charged"; when the debit
    fails, nothing changes and the outcome is "error"; when the debit
    succeeds and the ledger write raises, the outcome is "error", the
    balance stays debited and the ledger has no new entry; when the debit
    and the ledger write succeed and the update of the charge time raises,
    the outcome is "error", the balance stays debited and the entry stays
    in the ledger; in both cases the subscriptions are as before. *)
Theorem charge_step_outcomes env subscription w uid user tariff :
  resolve_user env subscription w = (Ok (Some (uid, user)), w) ->
  resolve_tariff subscription w = (Ok (Some tariff), w) ->
  0 < daily_price_kopeks tariff ->
  subscriptions (live w) !! sub_pk subscription = Some subscription ->
  exists device_count,
    fst (_get_device_count env subscription user w) = Ok device_count /\
    let charge := daily_price_kopeks tariff * device_count in
    let outcome := fst (_process_single_charge env subscription w) in
    let w' := snd (_process_single_charge env subscription w) in
    (balance_kopeks user < charge ->
       outcome = Ok OutSuspended /\
       subscriptions (live w') !! sub_pk subscription
         = Some (set_status DISABLED subscription) /\
       users (live w') = users (live w) /\
       transactions (live w') = transactions (live w)) /\
    (charge <= balance_kopeks user ->
     raises env (OpDebit uid) = false -> debit_refused env uid = false ->
     raises env (OpCreateTransaction (user_pk user)) = false ->
     raises env (OpUpdateChargeTime (sub_pk subscription)) = false ->
       outcome = Ok OutCharged /\
       users (live w') !! uid = Some (set_balance (balance_kopeks user - charge) user) /\
       transactions (live w')
         = transactions (live w) ++ [charge_entry user tariff device_count]) /\
    (charge <= balance_kopeks user ->
     raises env (OpDebit uid) = true \/ debit_refused env uid = true ->
       outcome = Ok OutError /\ live w' = live w) /\
    (charge <= balance_kopeks user ->
     raises env (OpDebit uid) = false -> debit_refused env uid = false ->
     raises env (OpCreateTransaction (user_pk user)) = true ->
       outcome = Ok OutError /\
       users (live w') !! uid = Some (set_balance (balance_kopeks user - charge) user) /\
       transactions (live w') = transactions (live w) /\
       subscriptions (live w') = subscriptions (live w)) /\
    (charge <= balance_kopeks user ->
     raises env (OpDebit uid) = false -> debit_refused env uid = false ->
     raises env (OpCreateTransaction (user_pk user)) = false ->
     raises env (OpUpdateChargeTime (sub_pk subscription)) = true ->
       outcome = Ok OutError /\
       users (live w') !! uid = Some (set_balance (balance_kopeks user - charge) user) /\
       transactions (live w')
         = transactions (live w) ++ [charge_entry user tariff device_count] /\
       subscriptions (live w') = subscriptions (live w)).
Proof.
  intros Hu Ht Hprice Hsub.
  destruct (resolve_user_run env subscription w) as (r & Hr & Hfound & _).
  rewrite Hu in Hr. injection Hr as <-. specialize (Hfound _ _ eq_refl).
  destruct (_process_single_charge_run env subscription w uid user tariff Hu Ht Hprice)
    as (n & es & Hn & Hsuspended & Herror & Hcharged & Hledger & Htime).
  exists n. rewrite Hn. split; [reflexivity|]. cbv zeta. split_and!.
  - intros Hlt. destruct (Hsuspended Hlt) as [es' ->]. cbn [fst snd].
    autorewrite with world. unfold suspended_store. store_simpl.
    split_and!; try done. by rewrite lookup_alter_eq, Hsub.
  - intros Hle Hraise Hrefused Hcreate Hupdate.
    destruct (Hcharged Hle Hraise Hrefused Hcreate Hupdate) as [es' ->].
    cbn [fst snd]. autorewrite with world. unfold charged_store. store_simpl.
    split_and!; try done. by rewrite lookup_alter_eq, Hfound.
  - intros Hle Hfail. destruct (Herror Hle Hfail) as [es' ->]. done.
  - intros Hle Hraise Hrefused Hcreate.
    destruct (Hledger Hle Hraise Hrefused Hcreate) as [es' ->].
    cbn [fst snd]. autorewrite with world. unfold debited_store. store_simpl.
    split_and!; try done. by rewrite lookup_alter_eq, Hfound.
  - intros Hle Hraise Hrefused Hcreate Hupdate.
    destruct (Htime Hle Hraise Hrefused Hcreate Hupdate) as [es' ->].
    cbn [fst snd]. autorewrite with world. unfold recorded_store, debited_store.
    store_simpl. split_and!; try done. by rewrite lookup_alter_eq, Hfound.
Qed.

(** Scenario A of the specification, through [charge_step_outcomes]:
    balance 500, price 100 per device, 2 devices: the charge of 200
    succeeds, the balance becomes 300 and the outcome is "charged". *)
Lemma charge_step_outcomes_witness :
  (resolve_user (calm_env 1000 (Response (Some 2)))
     (example_subscription 50 (Some 20) (Some 3)) scenario_a
   = (Ok (Some (7, example_user 500)), scenario_a) /\
   resolve_tariff (example_subscription 50 (Some 20) (Some 3)) scenario_a
   = (Ok (Some example_tariff), scenario_a) /\
   0 < daily_price_kopeks example_tariff /\
   subscriptions (live scenario_a) !! 1 = Some (example_subscription 50 (Some 20) (Some 3))) /\
  fst (_process_single_charge (calm_env 1000 (Response (Some 2)))
         (example_subscription 50 (Some 20) (Some 3)) scenario_a) = Ok OutCharged /\
  users (live (snd (_process_single_charge (calm_env 1000 (Response (Some 2)))
                      (example_subscription 50 (Some 20) (Some 3)) scenario_a))) !! 7
  = Some (example_user 300).
Proof.
  split.
  - split_and!; vm_compute; reflexivity.
  - destruct (charge_step_outcomes (calm_env 1000 (Response (Some 2)))
                (example_subscription 50 (Some 20) (Some 3)) scenario_a
                7 (example_user 500) example_tariff)
      as (n & Hn & _ & Hcharged & _); try (vm_compute; reflexivity).
    vm_compute in Hn. injection Hn as <-.
    destruct Hcharged as (Houtcome & Hbalance & _);
      [vm_compute; discriminate | reflexivity | reflexivity | reflexivity | reflexivity |].
    split; [exact Houtcome | exact Hbalance].
Defined.




(** C6: the device count of a charge is at least 1.  Without a
    provisioning identity, with an unconfigured panel, or when the call to
    the panel fails, it is 1; a reported count is floored to 1; and the
    charge of the attempt is the daily price per device times that count:
    the subscription is suspended exactly when the balance is below that
    product, and a charge debits and records exactly that product. *)
Theorem device_count_at_least_one env subscription user w :
  exists device_count,
    fst (_get_device_count env subscription user w) = Ok device_count /\
    1 <= device_count /\
    (truthy_str (remnawave_uuid user) = false -> device_count = 1) /\
    (is_configured env = false -> device_count = 1) /\
    (forall uuid, remnawave_uuid user = Some uuid ->
       get_user_devices env uuid = ApiFailure -> device_count = 1) /\
    (forall uuid total, remnawave_uuid user = Some uuid ->
       truthy_str (remnawave_uuid user) = true -> is_configured env = true ->
       get_user_devices env uuid = Response total ->
       device_count = Z.max 1 (or0 total)) /\
    (forall uid tariff,
       resolve_user env subscription w = (Ok (Some (uid, user)), w) ->
       resolve_tariff subscription w = (Ok (Some tariff), w) ->
       0 < daily_price_kopeks tariff ->
       let charge := daily_price_kopeks tariff * device_count in
       let outcome := fst (_process_single_charge env subscription w) in
       let w' := snd (_process_single_charge env subscription w) in
       (outcome = Ok OutSuspended <-> balance_kopeks user < charge) /\
       (outcome = Ok OutCharged ->
          users (live w') !! uid = Some (set_balance (balance_kopeks user - charge) user) /\
          transactions (live w')
            = transactions (live w) ++ [charge_entry user tariff device_count])).
Proof.
  destruct (_get_device_count_run env subscription user w)
    as (n & es & Hn & Hge & Hnone & Hconf & Hfail & Hfloor).
  exists n. rewrite Hn. split_and!; try done.
  intros uid tariff Hu Ht Hprice. cbv zeta.
  destruct (resolve_user_run env subscription w) as (r & Hr & Hfound & _).
  rewrite Hu in Hr. injection Hr as <-. specialize (Hfound _ _ eq_refl).
  destruct (_process_single_charge_run env subscription w uid user tariff Hu Ht Hprice)
    as (n' & es' & Hn' & Hsuspended & Herror & Hcharged & Hledger & Htime).
  rewrite Hn in Hn'. injection Hn' as <- _.
  destruct (Z_lt_le_dec (balance_kopeks user) (daily_price_kopeks tariff * n)) as [Hb|Hb].
  { destruct (Hsuspended Hb) as [es'' ->]. cbn [fst snd]. split; [done|]. intros H; discriminate H. }
  destruct (raises env (OpDebit uid)) eqn:Hraise.
  { destruct (Herror Hb (or_introl eq_refl)) as [es'' ->]. cbn [fst snd].
    split; [split; [intros H; discriminate H | lia] | intros H; discriminate H]. }
  destruct (debit_refused env uid) eqn:Hrefused.
  { destruct (Herror Hb (or_intror eq_refl)) as [es'' ->]. cbn [fst snd].
    split; [split; [intros H; discriminate H | lia] | intros H; discriminate H]. }
  destruct (raises env (OpCreateTransaction (user_pk user))) eqn:Hcreate.
  { destruct (Hledger Hb eq_refl eq_refl eq_refl) as [es'' ->]. cbn [fst snd].
    split; [split; [intros H; discriminate H | lia] | intros H; discriminate H]. }
  destruct (raises env (OpUpdateChargeTime (sub_pk subscription))) eqn:Hupdate.
  { destruct (Htime Hb eq_refl eq_refl eq_refl eq_refl) as [es'' ->]. cbn [fst snd].
    split; [split; [intros H; discriminate H | lia] | intros H; discriminate H]. }
  destruct (Hcharged Hb eq_refl eq_refl eq_refl eq_refl) as [es'' ->]. cbn [fst snd].
  split; [split; [intros H; discriminate H | lia]|]. intros _.
  autorewrite with world. unfold charged_store. store_simpl.
  split; [|done]. by rewrite lookup_alter_eq, Hfound.
Qed.


(** C2: through every sequence of decay batches, whatever expires and
    whatever fails, a subscription keeps its row, its purchased traffic
    never becomes negative, and the invariant
    traffic_limit >= purchased_traffic >= 0 is kept when it held before. *)
Theorem decay_keeps_quota_invariant envs w sid subscription :
  subscriptions (saved w) !! sid = Some subscription ->
  0 <= or0 (purchased_traffic_gb subscription) ->
  exists subscription',
    subscriptions (saved (decay_passes envs w)) !! sid = Some subscription' /\
    0 <= or0 (purchased_traffic_gb subscription') /\
    (quota_ok subscription -> quota_ok subscription').
Proof.
  revert w subscription. induction envs as [|env rest IH]; intros w subscription Hsub Hnn.
  { exists subscription. by split_and!. }
  cbn [decay_passes].
  set (P := fun (k : Z) (s : Subscription) =>
              k = sid -> 0 <= or0 (purchased_traffic_gb s) /\
                         (quota_ok subscription -> quota_ok s)).
  destruct (process_traffic_resets_keeps (dom (subscriptions (saved w))) P env w)
    as [Hdom Hall]; try done.
  { intros k s Hs _. split; [apply Hs|done]. }
  { intros k s Hk ->. rewrite Hsub in Hk. injection Hk as <-. by split. }
  assert (is_Some (subscriptions (saved (snd (process_traffic_resets env w))) !! sid))
    as [s1 Hs1].
  { apply elem_of_dom. rewrite Hdom. apply elem_of_dom. by eexists. }
  destruct (Hall sid s1 Hs1 eq_refl) as [Hnn1 Hq1].
  destruct (IH _ s1 Hs1 Hnn1) as (s2 & Hs2 & Hnn2 & Hq2).
  exists s2. split_and!; try done. intros Hq. by apply Hq2, Hq1.
Qed.

(** Scenarios C and D through [decay_keeps_quota_invariant], twice in a
    row: the subscription keeps its row and its purchased traffic is not
    negative. *)
Lemma decay_keeps_quota_invariant_witness :
  (subscriptions (saved scenario_d) !! 1 = Some (example_subscription 50 (Some 10) (Some 3)) /\
   0 <= or0 (purchased_traffic_gb (example_subscription 50 (Some 10) (Some 3)))) /\
  exists subscription',
    subscriptions
      (saved (decay_passes [calm_env 1000 ApiFailure; calm_env 2000 ApiFailure] scenario_d))
      !! 1 = Some subscription' /\
    0 <= or0 (purchased_traffic_gb subscription') /\
    (quota_ok (example_subscription 50 (Some 10) (Some 3)) -> quota_ok subscription').
Proof.
  split.
  - split; [reflexivity | vm_compute; discriminate].
  - apply (decay_keeps_quota_invariant
             [calm_env 1000 ApiFailure; calm_env 2000 ApiFailure] scenario_d 1
             (example_subscription 50 (Some 10) (Some 3)));
      [reflexivity | vm_compute; discriminate].
Defined.

(** C3: when the decay of a group returns, the expired total has been
    clamped to the stored purchased traffic (with the data error logged
    when it exceeded it), every expired lot is deleted, and the committed
    fields are new_purchased = purchased - clamped total and
    new_limit = base limit + new_purchased.  Scenario C (limit 50,
    purchased 20, one lot of 20 GB) ends with limit 30 and purchased 0;
    scenario D (stored purchased 10) reclaims 10 GB only and ends with
    purchased 0, the data error logged; in both the lot is deleted. *)
Theorem decay_fields :
  (forall env sid expired w subscription w',
     subscriptions (live w) !! sid = Some subscription ->
     _reset_subscription_traffic env sid expired w = (Ok tt, w') ->
     let purchased := or0 (purchased_traffic_gb subscription) in
     clamped_total subscription expired = Z.min (sum_traffic_gb expired) purchased /\
     exists subscription',
       subscriptions (live w') !! sid = Some subscription' /\
       saved w' = live w' /\
       purchased_traffic_gb subscription'
         = Some (purchased - clamped_total subscription expired) /\
       traffic_limit_gb subscription'
         = base_limit_used (live w) subscription
           + (purchased - clamped_total subscription expired) /\
       (purchased < sum_traffic_gb expired ->
          Logged ERROR
            (MsgExpiredExceedsPurchased (sub_pk subscription) (sum_traffic_gb expired)
               purchased) ∈ effects w') /\
       (forall p, p ∈ expired -> p ∉ purchases (live w'))) /\
  (let w' := snd (process_traffic_resets (calm_env 1000 ApiFailure) scenario_c) in
   (traffic_limit_gb <$> subscriptions (saved w') !! 1) = Some 30 /\
   (purchased_traffic_gb <$> subscriptions (saved w') !! 1) = Some (Some 0) /\
   purchases (saved w') = []) /\
  (let w' := snd (process_traffic_resets (calm_env 1000 ApiFailure) scenario_d) in
   clamped_total (example_subscription 50 (Some 10) (Some 3)) [example_lot 11 1 20 1000] = 10 /\
   (traffic_limit_gb <$> subscriptions (saved w') !! 1) = Some 40 /\
   (purchased_traffic_gb <$> subscriptions (saved w') !! 1) = Some (Some 0) /\
   purchases (saved w') = [] /\
   Logged ERROR (MsgExpiredExceedsPurchased 1 20 10) ∈ effects w').
Proof.
  split_and!.
  - intros env sid expired w subscription w' Hsub Hrun. cbv zeta.
    split.
    { unfold clamped_total. destruct (_ <? _) eqn:Hc; lia. }
    destruct (reset_unit_spec env sid expired w subscription Hsub)
      as (r & w1 & Hrun1 & _ & _ & _ & _ & _ & Hpost).
    rewrite Hrun in Hrun1. injection Hrun1 as <- <-.
    destruct Hpost as [(_ & _ & Hne & _)
                      |(sub' & Hsubs & Hlimit & Hpurchased & Hdel & Hlog & _ & Hsaved)];
      [done|].
    exists sub'. split_and!; try done.
    + rewrite Hsubs. apply lookup_insert_eq.
    + by destruct Hsaved as [[_ ?]|?].
    + intros p Hp. rewrite Hdel. unfold without. rewrite list_elem_of_filter.
      intros [Hnot _]. apply Hnot. by apply list_elem_of_fmap_2.
  - cbv zeta. split_and!; vm_compute; reflexivity.
  - cbv zeta. split_and!; try (vm_compute; reflexivity).
    vm_compute. set_solver.
Qed.




(** C8, as stated, fails: a subscription without a tariff, with traffic
    limit 5 and purchased traffic 10, has the base limit -5; the decay of
    its lot of 4 GB returns, logs no warning and consults no tariff: the
    base limit it uses is 0 and the new limit is 6. *)
Lemma negative_base_without_tariff_counterexample :
  let subscription := example_subscription 5 (Some 10) None in
  let run := _reset_subscription_traffic (calm_env 1000 ApiFailure) 1
               [example_lot 11 1 4 1000] scenario_no_tariff in
  subscriptions (live scenario_no_tariff) !! 1 = Some subscription /\
  traffic_limit_gb subscription - or0 (purchased_traffic_gb subscription) = -5 /\
  fst run = Ok tt /\
  tariff_fallback (live scenario_no_tariff) subscription = None /\
  effects (snd run) =
    [Sent 77 (NoticeTrafficReset 4 6); PanelPushed 1;
     Logged INFO (MsgTrafficReset 1 5 0 10 6 6 4 1)] /\
  (traffic_limit_gb <$> subscriptions (live (snd run)) !! 1) = Some 6.
Proof. cbv zeta. split_and!; vm_compute; reflexivity. Qed.

(** C8 (amended): the base limit that a decay uses is never negative.
    When traffic_limit - purchased_traffic is negative and the
    subscription has a tariff that exists, the decay uses the tariff's
    allotment (at least zero) and logs a warning; when it is negative and
    the subscription has no tariff or the tariff does not exist, it uses
    zero and logs no fallback warning; otherwise it uses the difference,
    and logs no fallback warning either. *)
Theorem base_limit_never_negative env sid expired w subscription w' :
  subscriptions (live w) !! sid = Some subscription ->
  _reset_subscription_traffic env sid expired w = (Ok tt, w') ->
  let base := traffic_limit_gb subscription - or0 (purchased_traffic_gb subscription) in
  0 <= base_limit_used (live w) subscription /\
  (exists subscription',
     subscriptions (live w') !! sid = Some subscription' /\
     traffic_limit_gb subscription'
       = base_limit_used (live w) subscription + new_purchased subscription expired) /\
  (forall tariff,
     base < 0 -> truthy (tariff_id subscription) = true ->
     tariffs (live w) !! or0 (tariff_id subscription) = Some tariff ->
     base_limit_used (live w) subscription = Z.max 0 (or0 (tariff_traffic_limit_gb tariff)) /\
     Logged WARNING
       (MsgNegativeBaseLimit (sub_pk subscription) base
          (or0 (tariff_traffic_limit_gb tariff))) ∈ effects w') /\
  (base < 0 ->
   truthy (tariff_id subscription) = false \/
   tariffs (live w) !! or0 (tariff_id subscription) = None ->
     base_limit_used (live w) subscription = 0 /\
     forall es, effects w' = es ++ effects w ->
       forall sid' b t, Logged WARNING (MsgNegativeBaseLimit sid' b t) ∉ es) /\
  (0 <= base ->
     base_limit_used (live w) subscription = base /\
     forall es, effects w' = es ++ effects w ->
       forall sid' b t, Logged WARNING (MsgNegativeBaseLimit sid' b t) ∉ es).
Proof.
  intros Hsub Hrun. cbv zeta.
  assert (Hquiet : tariff_fallback (live w) subscription = None ->
    forall es, effects w' = es ++ effects w ->
      forall sid' b t, Logged WARNING (MsgNegativeBaseLimit sid' b t) ∉ es).
  { intros Hfb es Hes sid' b t Hin.
    destruct (reset_unit_warnings env sid expired w subscription Hsub Hfb)
      as (es0 & Heff & Hall).
    rewrite Hrun in Heff. cbn [snd] in Heff. rewrite Hes in Heff.
    apply app_inv_tail in Heff. subst es0.
    rewrite Forall_forall in Hall. by apply (Hall _ Hin). }
  destruct (reset_unit_spec env sid expired w subscription Hsub)
    as (r & w1 & Hrun1 & _ & _ & _ & _ & _ & Hpost).
  rewrite Hrun in Hrun1. injection Hrun1 as <- <-.
  destruct Hpost as [(_ & _ & Hne & _)
                    |(sub' & Hsubs & Hlimit & _ & _ & _ & Hlog & _)]; [done|].
  split_and!.
  - unfold base_limit_used. lia.
  - exists sub'. split; [|done]. rewrite Hsubs. apply lookup_insert_eq.
  - intros tariff Hneg Htid Htariff.
    assert (Hfb : tariff_fallback (live w) subscription
                  = Some (or0 (tariff_traffic_limit_gb tariff))).
    { unfold tariff_fallback. rewrite Htid, Htariff.
      destruct (_ <? 0) eqn:Hc; [done|lia]. }
    split; [|by apply Hlog]. unfold base_limit_used. by rewrite Hfb.
  - intros Hneg Hno.
    assert (Hfb : tariff_fallback (live w) subscription = None).
    { unfold tariff_fallback. destruct Hno as [-> | Hno]; [done|].
      rewrite Hno. by destruct (truthy _). }
    split; [|by apply Hquiet]. unfold base_limit_used. rewrite Hfb. lia.
  - intros Hpos.
    assert (Hfb : tariff_fallback (live w) subscription = None).
    { unfold tariff_fallback. destruct (truthy _); [|done].
      destruct (tariffs (live w) !! _); [|done].
      destruct (_ <? 0) eqn:Hc; [lia|done]. }
    split; [|by apply Hquiet]. unfold base_limit_used. rewrite Hfb. lia.
Qed.

(** A stored state with limit 5 and purchased 10 on tariff 3, whose
    allotment is 30: the decay of a lot of 4 GB uses the base limit 30,
    and the new limit is 36. *)
Lemma base_limit_never_negative_witness :
  (subscriptions (live (example_world 500 (example_subscription 5 (Some 10) (Some 3))
                          [example_lot 11 1 4 1000])) !! 1
   = Some (example_subscription 5 (Some 10) (Some 3)) /\
   fst (_reset_subscription_traffic (calm_env 1000 ApiFailure) 1 [example_lot 11 1 4 1000]
          (example_world 500 (example_subscription 5 (Some 10) (Some 3))
             [example_lot 11 1 4 1000])) = Ok tt) /\
  base_limit_used
    (live (example_world 500 (example_subscription 5 (Some 10) (Some 3))
             [example_lot 11 1 4 1000]))
    (example_subscription 5 (Some 10) (Some 3)) = 30.
Proof.
  split.
  - split; vm_compute; reflexivity.
  - destruct (base_limit_never_negative (calm_env 1000 ApiFailure) 1
                [example_lot 11 1 4 1000]
                (example_world 500 (example_subscription 5 (Some 10) (Some 3))
                   [example_lot 11 1 4 1000])
                (example_subscription 5 (Some 10) (Some 3))
                (snd (_reset_subscription_traffic (calm_env 1000 ApiFailure) 1
                        [example_lot 11 1 4 1000]
                        (example_world 500 (example_subscription 5 (Some 10) (Some 3))
                           [example_lot 11 1 4 1000]))))
      as (_ & _ & Hfallback & _); [reflexivity | vm_compute; reflexivity |].
    destruct (Hfallback example_tariff) as [-> _];
      [vm_compute; reflexivity | reflexivity | reflexivity | reflexivity].
Defined.

(** C9: a group of expired lots whose subscription row does not exist.
    The run on the group changes nothing at all, and the loop still adds
    the number of its lots to the "reset" counter: when the session
    opens, the selection succeeds and the lookup of the subscription does
    not raise, the "reset" counter that the pass returns is at least the
    number of the expired lots of that subscription.  With distinct keys
    of the purchases, such a lot is still in the store after the batch,
    still without a subscription, and is selected again by every later
    batch; and when all expired lots are of this kind and the store does
    not raise, the batch leaves the committed state as it is and returns
    all of them as reset, with no error. *)
Theorem orphan_lots_counted_but_kept env w p :
  NoDup (purchase_pk <$> purchases (saved w)) ->
  p ∈ purchases (saved w) ->
  expires_at p <= now env ->
  subscriptions (saved w) !! subscription_id p = None ->
  let w' := snd (process_traffic_resets env w) in
  (forall expired w0 st,
     subscriptions (live w0) !! subscription_id p = None ->
     snd (_reset_subscription_traffic env (subscription_id p) expired w0) = w0 /\
     (raises env (OpSelectSubscription (subscription_id p)) = false ->
      reset_iteration env (subscription_id p, expired) (st, w0)
      = (Ok tt, (add_reset (length expired) st, w0)))) /\
  p ∈ purchases (saved w') /\
  subscriptions (saved w') !! subscription_id p = None /\
  (forall env', now env <= now env' -> p ∈ expired_purchases env' (saved w')) /\
  (raises env OpSession = false -> raises env OpSelectExpired = false ->
   raises env (OpSelectSubscription (subscription_id p)) = false ->
   exists stats,
     fst (process_traffic_resets env w) = Ok stats /\
     (length (filter (fun q => subscription_id q = subscription_id p)
                (expired_purchases env (saved w))) <= reset stats)%nat /\
     (1 <= reset stats)%nat) /\
  (store_ok env -> expired_are_orphans (now env) (saved w) ->
     saved w' = saved w /\
     exists stats,
       fst (process_traffic_resets env w) = Ok stats /\
       reset stats = length (expired_purchases env (saved w)) /\
       reset_errors stats = 0%nat).
Proof.
  intros Hnd Hp Hexp Horphan. cbv zeta.
  destruct (process_traffic_resets_leaves env w p Hnd Hp Horphan) as [Hleft Hstill].
  destruct (process_traffic_resets_run env w) as [w1 Hrun].
  split_and!; try done.
  - intros expired w0 st Hnone.
    rewrite reset_iteration_run. cbn [fst snd].
    rewrite (reset_unit_orphan _ _ _ _ Hnone).
    destruct (raises env _); [done|]. split; [done|]. by intros _.
  - intros env' Hlater. unfold expired_purchases.
    apply list_elem_of_filter. split; [lia|done].
  - intros Hsession Hselect Hlookup.
    exists (reset_stats env w). rewrite Hrun. split; [done|].
    unfold reset_stats. rewrite Hsession, Hselect. cbn [orb]. cbv zeta.
    set (expired := expired_purchases env (saved w)).
    set (groups := group_by_subscription expired).
    destruct (group_by_subscription_filter expired) as (_ & Hfilter & Hcover).
    fold groups in Hfilter, Hcover.
    assert (Hpexp : p ∈ expired).
    { unfold expired, expired_purchases. apply list_elem_of_filter. done. }
    specialize (Hcover p Hpexp).
    set (lots := filter (fun q => subscription_id q = subscription_id p) expired) in *.
    pose proof (reset_units_length env groups (session w)) as Hlen.
    destruct (tally_groups_counts groups (fst (reset_units env groups (session w)))
                (set_reset_checked (length expired) no_resets) Hlen)
      as (_ & Hreset & _ & _).
    rewrite Hreset. cbn [set_reset_checked no_resets reset].
    assert (Hcount : (length lots
               <= purchases_reset groups (fst (reset_units env groups (session w))))%nat).
    { apply (reset_units_count_orphan (dom (subscriptions (saved w))) env groups
               (session w) (subscription_id p) lots); [|by apply not_elem_of_dom|done..].
      unfold rows_keep. autorewrite with world.
      split; (split; [done|by apply map_Forall_lookup_2]). }
    split; [lia|].
    assert (Hone : (1 <= length lots)%nat).
    { destruct (Hfilter _ _ Hcover) as [Hne _].
      destruct lots; [done|cbn; lia]. }
    lia.
  - intros Hok Horphans.
    split; [by apply process_traffic_resets_orphans|].
    exists (reset_stats env w). rewrite Hrun. split; [done|].
    unfold reset_stats. rewrite !(Hok _). cbn [orb]. cbv zeta.
    set (groups := group_by_subscription (expired_purchases env (saved w))).
    assert (Hall : Forall (fun g => subscriptions (live (session w)) !! fst g = None) groups).
    { destruct (group_by_subscription_spec (expired_purchases env (saved w)))
        as (_ & Hsound & _).
      pose proof (group_by_subscription_nonempty (expired_purchases env (saved w))) as Hne.
      apply Forall_forall. intros [sid ps] Hin.
      rewrite Forall_forall in Hne. specialize (Hne _ Hin). cbn [fst snd] in *.
      destruct ps as [|q ps]; [done|].
      destruct (Hsound sid (q :: ps) q Hin) as [Hq <-]; [set_solver|].
      unfold expired_purchases in Hq. apply list_elem_of_filter in Hq as [Hqexp Hq].
      by apply Horphans. }
    pose proof (reset_units_length env groups (session w)) as Hlen.
    destruct (tally_groups_counts groups (fst (reset_units env groups (session w)))
                (set_reset_checked (length (expired_purchases env (saved w))) no_resets)
                Hlen) as (_ & Hreset & Herrors & Hsum).
    pose proof (reset_units_orphans_counted env groups (session w) Hok Hall) as Hcounted.
    destruct (group_by_subscription_spec (expired_purchases env (saved w)))
      as (_ & _ & Htotal).
    fold groups in Htotal.
    rewrite Hreset, Herrors, Hcounted, Htotal.
    cbn [set_reset_checked no_resets reset reset_errors].
    split; [lia|].
    assert (Hnone : count_if is_raise (fst (reset_units env groups (session w))) = 0%nat).
    { clear -Hok Hall. unfold count_if.
      generalize dependent (session w). intros w0.
      induction groups as [|g rest IH]; intros Hall; [done|].
      inversion Hall as [|? ? Hg Hrest]; subst.
      cbn [reset_units fst snd]. rewrite (reset_unit_orphan _ _ _ _ Hg), (Hok _).
      cbn [fst snd after_reset]. rewrite filter_cons.
      rewrite decide_False by (cbn; tauto). by apply IH. }
    lia.
Qed.

(** A lot of subscription 9, which does not exist: the batch at time 1000
    returns a "reset" counter of at least 1, and the lot is still in the
    store after it. *)
Lemma orphan_lots_counted_but_kept_witness :
  (NoDup (purchase_pk <$> purchases (saved scenario_orphan)) /\
   example_lot 12 9 5 900 ∈ purchases (saved scenario_orphan) /\
   expires_at (example_lot 12 9 5 900) <= now (calm_env 1000 ApiFailure) /\
   subscriptions (saved scenario_orphan) !! subscription_id (example_lot 12 9 5 900) = None) /\
  (exists stats,
     fst (process_traffic_resets (calm_env 1000 ApiFailure) scenario_orphan) = Ok stats /\
     (1 <= reset stats)%nat) /\
  example_lot 12 9 5 900
    ∈ purchases (saved (snd (process_traffic_resets (calm_env 1000 ApiFailure)
                               scenario_orphan))).
Proof.
  assert (Hnd : NoDup (purchase_pk <$> purchases (saved scenario_orphan))).
  { cbn. apply NoDup_singleton. }
  assert (Hin : example_lot 12 9 5 900 ∈ purchases (saved scenario_orphan)).
  { cbn. apply list_elem_of_singleton. reflexivity. }
  assert (Hexp : expires_at (example_lot 12 9 5 900) <= now (calm_env 1000 ApiFailure)).
  { vm_compute. discriminate. }
  assert (Hnone : subscriptions (saved scenario_orphan)
                    !! subscription_id (example_lot 12 9 5 900) = None).
  { vm_compute. reflexivity. }
  split; [by split_and!|].
  destruct (orphan_lots_counted_but_kept (calm_env 1000 ApiFailure)
              scenario_orphan (example_lot 12 9 5 900) Hnd Hin Hexp Hnone)
    as (_ & Hkept & _ & _ & Hcounted & _).
  split; [|exact Hkept].
  destruct (Hcounted eq_refl eq_refl eq_refl) as (stats & Hstats & _ & Hone).
  exists stats. split; [exact Hstats|exact Hone].
Defined.

(** C10, as stated, fails: the event carries the loaded user 7, whose
    subscription is active and ended at 2000, but no database session; at
    time 3000 the middleware leaves the status active (and calls the
    handler). *)
Lemma middleware_without_session_counterexample :
  let handler := fun (_ : unit) (_ : Data) => ret (S:=World) tt in
  let run := SubscriptionStatusMiddleware_call (calm_env 3000 ApiFailure) handler tt
               data_without_session scenario_a in
  db_user data_without_session = Some (example_user 500) /\
  user_subscription (example_user 500) = Some 1 /\
  (status <$> subscriptions (live scenario_a) !! 1) = Some ACTIVE /\
  (end_date <$> subscriptions (live scenario_a) !! 1) = Some (Some 2000) /\
  2000 <= now (calm_env 3000 ApiFailure) /\
  fst run = Ok tt /\
  (status <$> subscriptions (live (snd run)) !! 1) = Some ACTIVE.
Proof. cbv zeta. split_and!; try (vm_compute; reflexivity). vm_compute. discriminate. Qed.

Section MiddlewareClaims.

Context {TelegramObject Any : Type}.

(** C10 (amended): for every event, the wrapped handler is invoked, also
    when the status check raises.  When the event carries a database
    session and a loaded user whose subscription is active with an end date
    at or before the current time, the status of that subscription is set
    to expired before the handler runs; in every other case (no session, no
    user, no subscription, another status, no end date or a later one) the
    session is left as it was. *)
Theorem middleware_marks_expired_and_calls_handler
    env (handler : TelegramObject -> Data -> M World Any) event data w :
  exists w1,
    SubscriptionStatusMiddleware_call env handler event data w = handler event data w1 /\
    (forall user sid subscription t,
       data_db data = true -> db_user data = Some user ->
       user_subscription user = Some sid ->
       subscriptions (live w) !! sid = Some subscription ->
       status subscription = ACTIVE -> end_date subscription = Some t -> t <= now env ->
       subscriptions (live w1)
       = <[sid := set_updated_at (now env) (set_status EXPIRED subscription)]>
           (subscriptions (live w))) /\
    (data_db data = false -> live w1 = live w /\ saved w1 = saved w) /\
    (db_user data = None -> live w1 = live w /\ saved w1 = saved w) /\
    (forall user,
       db_user data = Some user ->
       user_subscription user = None \/
       (exists sid, user_subscription user = Some sid /\
                    subscriptions (live w) !! sid = None) ->
       live w1 = live w /\ saved w1 = saved w) /\
    (forall user sid subscription,
       db_user data = Some user -> user_subscription user = Some sid ->
       subscriptions (live w) !! sid = Some subscription ->
       status subscription <> ACTIVE \/ end_date subscription = None \/
       (exists t, end_date subscription = Some t /\ now env < t) ->
       live w1 = live w /\ saved w1 = saved w).
Proof.
  unfold SubscriptionStatusMiddleware_call. rewrite bind_run. cbn [get].
  cbv zeta.
  (* the event lacks a session, a user or a subscription *)
  assert (Hskip : forall w1, w1 = w ->
    (forall user sid subscription, data_db data = true -> db_user data = Some user ->
       user_subscription user = Some sid ->
       subscriptions (live w) !! sid = Some subscription ->
       status subscription = ACTIVE ->
       forall t, end_date subscription = Some t -> t <= now env -> False) ->
    (forall user sid subscription t,
       data_db data = true -> db_user data = Some user ->
       user_subscription user = Some sid ->
       subscriptions (live w) !! sid = Some subscription ->
       status subscription = ACTIVE -> end_date subscription = Some t -> t <= now env ->
       subscriptions (live w1)
       = <[sid := set_updated_at (now env) (set_status EXPIRED subscription)]>
           (subscriptions (live w))) /\
    (data_db data = false -> live w1 = live w /\ saved w1 = saved w) /\
    (db_user data = None -> live w1 = live w /\ saved w1 = saved w) /\
    (forall user,
       db_user data = Some user ->
       user_subscription user = None \/
       (exists sid, user_subscription user = Some sid /\
                    subscriptions (live w) !! sid = None) ->
       live w1 = live w /\ saved w1 = saved w) /\
    (forall user sid subscription,
       db_user data = Some user -> user_subscription user = Some sid ->
       subscriptions (live w) !! sid = Some subscription ->
       status subscription <> ACTIVE \/ end_date subscription = None \/
       (exists t, end_date subscription = Some t /\ now env < t) ->
       live w1 = live w /\ saved w1 = saved w)).
  { intros w1 -> Hno. split_and!; try done.
    intros user sid subscription t H1 H2 H3 H4 H5 H6 H7. exfalso. eauto. }
  destruct (db_user data) as [user|] eqn:Huser.
  2:{ exists w. split; [by destruct (data_db data)|]. apply Hskip; [done|].
      intros; discriminate. }
  destruct (user_subscription user) as [sid|] eqn:Hrel.
  2:{ exists w. split; [by destruct (data_db data)|]. apply Hskip; [done|].
      intros; simplify_eq. }
  destruct (subscriptions (live w) !! sid) as [subscription|] eqn:Hsub.
  2:{ exists w. split; [by destruct (data_db data)|]. apply Hskip; [done|].
      intros; simplify_eq. }
  cbn [fmap option_fmap option_map].
  destruct (data_db data) eqn:Hdb.
  2:{ exists w. split; [done|]. apply Hskip; [done|]. intros; discriminate. }
  destruct (decide (status subscription = ACTIVE)) as [Hactive|Hother].
  2:{ exists w. split; [done|]. apply Hskip; [done|]. intros; simplify_eq. }
  destruct (end_date subscription) as [t|] eqn:Hend.
  2:{ exists w. split; [done|]. apply Hskip; [done|]. intros; simplify_eq. }
  destruct (t <=? now env) eqn:Ht.
  2:{ exists w. split; [done|]. apply Hskip; [done|].
      intros; simplify_eq. apply Z.leb_gt in Ht. lia. }
  apply Z.leb_le in Ht.
  (* the status is set, whether or not the commit raises *)
  assert (Hset : forall w1,
    subscriptions (live w1)
    = <[sid := set_updated_at (now env) (set_status EXPIRED subscription)]>
        (subscriptions (live w)) ->
    (forall user0 sid0 subscription0 t0,
       true = true -> Some user = Some user0 ->
       user_subscription user0 = Some sid0 ->
       subscriptions (live w) !! sid0 = Some subscription0 ->
       status subscription0 = ACTIVE -> end_date subscription0 = Some t0 ->
       t0 <= now env ->
       subscriptions (live w1)
       = <[sid0 := set_updated_at (now env) (set_status EXPIRED subscription0)]>
           (subscriptions (live w))) /\
    (true = false -> live w1 = live w /\ saved w1 = saved w) /\
    (Some user = None -> live w1 = live w /\ saved w1 = saved w) /\
    (forall user0,
       Some user = Some user0 ->
       user_subscription user0 = None \/
       (exists sid0, user_subscription user0 = Some sid0 /\
                     subscriptions (live w) !! sid0 = None) ->
       live w1 = live w /\ saved w1 = saved w) /\
    (forall user0 sid0 subscription0,
       Some user = Some user0 -> user_subscription user0 = Some sid0 ->
       subscriptions (live w) !! sid0 = Some subscription0 ->
       status subscription0 <> ACTIVE \/ end_date subscription0 = None \/
       (exists t0, end_date subscription0 = Some t0 /\ now env < t0) ->
       live w1 = live w /\ saved w1 = saved w)).
  { intros w1 Hw1. split_and!; try done.
    - intros; by simplify_eq.
    - intros user0 [= <-] [Hnone|(sid0 & Hsome & Hnone)]; simplify_eq.
    - intros user0 sid0 subscription0 [= <-] Hrel0 Hsub0 Hcase. simplify_eq.
      destruct Hcase as [?|[?|(t0 & ? & ?)]]; simplify_eq. lia. }
  unfold try_except.
  rewrite bind_run. unfold update_subscription at 1, modify at 1. cbv beta iota.
  rewrite bind_run. unfold update_subscription at 1, modify at 1. cbv beta iota.
  rewrite bind_run. cbv beta iota.
  rewrite bind_run, db_commit_run.
  autorewrite with world. store_simpl.
  rewrite (alter_Some _ _ _ _ Hsub), alter_insert_same.
  destruct (raises env _).
  - eexists. split; [reflexivity|]. apply Hset. by autorewrite with world.
  - eexists. split; [reflexivity|]. apply Hset. by autorewrite with world.
Qed.

End MiddlewareClaims.

(** * Further properties of the service and the middleware *)

(** ** One decay, step by step *)

Lemma delete_loop_raises env expired w e :
  fst (for_each expired (db_delete env) w) = Raise e ->
  exists pk, e = StoreError (OpDelete pk) /\ raises env (OpDelete pk) = true.
Proof.
  revert w. induction expired as [|p rest IH]; intros w; [discriminate|].
  cbn [for_each]. rewrite bind_run, db_delete_run.
  destruct (raises env (OpDelete (purchase_pk p))) eqn:Hr.
  - intros [= <-]. eauto.
  - apply IH.
Qed.

Lemma notify_tail_detail env subscription sid total w :
  exists es,
    (if bot env && negb (user_id subscription =? 0) then
       let! user := get_user_by_id env (user_id subscription) in
       match user with
       | Some user => _notify_traffic_reset env user sid total
       | None => ret tt
       end
     else ret tt) w = (notify_result env subscription, push es w).
Proof.
  unfold notify_result.
  destruct (bot env && negb (user_id subscription =? 0)); cbn [andb].
  2:{ exists []. by rewrite push_nil. }
  rewrite bind_run, get_user_by_id_run.
  destruct (raises env _) eqn:Hr.
  { exists []. by rewrite push_nil. }
  destruct (users (live w) !! user_id subscription) as [user|].
  - rewrite _notify_traffic_reset_run. by eexists.
  - exists []. by rewrite push_nil.
Qed.

(** A run of [_reset_subscription_traffic] on an existing subscription
    either stops at a store operation that raises, before the commit, with
    nothing saved and nothing but log records behind it; or it commits the
    decayed store, and then raises only when the lookup of the user to
    notify does. *)
Lemma reset_unit_detail env sid expired w subscription :
  subscriptions (live w) !! sid = Some subscription ->
  exists r w' es,
    _reset_subscription_traffic env sid expired w = (r, w') /\
    effects w' = es ++ effects w /\
    ((saved w' = saved w /\ Forall is_logged es /\
      exists op, r = Raise (StoreError op) /\ raises env op = true /\
                 (forall uid, op <> OpGetUser uid) /\
                 op <> OpCommit ByResetBatch /\ op <> OpRollback)
     \/
     (live w' = decayed_store env sid expired subscription (live w) /\
      saved w' = live w' /\
      r = notify_result env subscription)).
Proof.
  intros Hsub.
  unfold _reset_subscription_traffic.
  rewrite bind_run, select_subscription_run.
  destruct (raises env (OpSelectSubscription sid)) eqn:Hsel.
  { eexists _, _, []. split; [reflexivity|]. split; [done|]. left.
    split_and!; [done|constructor|]. eexists. split_and!; done. }
  rewrite Hsub. cbv beta iota zeta.
  rewrite bind_run, clamp_run. cbv beta iota.
  fold (clamped_total subscription expired).
  fold (new_purchased subscription expired).
  set (es1 := if _ <? _ then _ else []).
  assert (Hes1 : Forall is_logged es1).
  { unfold es1. destruct (_ <? _); repeat constructor. }
  rewrite bind_run, base_limit_run. rewrite live_push.
  destruct (truthy (tariff_id subscription) && raises env _) eqn:Htar.
  { eexists _, _, es1. split; [reflexivity|]. split; [done|]. left.
    split_and!; [done|done|]. apply andb_true_iff in Htar as [_ Htar].
    eexists. split_and!; done. }
  cbv beta iota. fold (base_limit_used (live w) subscription).
  set (es2 := match tariff_fallback (live w) subscription with Some _ => _ | None => [] end).
  assert (Hes2 : Forall is_logged es2).
  { unfold es2. destruct (tariff_fallback _ _); repeat constructor. }
  rewrite push_push.
  assert (Hes : Forall is_logged (es2 ++ es1)) by by apply Forall_app.
  clearbody es1 es2.
  assert (Hbase : 0 <= base_limit_used (live w) subscription)
    by (unfold base_limit_used; lia).
  destruct (reset_fields subscription expired _ Hbase) as (Hguard & Hlimit & Hpurchased).
  rewrite bind_run.
  pose proof (delete_loop_raises env expired (push (es2 ++ es1) w)) as Hwhich.
  destruct (delete_loop_run env expired (push (es2 ++ es1) w))
    as (r1 & deleted & Hrun & Hdeleted & Hdone & Hraise).
  rewrite Hrun in Hwhich |- *. clear Hrun. autorewrite with world.
  destruct r1 as [[]|e1].
  2:{ destruct (Hwhich e1 eq_refl) as (pk & -> & Hpk).
      eexists _, _, (es2 ++ es1). split; [reflexivity|].
      autorewrite with world. store_simpl. split; [done|]. left.
      split_and!; [done|done|]. eexists. split_and!; done. }
  rewrite (Hdone eq_refl). clear Hdone Hraise Hdeleted deleted Hwhich.
  rewrite bind_run, guard_run. rewrite Hguard. cbv beta iota. rewrite push_nil.
  rewrite Hguard in Hlimit, Hpurchased. cbn [fst snd] in Hlimit, Hpurchased |- *.
  rewrite Hlimit, Hpurchased.
  rewrite bind_run. unfold update_subscription at 1, modify at 1. cbv beta iota.
  autorewrite with world. store_simpl.
  rewrite (alter_Some _ _ _ _ Hsub).
  rewrite bind_run, select_remaining_run.
  destruct (raises env (OpSelectRemaining sid)) eqn:Hrem.
  { eexists _, _, (es2 ++ es1). split; [reflexivity|].
    autorewrite with world. store_simpl. split; [done|]. left.
    split_and!; [done|done|]. eexists. split_and!; done. }
  cbv beta iota. autorewrite with world. store_simpl.
  rewrite bind_run. unfold update_subscription at 1, modify at 1. cbv beta iota.
  autorewrite with world. store_simpl. rewrite alter_insert_same.
  rewrite bind_run. unfold update_subscription at 1, modify at 1. cbv beta iota.
  autorewrite with world. store_simpl. rewrite alter_insert_same.
  rewrite bind_run, db_commit_run.
  destruct (raises env (OpCommit (ByReset sid))) eqn:Hcommit.
  { eexists _, _, (es2 ++ es1). split; [reflexivity|].
    autorewrite with world. store_simpl. split; [done|]. left.
    split_and!; [done|done|]. eexists. split_and!; done. }
  cbv beta iota.
  rewrite bind_run, logger_run. cbv beta iota.
  rewrite bind_run, update_remnawave_user_guarded. cbv beta iota.
  rewrite push_push.
  match goal with |- context [ (if bot env && _ then _ else _) ?W ] =>
    destruct (notify_tail_detail env subscription sid
                (clamped_total subscription expired) W) as (es3 & Hrun)
  end.
  rewrite Hrun. clear Hrun.
  eexists _, _, _. split; [reflexivity|].
  unfold push. store_simpl. split; [by rewrite !app_assoc|]. right.
  split_and!; [|done|done].
  unfold decayed_store, decayed_row, next_reset, remaining_of. reflexivity.
Qed.

(** A run that returns has committed the decayed store. *)
Lemma reset_unit_returned env sid expired w subscription w' :
  subscriptions (live w) !! sid = Some subscription ->
  _reset_subscription_traffic env sid expired w = (Ok tt, w') ->
  live w' = decayed_store env sid expired subscription (live w) /\ saved w' = live w'.
Proof.
  intros Hsub Hrun.
  destruct (reset_unit_detail env sid expired w subscription Hsub)
    as (r & w1 & es & Hrun1 & _ & Hcase).
  rewrite Hrun in Hrun1. injection Hrun1 as <- <-.
  destruct Hcase as [(_ & _ & op & Hr & _)|(Hlive & Hsaved & _)]; [discriminate Hr|done].
Qed.

Lemma min_expires_at_spec p ps :
  (exists q, q ∈ p :: ps /\ expires_at q = min_expires_at p ps) /\
  (forall q, q ∈ p :: ps -> min_expires_at p ps <= expires_at q).
Proof.
  unfold min_expires_at.
  assert (H : forall l acc,
    let m := fold_left (fun acc p => Z.min acc (expires_at p)) l acc in
    (m = acc \/ exists q, q ∈ l /\ expires_at q = m) /\ m <= acc /\
    forall q, q ∈ l -> m <= expires_at q).
  { cbv zeta. induction l as [|x l IH]; intros acc; cbn [fold_left].
    - split_and!; [by left|lia|set_solver].
    - destruct (IH (Z.min acc (expires_at x))) as (H1 & H2 & H3). split_and!.
      + destruct H1 as [H1|(q & Hq & Hm)].
        * destruct (Z.min_spec acc (expires_at x)) as [[_ Hm]|[_ Hm]]; rewrite Hm in H1 |- *.
          -- by left.
          -- right. exists x. split; [set_solver|done].
        * right. exists q. split; [set_solver|done].
      + lia.
      + intros q [->|Hq]%elem_of_cons; [lia|by apply H3]. }
  cbv zeta in H. destruct (H ps (expires_at p)) as (H1 & H2 & H3). split.
  - destruct H1 as [H1|(q & Hq & Hm)]; [exists p|exists q]; split; set_solver.
  - intros q [->|Hq]%elem_of_cons; [lia|by apply H3].
Qed.

(** X1: a decay that returns changes, of its subscription, the two quota
    fields, the reset date and the modification time, and nothing else:
    status, end date, owner, tariff and the charge timestamps are as
    before.  It deletes exactly the purchases whose keys are in the group,
    touches no other subscription, no user, no tariff and no ledger entry,
    and all of it is committed. *)
Theorem decay_writes_only_quota_fields env sid expired w subscription w' :
  subscriptions (live w) !! sid = Some subscription ->
  _reset_subscription_traffic env sid expired w = (Ok tt, w') ->
  (exists limit purchased reset_at,
     subscriptions (live w') =
     <[sid := set_updated_at (now env)
                (set_traffic_reset_at reset_at (set_traffic limit purchased subscription))]>
       (subscriptions (live w))) /\
  users (live w') = users (live w) /\
  tariffs (live w') = tariffs (live w) /\
  transactions (live w') = transactions (live w) /\
  (forall p, p ∈ purchases (live w') <->
             p ∈ purchases (live w) /\ purchase_pk p ∉ purchase_pk <$> expired) /\
  saved w' = live w'.
Proof.
  intros Hsub Hrun.
  destruct (reset_unit_returned env sid expired w subscription w' Hsub Hrun) as [Hlive Hsaved].
  rewrite Hlive. unfold decayed_store, decayed_row. store_simpl.
  split_and!; try done.
  - by eexists _, _, _.
  - intros p. unfold without. rewrite list_elem_of_filter. tauto.
  - by rewrite Hsaved, Hlive.
Qed.

(** Scenario C: the decay of the lot of 20 GB returns and leaves the users
    as they are. *)
Lemma decay_writes_only_quota_fields_witness :
  (subscriptions (live scenario_c) !! 1 = Some (example_subscription 50 (Some 20) (Some 3)) /\
   fst (_reset_subscription_traffic (calm_env 1000 ApiFailure) 1 [example_lot 11 1 20 1000]
          scenario_c) = Ok tt) /\
  users (live (snd (_reset_subscription_traffic (calm_env 1000 ApiFailure) 1
                      [example_lot 11 1 20 1000] scenario_c)))
  = users (live scenario_c).
Proof.
  split; [split; vm_compute; reflexivity|].
  eapply (decay_writes_only_quota_fields (calm_env 1000 ApiFailure) 1
            [example_lot 11 1 20 1000] scenario_c
            (example_subscription 50 (Some 20) (Some 3))).
  - vm_compute; reflexivity.
  - vm_compute; reflexivity.
Defined.

(** X2: after a decay that returns, the reset date of the subscription is
    the earliest expiry among its purchases that are still in the store and
    expire after now; it is empty exactly when there is no such purchase. *)
Theorem decay_sets_next_reset_date env sid expired w subscription w' :
  subscriptions (live w) !! sid = Some subscription ->
  _reset_subscription_traffic env sid expired w = (Ok tt, w') ->
  exists subscription',
    subscriptions (live w') !! sid = Some subscription' /\
    match traffic_reset_at subscription' with
    | None =>
        forall p, p ∈ purchases (live w') -> subscription_id p = sid ->
                  expires_at p <= now env
    | Some t =>
        now env < t /\
        (exists p, p ∈ purchases (live w') /\ subscription_id p = sid /\ expires_at p = t) /\
        (forall p, p ∈ purchases (live w') -> subscription_id p = sid ->
                   now env < expires_at p -> t <= expires_at p)
    end.
Proof.
  intros Hsub Hrun.
  destruct (reset_unit_returned env sid expired w subscription w' Hsub Hrun) as [Hlive _].
  rewrite Hlive. unfold decayed_store. store_simpl.
  eexists. split; [apply lookup_insert_eq|].
  unfold decayed_row. cbn [traffic_reset_at set_updated_at set_traffic_reset_at].
  set (l := without _ _).
  assert (Hin : forall p, p ∈ remaining_of (now env) sid l <->
                          p ∈ l /\ subscription_id p = sid /\ now env < expires_at p).
  { intros p. unfold remaining_of. rewrite list_elem_of_filter. tauto. }
  destruct (remaining_of (now env) sid l) as [|q qs] eqn:Hrem; cbn [next_reset].
  - intros p Hp Hsid. destruct (decide (now env < expires_at p)) as [Hlt|]; [|lia].
    exfalso. assert (p ∈ []) by (apply Hin; done). set_solver.
  - destruct (min_expires_at_spec q qs) as [(p & Hp & Hmin) Hleast].
    split_and!.
    + apply Hin in Hp. lia.
    + exists p. apply Hin in Hp. tauto.
    + intros p' Hp' Hsid Hlt. apply Hleast, Hin. done.
Qed.

(** Scenario C with a second lot of the same subscription that expires at
    5000: after the decay at 1000 the reset date is 5000. *)
Lemma decay_sets_next_reset_date_witness :
  (subscriptions
     (live (example_world 500 (example_subscription 50 (Some 20) (Some 3))
              [example_lot 11 1 20 1000; example_lot 12 1 5 5000])) !! 1
   = Some (example_subscription 50 (Some 20) (Some 3)) /\
   fst (_reset_subscription_traffic (calm_env 1000 ApiFailure) 1 [example_lot 11 1 20 1000]
          (example_world 500 (example_subscription 50 (Some 20) (Some 3))
             [example_lot 11 1 20 1000; example_lot 12 1 5 5000])) = Ok tt) /\
  exists subscription',
    subscriptions
      (live (snd (_reset_subscription_traffic (calm_env 1000 ApiFailure) 1
                    [example_lot 11 1 20 1000]
                    (example_world 500 (example_subscription 50 (Some 20) (Some 3))
                       [example_lot 11 1 20 1000; example_lot 12 1 5 5000])))) !! 1
    = Some subscription' /\
    traffic_reset_at subscription' = Some 5000.
Proof.
  split; [split; vm_compute; reflexivity|].
  destruct (decay_sets_next_reset_date (calm_env 1000 ApiFailure) 1
              [example_lot 11 1 20 1000]
              (example_world 500 (example_subscription 50 (Some 20) (Some 3))
                 [example_lot 11 1 20 1000; example_lot 12 1 5 5000])
              (example_subscription 50 (Some 20) (Some 3))
              (snd (_reset_subscription_traffic (calm_env 1000 ApiFailure) 1
                      [example_lot 11 1 20 1000]
                      (example_world 500 (example_subscription 50 (Some 20) (Some 3))
                         [example_lot 11 1 20 1000; example_lot 12 1 5 5000]))))
    as (subscription' & Hrow & _).
  - vm_compute; reflexivity.
  - vm_compute; reflexivity.
  - exists subscription'. split; [exact Hrow|].
    vm_compute in Hrow. injection Hrow as <-. reflexivity.
Defined.

(** X3: a decay reaches nobody before it has committed.  Whenever a run
    of [_reset_subscription_traffic] pushes to the panel or sends a
    message, the subscription exists, the decayed store is what the
    session holds, and it is committed; a run that stops earlier leaves
    only log records. *)
Theorem decay_reaches_nobody_before_commit env sid expired w :
  let w' := snd (_reset_subscription_traffic env sid expired w) in
  exists es,
    effects w' = es ++ effects w /\
    ((exists e, e ∈ es /\ ~ is_logged e) ->
     saved w' = live w' /\
     exists subscription,
       subscriptions (live w) !! sid = Some subscription /\
       live w' = decayed_store env sid expired subscription (live w)).
Proof.
  cbv zeta.
  destruct (subscriptions (live w) !! sid) as [subscription|] eqn:Hsub.
  2:{ rewrite (reset_unit_orphan _ _ _ _ Hsub). exists [].
      split; [by destruct (raises env _)|]. intros (e & He & _). set_solver. }
  destruct (reset_unit_detail env sid expired w subscription Hsub)
    as (r & w' & es & -> & Heff & Hcase). cbn [snd].
  exists es. split; [done|]. intros (e & He & Hout).
  destruct Hcase as [(_ & Hlogs & _)|(Hlive & Hsaved & _)].
  - exfalso. apply Hout. rewrite Forall_forall in Hlogs. by apply Hlogs.
  - split; [done|]. by exists subscription.
Qed.

(** X4: the user to notify is looked up after the commit and outside
    every [try].  When that lookup raises and nothing else does, the run
    raises although the decayed store is committed, and the loop of the
    batch counts the group as one error, not as reset purchases. *)
Theorem decay_committed_but_counted_as_error env sid expired w subscription st :
  subscriptions (live w) !! sid = Some subscription ->
  bot env = true ->
  user_id subscription <> 0 ->
  raises env (OpGetUser (user_id subscription)) = true ->
  (forall op, raises env op = true -> exists uid, op = OpGetUser uid) ->
  exists w',
    _reset_subscription_traffic env sid expired w
    = (Raise (StoreError (OpGetUser (user_id subscription))), w') /\
    live w' = decayed_store env sid expired subscription (live w) /\
    saved w' = live w' /\
    reset_iteration env (sid, expired) (st, w)
    = (Ok tt, (incr_reset_errors st, push [Logged ERROR (MsgResetUnitFailed sid)] w')).
Proof.
  intros Hsub Hbot Huid Hlookup Honly.
  destruct (reset_unit_detail env sid expired w subscription Hsub)
    as (r & w' & es & Hrun & _ & Hcase).
  destruct Hcase as [(_ & _ & op & _ & Hop & Hnot & _)|(Hlive & Hsaved & Hr)].
  { destruct (Honly op Hop) as [uid ->]. by destruct (Hnot uid). }
  assert (r = Raise (StoreError (OpGetUser (user_id subscription)))) as ->.
  { rewrite Hr. unfold notify_result. rewrite Hbot, Hlookup.
    apply Z.eqb_neq in Huid. by rewrite Huid. }
  exists w'. split_and!; try done.
  rewrite reset_iteration_run. cbn [fst snd]. by rewrite Hrun.
Qed.

(** Scenario C when the lookup of user 7 raises: the lot is deleted and
    the purchased traffic is committed as 0, and the run raises. *)
Lemma decay_committed_but_counted_as_error_witness :
  (subscriptions (live scenario_c) !! 1 = Some (example_subscription 50 (Some 20) (Some 3)) /\
   bot (user_lookup_fails_env 1000 7) = true /\
   user_id (example_subscription 50 (Some 20) (Some 3)) <> 0 /\
   raises (user_lookup_fails_env 1000 7)
     (OpGetUser (user_id (example_subscription 50 (Some 20) (Some 3)))) = true /\
   (forall op, raises (user_lookup_fails_env 1000 7) op = true ->
               exists uid, op = OpGetUser uid)) /\
  exists w',
    _reset_subscription_traffic (user_lookup_fails_env 1000 7) 1
      [example_lot 11 1 20 1000] scenario_c
    = (Raise (StoreError (OpGetUser 7)), w') /\
    purchases (saved w') = [] /\
    (purchased_traffic_gb <$> subscriptions (saved w') !! 1) = Some (Some 0).
Proof.
  assert (Honly : forall op, raises (user_lookup_fails_env 1000 7) op = true ->
                             exists uid, op = OpGetUser uid).
  { intros op. destruct op; try discriminate. eauto. }
  split; [split_and!; try (vm_compute; reflexivity); [discriminate|exact Honly]|].
  destruct (decay_committed_but_counted_as_error (user_lookup_fails_env 1000 7) 1
              [example_lot 11 1 20 1000] scenario_c
              (example_subscription 50 (Some 20) (Some 3)) no_resets)
    as (w' & Hrun & Hlive & Hsaved & _).
  - vm_compute; reflexivity.
  - reflexivity.
  - discriminate.
  - vm_compute; reflexivity.
  - exact Honly.
  - exists w'. split; [exact Hrun|]. rewrite Hsaved, Hlive.
    split; vm_compute; reflexivity.
Defined.

(** ** The groups of a decay batch *)

(** X5: the dictionary that [process_traffic_resets] builds from the
    expired purchases has one entry for each subscription that has an
    expired purchase: its keys are distinct, every purchase is filed under
    its subscription, and the entry of a subscription holds all its
    purchases of the selection, in the order of the selection, and never
    is empty. *)
Theorem groups_partition_the_selection (expired : list TrafficPurchase) :
  let groups := group_by_subscription expired in
  NoDup (fst <$> groups) /\
  (forall sid ps, (sid, ps) ∈ groups ->
     ps <> [] /\ ps = filter (fun p => subscription_id p = sid) expired) /\
  (forall p, p ∈ expired ->
     (subscription_id p, filter (fun q => subscription_id q = subscription_id p) expired)
       ∈ groups).
Proof. exact (group_by_subscription_filter expired). Qed.

(** ** A decay batch whose groups meet no failure *)

Lemma units_ok_false env op :
  units_ok env -> op <> OpCommit ByResetBatch -> op <> OpRollback ->
  raises env op = false.
Proof.
  intros Hok H1 H2. destruct (raises env op) eqn:Hr; [|done].
  by destruct (Hok op Hr).
Qed.

Lemma base_limit_used_tariffs st st' subscription :
  tariffs st = tariffs st' ->
  base_limit_used st subscription = base_limit_used st' subscription.
Proof. intros H. unfold base_limit_used, tariff_fallback. by rewrite H. Qed.

Lemma reset_unit_ok env sid expired w subscription :
  units_ok env ->
  subscriptions (live w) !! sid = Some subscription ->
  exists w',
    _reset_subscription_traffic env sid expired w = (Ok tt, w') /\
    live w' = decayed_store env sid expired subscription (live w) /\
    saved w' = live w'.
Proof.
  intros Hok Hsub.
  destruct (reset_unit_detail env sid expired w subscription Hsub)
    as (r & w' & es & Hrun & _ & Hcase).
  destruct Hcase as [(_ & _ & op & _ & Hop & _ & Hc & Hr)|(Hlive & Hsaved & Hr)].
  { by destruct (Hok op Hop). }
  exists w'. split_and!; try done.
  rewrite Hrun, Hr. unfold notify_result.
  rewrite (units_ok_false env (OpGetUser _) Hok), andb_false_r by done. reflexivity.
Qed.

(** The rows after the groups of a batch: a subscription with a group has
    its quota fields decayed by that group, the others are as before. *)
Lemma reset_units_rows env groups w :
  units_ok env -> NoDup (fst <$> groups) ->
  let w' := snd (reset_units env groups w) in
  tariffs (live w') = tariffs (live w) /\
  (saved w = live w -> saved w' = live w') /\
  forall sid subscription, subscriptions (live w) !! sid = Some subscription ->
    exists subscription',
      subscriptions (live w') !! sid = Some subscription' /\
      (sid ∉ (fst <$> groups) -> subscription' = subscription) /\
      (forall ps, (sid, ps) ∈ groups ->
         traffic_limit_gb subscription'
           = base_limit_used (live w) subscription + new_purchased subscription ps /\
         purchased_traffic_gb subscription' = Some (new_purchased subscription ps)).
Proof.
  intros Hok. cbv zeta. revert w.
  induction groups as [|[sid0 ps0] rest IH]; intros w Hnd.
  { cbn [reset_units snd]. split_and!; try done.
    intros sid s Hs. exists s. split_and!; try done. intros ps Hin. set_solver. }
  rewrite fmap_cons in Hnd. apply NoDup_cons in Hnd as [Hfresh Hnd]. cbn [fst] in Hfresh.
  cbn [reset_units snd fst].
  destruct (subscriptions (live w) !! sid0) as [s0|] eqn:Hsub0.
  - destruct (reset_unit_ok env sid0 ps0 w s0 Hok Hsub0) as (w1 & Hrun & Hlive & Hsaved).
    rewrite Hrun. cbn [fst snd after_reset].
    destruct (IH w1 Hnd) as (Htar & Hcommitted & Hrows).
    assert (Htar1 : tariffs (live w1) = tariffs (live w)) by by rewrite Hlive.
    split_and!; [by rewrite Htar|by intros _; apply Hcommitted|].
    intros sid s Hs.
    destruct (decide (sid = sid0)) as [->|Hne].
    + simplify_eq.
      destruct (Hrows sid0 (decayed_row env sid0 ps0 s0 (live w)))
        as (s' & Hs' & Hsame & _).
      { rewrite Hlive. unfold decayed_store. store_simpl. apply lookup_insert_eq. }
      specialize (Hsame Hfresh). subst s'.
      eexists. split_and!; [exact Hs'|set_solver|].
      intros ps Hin. apply elem_of_cons in Hin as [[= ->]|Hin]; [done|].
      exfalso. apply Hfresh. apply list_elem_of_fmap. by exists (sid0, ps).
    + destruct (Hrows sid s) as (s' & Hs' & Hsame & Hfields).
      { rewrite Hlive. unfold decayed_store. store_simpl.
        by rewrite lookup_insert_ne. }
      exists s'. split_and!; [done|set_solver|].
      intros ps Hin. apply elem_of_cons in Hin as [[= -> ->]|Hin]; [done|].
      rewrite <- (base_limit_used_tariffs _ _ s Htar1). by apply Hfields.
  - rewrite (reset_unit_orphan _ _ _ _ Hsub0).
    rewrite (units_ok_false env (OpSelectSubscription sid0) Hok) by done.
    cbn [fst snd after_reset].
    destruct (IH w Hnd) as (Htar & Hcommitted & Hrows).
    split_and!; [done|done|].
    intros sid s Hs.
    destruct (Hrows sid s Hs) as (s' & Hs' & Hsame & Hfields).
    exists s'. split_and!; [done|set_solver|].
    intros ps Hin. apply elem_of_cons in Hin as [[= -> ->]|Hin]; [|by apply Hfields].
    by rewrite Hsub0 in Hs.
Qed.

Lemma new_purchased_min subscription expired :
  new_purchased subscription expired
  = or0 (purchased_traffic_gb subscription)
    - Z.min (sum_traffic_gb expired) (or0 (purchased_traffic_gb subscription)).
Proof.
  unfold new_purchased, clamped_total.
  destruct (_ <? _) eqn:H; lia.
Qed.

Lemma base_limit_used_quota_ok st subscription :
  quota_ok subscription ->
  base_limit_used st subscription
  = traffic_limit_gb subscription - or0 (purchased_traffic_gb subscription).
Proof.
  unfold quota_ok, base_limit_used, tariff_fallback. intros Hq.
  destruct (truthy _); [|lia].
  destruct (tariffs st !! _); [|lia].
  destruct (_ <? 0) eqn:Hlt; lia.
Qed.

(** X6: what a decay batch commits when the runs on its groups meet no
    failure, even if the commit that ends the batch raises: every group
    is committed by its own run.  A subscription none of whose purchases
    has expired keeps its row as it is.  A subscription with expired
    purchases is decayed once, by all of them together: its purchased
    traffic decreases by their total, at most by what was stored as
    purchased, and its limit is the base limit plus what remains
    purchased; when the quota invariant held before, the limit decreases
    by exactly the reclaimed amount. *)
Theorem decay_batch_result env w sid subscription :
  units_ok env ->
  subscriptions (saved w) !! sid = Some subscription ->
  let w' := snd (process_traffic_resets env w) in
  let lots := filter (fun p => subscription_id p = sid) (expired_purchases env (saved w)) in
  let purchased := or0 (purchased_traffic_gb subscription) in
  let reclaimed := Z.min (sum_traffic_gb lots) purchased in
  exists subscription',
    subscriptions (saved w') !! sid = Some subscription' /\
    (lots = [] -> subscription' = subscription) /\
    (lots <> [] ->
       purchased_traffic_gb subscription' = Some (purchased - reclaimed) /\
       traffic_limit_gb subscription'
         = base_limit_used (saved w) subscription + (purchased - reclaimed) /\
       (quota_ok subscription ->
          traffic_limit_gb subscription' = traffic_limit_gb subscription - reclaimed)).
Proof.
  intros Hok Hsub. cbv zeta. rewrite process_traffic_resets_unfold.
  apply (batch_world env (reset_inner env) _ _ no_resets w
           (fun w' => exists subscription',
              subscriptions (saved w') !! sid = Some subscription' /\ _)); try done.
  { intros Hs. by rewrite (units_ok_false env OpSession Hok) in Hs. }
  intros _.
  destruct (reset_inner_run env no_resets (session w)) as [r ->].
  rewrite (units_ok_false env OpSelectExpired Hok) by done. cbn [snd].
  cbn [session live].
  set (expired := expired_purchases env (saved w)).
  destruct (group_by_subscription_filter expired) as (Hnd & Hfilter & Hcover).
  destruct (reset_units_rows env (group_by_subscription expired) (session w) Hok Hnd)
    as (_ & Hcommitted & Hrows).
  specialize (Hcommitted eq_refl).
  destruct (Hrows sid subscription Hsub) as (s' & Hs' & Hsame & Hfields).
  exists s'. split.
  { unfold commit_batch. destruct (raises env _); [by rewrite Hcommitted|done]. }
  split.
  - intros Hnone. apply Hsame. intros Hin.
    apply list_elem_of_fmap in Hin as ([sid' ps] & Hsid & Hin). cbn [fst] in Hsid. subst sid'.
    destruct (Hfilter _ _ Hin) as [Hne Hps]. by rewrite Hps in Hne.
  - intros Hsome.
    destruct (filter (fun p => subscription_id p = sid) expired) as [|p ps] eqn:Hlots; [done|].
    assert (Hp : p ∈ expired /\ subscription_id p = sid).
    { assert (Hin : p ∈ filter (fun p => subscription_id p = sid) expired)
        by (rewrite Hlots; set_solver).
      apply list_elem_of_filter in Hin. tauto. }
    destruct Hp as [Hp Hsid]. specialize (Hcover p Hp). rewrite Hsid, Hlots in Hcover.
    destruct (Hfields _ Hcover) as [Hlimit Hpurchased].
    rewrite new_purchased_min in Hlimit, Hpurchased.
    split_and!; [done|done|].
    intros Hq. rewrite Hlimit, (base_limit_used_quota_ok _ _ Hq). lia.
Qed.

(** Scenario C when the commit that ends the batch raises: the batch at
    time 1000 still reclaims the 20 GB of the expired lot, and the
    committed limit goes from 50 to 30. *)
Lemma decay_batch_result_witness :
  (units_ok (batch_commit_fails_env 1000) /\
   subscriptions (saved scenario_c) !! 1 = Some (example_subscription 50 (Some 20) (Some 3))) /\
  exists subscription',
    subscriptions (saved (snd (process_traffic_resets (batch_commit_fails_env 1000)
                                 scenario_c)))
      !! 1 = Some subscription' /\
    traffic_limit_gb subscription' = 30.
Proof.
  assert (Hok : units_ok (batch_commit_fails_env 1000)).
  { intros op. destruct op as [| | | | | | | | | | |[]|]; try discriminate; auto. }
  split; [split; [exact Hok|vm_compute; reflexivity]|].
  destruct (decay_batch_result (batch_commit_fails_env 1000) scenario_c 1
              (example_subscription 50 (Some 20) (Some 3)))
    as (subscription' & Hrow & _ & Hsome).
  - exact Hok.
  - vm_compute; reflexivity.
  - exists subscription'. split; [exact Hrow|].
    vm_compute in Hrow. injection Hrow as <-. reflexivity.
Defined.

(** ** What a decay batch never touches *)

(** X7: whatever fails, a decay batch leaves the users, the tariffs and
    the ledger of the committed state as they are, adds and removes no
    subscription row and adds no purchase.  When the keys of the purchases
    are distinct, it removes no purchase that expires after now. *)
Theorem decay_batch_spares_the_rest env w :
  let w' := snd (process_traffic_resets env w) in
  users (saved w') = users (saved w) /\
  tariffs (saved w') = tariffs (saved w) /\
  transactions (saved w') = transactions (saved w) /\
  dom (subscriptions (saved w')) = dom (subscriptions (saved w)) /\
  (forall p, p ∈ purchases (saved w') -> p ∈ purchases (saved w)) /\
  (NoDup (purchase_pk <$> purchases (saved w)) ->
   forall p, p ∈ purchases (saved w) -> now env < expires_at p ->
             p ∈ purchases (saved w')).
Proof.
  cbv zeta.
  destruct (process_traffic_resets_frame env w) as (Hu & Ht & Hx & Hp).
  destruct (process_traffic_resets_keeps (dom (subscriptions (saved w)))
              (fun _ _ => True) env w) as [Hdom _]; try done.
  split_and!; try done.
  intros Hnd p Hin Hlater. by apply process_traffic_resets_spares.
Qed.

(** ** A batch that cannot open its session or select its units *)

Lemma batch_session_raises {L} env (inner : M (L * World) unit) msg1 msg2 (st : L) w :
  raises env OpSession = true ->
  with_locals st
    (try_except
       (lift (AsyncSessionLocal env) ;;
        try_except inner
          (fun e => lift (logger ERROR msg1) ;; lift (db_rollback env)))
       (fun e => lift (logger ERROR msg2)) ;;
     let! stats := locals in
     ret stats) w =
  (Ok st, push [Logged ERROR msg2] w).
Proof.
  intros Hs. unfold with_locals. rewrite bind_run.
  erewrite try_raise.
  2:{ apply bind_raise, lift_raise. rewrite AsyncSessionLocal_run, Hs. reflexivity. }
  erewrite lift_ok by apply logger_run. reflexivity.
Qed.

Lemma batch_inner_raises {L} env (inner : M (L * World) unit) msg1 msg2 (st st' : L) w e w1 :
  raises env OpSession = false ->
  inner (st, session w) = (Raise e, (st', w1)) ->
  with_locals st
    (try_except
       (lift (AsyncSessionLocal env) ;;
        try_except inner
          (fun e => lift (logger ERROR msg1) ;; lift (db_rollback env)))
       (fun e => lift (logger ERROR msg2)) ;;
     let! stats := locals in
     ret stats) w =
  (Ok st',
   if raises env OpRollback
   then push [Logged ERROR msg2; Logged ERROR msg1] w1
   else session (push [Logged ERROR msg1] w1)).
Proof.
  intros Hs Hinner. unfold with_locals. rewrite bind_run.
  destruct (raises env OpRollback) eqn:Hr.
  - erewrite try_raise.
    2:{ erewrite bind_ok
          by (apply lift_ok; rewrite AsyncSessionLocal_run, Hs; reflexivity).
        erewrite try_raise by exact Hinner.
        erewrite bind_ok by (apply lift_ok, logger_run).
        apply lift_raise. rewrite db_rollback_run, Hr. reflexivity. }
    erewrite lift_ok by apply logger_run. reflexivity.
  - erewrite try_ok.
    2:{ erewrite bind_ok
          by (apply lift_ok; rewrite AsyncSessionLocal_run, Hs; reflexivity).
        erewrite try_raise by exact Hinner.
        erewrite bind_ok by (apply lift_ok, logger_run).
        apply lift_ok. rewrite db_rollback_run, Hr. reflexivity. }
    reflexivity.
Qed.

(** X8: a pass whose session cannot be opened returns its counters all
    zero, leaves the session as it is and logs one error.  A pass whose
    selection raises returns its counters all zero, logs the error and
    rolls back; when the rollback raises too, a second error is logged.
    In each case nothing is charged, decayed or committed. *)
Theorem pass_that_cannot_select env w :
  (raises env OpSession = true ->
   process_daily_charges env w
   = (Ok no_charges, push [Logged ERROR MsgChargeQueryFailed] w) /\
   process_traffic_resets env w
   = (Ok no_resets, push [Logged ERROR MsgResetQueryFailed] w)) /\
  (raises env OpSession = false -> raises env OpSelectDue = true ->
   process_daily_charges env w
   = (Ok no_charges,
      {| live := saved w; saved := saved w;
         effects :=
           (if raises env OpRollback
            then [Logged ERROR MsgChargeQueryFailed; Logged ERROR MsgChargeBatchFailed]
            else [Logged ERROR MsgChargeBatchFailed]) ++ effects w |})) /\
  (raises env OpSession = false -> raises env OpSelectExpired = true ->
   process_traffic_resets env w
   = (Ok no_resets,
      {| live := saved w; saved := saved w;
         effects :=
           (if raises env OpRollback
            then [Logged ERROR MsgResetQueryFailed; Logged ERROR MsgResetBatchFailed]
            else [Logged ERROR MsgResetBatchFailed]) ++ effects w |})).
Proof.
  split_and!.
  - intros Hs. split.
    + unfold process_daily_charges. by rewrite batch_session_raises.
    + rewrite process_traffic_resets_unfold. by rewrite batch_session_raises.
  - intros Hs Hsel. unfold process_daily_charges.
    erewrite batch_inner_raises; [|done|].
    2:{ apply bind_raise, lift_raise.
        rewrite get_daily_subscriptions_for_charge_run, Hsel. reflexivity. }
    by destruct (raises env OpRollback).
  - intros Hs Hsel. rewrite process_traffic_resets_unfold.
    erewrite batch_inner_raises; [|done|].
    2:{ destruct (reset_inner_run env no_resets (session w)) as [r Hrun].
        rewrite Hsel in Hrun. exact Hrun. }
    by destruct (raises env OpRollback).
Qed.

(** ** The status check of the middleware *)

(** A second check, at any time and whatever raises in it, finds a
    subscription that the first check has marked already marked. *)
Lemma status_check_again env env' data w :
  expiry_found env data w <> None ->
  status_check env' data (status_check env data w) = status_check env data w.
Proof.
  intros Hsome. unfold status_check at 2 3.
  destruct (expiry_found env data w) as [[[user sid] subscription]|] eqn:Hfound; [|done].
  assert (Hnone : forall w1,
    subscriptions (live w1)
    = <[sid := set_updated_at (now env) (set_status EXPIRED subscription)]>
        (subscriptions (live w)) ->
    status_check env' data w1 = w1).
  { intros w1 Hw1. unfold status_check, expiry_found in *.
    destruct (data_db data); [|done].
    destruct (db_user data) as [user'|]; [|done].
    destruct (user_subscription user') as [sid'|]; [|done].
    destruct (subscriptions (live w) !! sid') as [subscription'|]; [|done].
    destruct (decide (status subscription' = ACTIVE)); [|done].
    destruct (end_date subscription') as [t|]; [|done].
    destruct (t <=? now env); [|done].
    injection Hfound as -> -> ->.
    rewrite Hw1, lookup_insert_eq.
    by rewrite decide_False. }
  destruct (raises env _); apply Hnone; reflexivity.
Qed.

Lemma status_check_nothing env data w :
  expiry_found env data w = None -> status_check env data w = w.
Proof. intros Hnone. unfold status_check. by rewrite Hnone. Qed.

Section MiddlewareProperties.

Context {TelegramObject Any : Type}.

Lemma middleware_run env (handler : TelegramObject -> Data -> M World Any) event data w :
  SubscriptionStatusMiddleware_call env handler event data w
  = handler event data (status_check env data w).
Proof.
  unfold SubscriptionStatusMiddleware_call, status_check, expiry_found.
  rewrite bind_run. cbn [get]. cbv zeta.
  destruct (db_user data) as [user|] eqn:Huser.
  2:{ by destruct (data_db data). }
  destruct (user_subscription user) as [sid|] eqn:Hrel.
  2:{ by destruct (data_db data). }
  destruct (subscriptions (live w) !! sid) as [subscription|] eqn:Hsub.
  2:{ by destruct (data_db data). }
  cbn [fmap option_fmap option_map].
  destruct (data_db data) eqn:Hdb; [|done].
  destruct (decide (status subscription = ACTIVE)) as [Hactive|Hother]; [|done].
  destruct (end_date subscription) as [t|] eqn:Hend; [|done].
  destruct (t <=? now env) eqn:Ht; [|done].
  unfold try_except.
  rewrite bind_run. unfold update_subscription at 1, modify at 1. cbv beta iota.
  rewrite bind_run. unfold update_subscription at 1, modify at 1. cbv beta iota.
  rewrite bind_run. cbv beta iota.
  rewrite bind_run, db_commit_run.
  autorewrite with world. store_simpl.
  rewrite (alter_Some _ _ _ _ Hsub), alter_insert_same.
  destruct (raises env _); reflexivity.
Qed.

(** X9: the status check marks a subscription once.  The middleware
    applied to a handler that is itself wrapped by the middleware, each
    of the two calls with its own clock and its own failures: when the
    outer check finds the subscription to mark, the inner check finds it
    already marked, whatever its clock reads, and writes nothing, commits
    nothing and logs nothing, so that the nested call behaves as the
    outer call alone; when the outer check finds nothing to mark, the
    nested call behaves as the inner call alone, which may mark the
    subscription if its clock has reached the end date. *)
Theorem middleware_marks_once
    env env' (handler : TelegramObject -> Data -> M World Any) event data w :
  (expiry_found env data w <> None ->
   SubscriptionStatusMiddleware_call env
     (SubscriptionStatusMiddleware_call env' handler) event data w
   = SubscriptionStatusMiddleware_call env handler event data w) /\
  (expiry_found env data w = None ->
   SubscriptionStatusMiddleware_call env
     (SubscriptionStatusMiddleware_call env' handler) event data w
   = SubscriptionStatusMiddleware_call env' handler event data w).
Proof.
  split; intros Hfound; rewrite !middleware_run.
  - by rewrite (status_check_again env env' data w Hfound).
  - by rewrite (status_check_nothing env data w Hfound).
Qed.

(** X10: when the middleware marks a subscription as expired, it changes
    only that row of the session, and its commit writes the whole session.
    When the commit raises, the error is logged and swallowed: the handler
    still runs, in a session that holds the expired status, while the
    committed state is as before. *)
Theorem middleware_commit_failure_is_swallowed
    env (handler : TelegramObject -> Data -> M World Any) event data w
    user sid subscription t :
  data_db data = true -> db_user data = Some user ->
  user_subscription user = Some sid ->
  subscriptions (live w) !! sid = Some subscription ->
  status subscription = ACTIVE -> end_date subscription = Some t -> t <= now env ->
  exists w1,
    SubscriptionStatusMiddleware_call env handler event data w = handler event data w1 /\
    live w1 = marked_store env sid subscription (live w) /\
    (raises env (OpCommit (ByMiddleware (user_pk user))) = false ->
     saved w1 = live w1 /\
     effects w1 = Logged INFO (MsgMarkedExpired (user_pk user)) :: effects w) /\
    (raises env (OpCommit (ByMiddleware (user_pk user))) = true ->
     saved w1 = saved w /\
     effects w1 = Logged ERROR MsgStatusCheckFailed :: effects w).
Proof.
  intros Hdb Huser Hrel Hsub Hactive Hend Ht.
  exists (status_check env data w). split; [apply middleware_run|].
  unfold status_check, expiry_found.
  rewrite Hdb, Huser, Hrel, Hsub, Hend. rewrite decide_True by done.
  apply Z.leb_le in Ht. rewrite Ht.
  destruct (raises env _); split_and!; done.
Qed.

End MiddlewareProperties.

(** Scenario A at time 3000, after the end date 2000 of the subscription,
    when the commit raises: the handler sees the status expired, the
    committed status is still active. *)
Lemma middleware_commit_failure_is_swallowed_witness :
  (data_db data_with_session = true /\
   db_user data_with_session = Some (example_user 500) /\
   user_subscription (example_user 500) = Some 1 /\
   subscriptions (live scenario_a) !! 1 = Some (example_subscription 50 (Some 20) (Some 3)) /\
   status (example_subscription 50 (Some 20) (Some 3)) = ACTIVE /\
   end_date (example_subscription 50 (Some 20) (Some 3)) = Some 2000 /\
   2000 <= now (commit_fails_env 3000)) /\
  exists w1,
    SubscriptionStatusMiddleware_call (commit_fails_env 3000)
      (fun (_ : unit) (_ : Data) => ret (S:=World) tt) tt data_with_session scenario_a
    = (Ok tt, w1) /\
    (status <$> subscriptions (live w1) !! 1) = Some EXPIRED /\
    (status <$> subscriptions (saved w1) !! 1) = Some ACTIVE.
Proof.
  split; [split_and!; try (vm_compute; reflexivity); vm_compute; discriminate|].
  destruct (middleware_commit_failure_is_swallowed (commit_fails_env 3000)
              (fun (_ : unit) (_ : Data) => ret (S:=World) tt) tt data_with_session
              scenario_a (example_user 500) 1
              (example_subscription 50 (Some 20) (Some 3)) 2000)
    as (w1 & Hrun & Hlive & _ & Hfail); try (vm_compute; reflexivity).
  { vm_compute; discriminate. }
  exists w1. split; [exact Hrun|].
  destruct (Hfail eq_refl) as [Hsaved _]. rewrite Hlive, Hsaved.
  split; vm_compute; reflexivity.
Defined.

(** Scenario A, whose subscription ends at 2000.  A check at 3000 inside
    a check at 2500 behaves as the check at 2500 alone; a check at 2000
    inside a check at 1999 behaves as the check at 2000 alone, and marks
    the subscription, which the check at 1999 alone leaves active. *)
Lemma middleware_marks_once_witness :
  let handler := fun (_ : unit) (_ : Data) => ret (S:=World) tt in
  let call t := SubscriptionStatusMiddleware_call (calm_env t ApiFailure) in
  call 2500 (call 3000 handler) tt data_with_session scenario_a
  = call 2500 handler tt data_with_session scenario_a /\
  call 1999 (call 2000 handler) tt data_with_session scenario_a
  = call 2000 handler tt data_with_session scenario_a /\
  (status <$> subscriptions
                (live (snd (call 1999 (call 2000 handler) tt data_with_session scenario_a)))
              !! 1) = Some EXPIRED /\
  (status <$> subscriptions
                (live (snd (call 1999 handler tt data_with_session scenario_a))) !! 1)
  = Some ACTIVE.
Proof.
  cbv zeta.
  assert (Hfound : expiry_found (calm_env 2500 ApiFailure) data_with_session scenario_a
                   <> None).
  { vm_compute. discriminate. }
  assert (Hnot : expiry_found (calm_env 1999 ApiFailure) data_with_session scenario_a
                 = None).
  { vm_compute. reflexivity. }
  split; [|split].
  - exact (proj1 (middleware_marks_once (calm_env 2500 ApiFailure)
                    (calm_env 3000 ApiFailure)
                    (fun (_ : unit) (_ : Data) => ret (S:=World) tt) tt
                    data_with_session scenario_a) Hfound).
  - exact (proj2 (middleware_marks_once (calm_env 1999 ApiFailure)
                    (calm_env 2000 ApiFailure)
                    (fun (_ : unit) (_ : Data) => ret (S:=World) tt) tt
                    data_with_session scenario_a) Hnot).
  - split; vm_compute; reflexivity.
Defined.

(** ** Balances and the ledger through a charge *)

(** A charge either leaves the users and the ledger as they are, or debits
    one user by a positive amount that the balance covers; after the debit
    it appends the ledger entry of that amount, unless the ledger write
    raises. *)
Lemma charge_unit_cases env subscription w :
  let r := fst (_process_single_charge env subscription w) in
  let w' := snd (_process_single_charge env subscription w) in
  saved w' = saved w /\
  ((r <> Ok OutCharged /\ users (live w') = users (live w) /\
    transactions (live w') = transactions (live w))
   \/
   (exists uid user tariff n,
      users (live w) !! uid = Some user /\
      0 < daily_price_kopeks tariff * n <= balance_kopeks user /\
      users (live w')
      = <[uid := set_balance (balance_kopeks user - daily_price_kopeks tariff * n) user]>
          (users (live w)) /\
      ((r = Ok OutError /\ raises env (OpCreateTransaction (user_pk user)) = true /\
        transactions (live w') = transactions (live w))
       \/
       ((r = Ok OutCharged \/ r = Ok OutError) /\
        transactions (live w') = transactions (live w) ++ [charge_entry user tariff n])))).
Proof.
  cbv zeta.
  destruct (resolve_user_run env subscription w) as (r & Hr & Huser & _).
  destruct r as [[[uid user]|]|e].
  - specialize (Huser uid user eq_refl).
    pose proof (resolve_tariff_run subscription w) as Ht.
    destruct (match sub_tariff subscription with
              | Some tid => tariffs (live w) !! tid
              | None => None
              end) as [tariff|] eqn:Htar.
    + destruct (Z_lt_le_dec 0 (daily_price_kopeks tariff)) as [Hp|Hp].
      * destruct (_process_single_charge_run env subscription w uid user tariff Hr Ht Hp)
          as (n & es & Hn & Hsusp & Herr & Hok & Hledger & Htime).
        assert (Hn1 : 1 <= n).
        { destruct (_get_device_count_run env subscription user w)
            as (n' & es' & Hn' & Hle & _).
          rewrite Hn in Hn'. by injection Hn' as ->. }
        destruct (Z_lt_le_dec (balance_kopeks user) (daily_price_kopeks tariff * n))
          as [Hb|Hb].
        { destruct (Hsusp Hb) as [es' ->]. cbn [fst snd]. split; [done|]. left. done. }
        destruct (raises env (OpDebit uid)) eqn:Hraise.
        { destruct (Herr Hb (or_introl eq_refl)) as [es' ->]. cbn [fst snd].
          split; [done|]. left. done. }
        destruct (debit_refused env uid) eqn:Hrefused.
        { destruct (Herr Hb (or_intror eq_refl)) as [es' ->]. cbn [fst snd].
          split; [done|]. left. done. }
        destruct (raises env (OpCreateTransaction (user_pk user))) eqn:Hcreate.
        { destruct (Hledger Hb eq_refl eq_refl eq_refl) as [es' ->]. cbn [fst snd].
          split; [done|]. right. exists uid, user, tariff, n.
          autorewrite with world. unfold debited_store. store_simpl.
          split_and!; [done|nia|done|by apply alter_Some|]. left. done. }
        destruct (raises env (OpUpdateChargeTime (sub_pk subscription))) eqn:Hupdate.
        { destruct (Htime Hb eq_refl eq_refl eq_refl eq_refl) as [es' ->]. cbn [fst snd].
          split; [done|]. right. exists uid, user, tariff, n.
          autorewrite with world. unfold recorded_store, debited_store. store_simpl.
          split_and!; [done|nia|done|by apply alter_Some|]. right. split; [by right|done]. }
        destruct (Hok Hb eq_refl eq_refl eq_refl eq_refl) as [es' ->]. cbn [fst snd].
        split; [done|]. right. exists uid, user, tariff, n.
        autorewrite with world. unfold charged_store. store_simpl.
        split_and!; [done|nia|done|by apply alter_Some|]. right. split; [by left|done].
      * rewrite (_process_single_charge_bad_price _ _ _ _ _ _ Hr Ht Hp).
        split; [done|]. left. done.
    + rewrite (_process_single_charge_no_tariff _ _ _ _ _ Hr Ht).
      split; [done|]. left. done.
  - rewrite (_process_single_charge_no_user _ _ _ Hr). split; [done|]. left. done.
  - rewrite (_process_single_charge_user_raises _ _ _ _ Hr). split; [done|]. left. done.
Qed.

Lemma total_balance_insert (m : gmap Z User) k user user' :
  m !! k = Some user ->
  total_balance (<[k := user']> m)
  = total_balance m - balance_kopeks user + balance_kopeks user'.
Proof.
  intros Hk. unfold total_balance.
  rewrite <- insert_delete_eq.
  rewrite map_fold_insert_L; [|intros; lia|apply lookup_delete_eq].
  rewrite (map_fold_delete_L _ _ k user m); [lia|intros; lia|done].
Qed.

Lemma ledger_total_app l l' :
  ledger_total (l ++ l') = ledger_total l + ledger_total l'.
Proof.
  unfold ledger_total. induction l as [|tx l IH]; cbn [app foldr]; [lia|].
  rewrite IH. lia.
Qed.

Lemma charged_from_refl st : charged_from st st.
Proof.
  unfold charged_from. split_and!; [lia| |eauto with lia|done].
  exists []. by rewrite app_nil_r.
Qed.

Lemma charged_from_trans st1 st2 st3 :
  charged_from st1 st2 -> charged_from st2 st3 -> charged_from st1 st3.
Proof.
  intros (Hsum1 & (new1 & Hnew1 & Hpos1) & Huser1 & Hdom1)
         (Hsum2 & (new2 & Hnew2 & Hpos2) & Huser2 & Hdom2).
  unfold charged_from. split_and!.
  - lia.
  - exists (new1 ++ new2). rewrite Hnew2, Hnew1, app_assoc.
    split; [done|]. by apply Forall_app.
  - intros uid user Hu.
    destruct (Huser1 uid user Hu) as (user1 & Hu1 & Hle1 & Hpos1').
    destruct (Huser2 uid user1 Hu1) as (user2 & Hu2 & Hle2 & Hpos2').
    exists user2. split_and!; [done|lia|]. intros H0. auto.
  - by rewrite Hdom2.
Qed.

(** One charge, in the session. *)
Lemma charge_unit_charged_from env subscription w :
  charged_from (live w) (live (snd (_process_single_charge env subscription w))) /\
  (ledger_ok env ->
   balanced_from (live w) (live (snd (_process_single_charge env subscription w)))) /\
  saved (snd (_process_single_charge env subscription w)) = saved w.
Proof.
  destruct (charge_unit_cases env subscription w) as [Hsaved Hcase].
  split_and!; [| |done]; clear Hsaved.
  - destruct Hcase as [(_ & Hu & Hx)|(uid & user & tariff & n & Huid & Hamount & Hu & Hx)].
    { unfold charged_from. rewrite Hu, Hx. apply charged_from_refl. }
    assert (Hrows : forall k u, users (live w) !! k = Some u ->
      exists user',
        (<[uid := set_balance (balance_kopeks user - daily_price_kopeks tariff * n) user]>
           (users (live w))) !! k = Some user' /\
        balance_kopeks user' <= balance_kopeks u /\
        (0 <= balance_kopeks u -> 0 <= balance_kopeks user')).
    { intros k u Hk. destruct (decide (k = uid)) as [->|Hne].
      - rewrite lookup_insert_eq. simplify_eq. eexists. split; [done|].
        cbn [balance_kopeks set_balance]. lia.
      - rewrite lookup_insert_ne by done. exists u. split_and!; [done|lia|done]. }
    assert (Hdom : dom (<[uid := set_balance
                            (balance_kopeks user - daily_price_kopeks tariff * n) user]>
                          (users (live w))) = dom (users (live w))).
    { rewrite dom_insert_L. apply elem_of_dom_2 in Huid. set_solver. }
    unfold charged_from. rewrite Hu.
    rewrite (total_balance_insert _ _ _ _ Huid).
    cbn [balance_kopeks set_balance].
    destruct Hx as [(_ & _ & ->)|(_ & ->)].
    + split_and!; [lia| |done|done]. exists []. by rewrite app_nil_r.
    + rewrite ledger_total_app.
      cbn [ledger_total foldr charge_entry amount_kopeks].
      split_and!; [lia| |done|done].
      eexists. split; [done|]. repeat constructor.
      cbn [charge_entry amount_kopeks]. lia.
  - intros Hok. unfold balanced_from.
    destruct Hcase as [(_ & Hu & Hx)|(uid & user & tariff & n & Huid & Hamount & Hu & Hx)].
    { rewrite Hu, Hx. lia. }
    destruct Hx as [(_ & Hraise & _)|(_ & Hx)]; [by rewrite Hok in Hraise|].
    rewrite Hu, Hx, (total_balance_insert _ _ _ _ Huid), ledger_total_app.
    cbn [ledger_total foldr charge_entry amount_kopeks balance_kopeks set_balance]. lia.
Qed.

Lemma charge_units_charged_from env subs w :
  charged_from (live w) (live (snd (charge_units env subs w))) /\
  (ledger_ok env -> balanced_from (live w) (live (snd (charge_units env subs w)))) /\
  saved (snd (charge_units env subs w)) = saved w.
Proof.
  revert w. induction subs as [|s rest IH]; intros w.
  { cbn [charge_units snd]. split_and!; [apply charged_from_refl| |done].
    intros _. unfold balanced_from. lia. }
  cbn [charge_units snd].
  destruct (charge_unit_charged_from env s w) as (Hunit & Hbal & Hsaved).
  set (w1 := after_charge s _ _).
  assert (Hw1 : live w1 = live (snd (_process_single_charge env s w)) /\
                saved w1 = saved (snd (_process_single_charge env s w))).
  { unfold w1, after_charge. by destruct (fst (_process_single_charge env s w)). }
  destruct Hw1 as [Hl1 Hs1].
  destruct (IH w1) as (Hrest & Hbal' & Hsaved').
  split_and!.
  - eapply charged_from_trans; [|exact Hrest]. by rewrite Hl1.
  - intros Hok. specialize (Hbal Hok). specialize (Hbal' Hok).
    unfold balanced_from in *. rewrite Hl1 in Hbal'. lia.
  - by rewrite Hsaved', Hs1.
Qed.

Lemma process_daily_charges_unfold env :
  process_daily_charges env =
  with_locals no_charges
    (try_except
       (lift (AsyncSessionLocal env) ;;
        try_except (charge_inner env)
          (fun e => lift (logger ERROR MsgChargeBatchFailed) ;; lift (db_rollback env)))
       (fun e => lift (logger ERROR MsgChargeQueryFailed)) ;;
     let! stats := locals in
     ret stats).
Proof. reflexivity. Qed.

(** X11: a charge records at most what it debits.  Through one run of
    [_process_single_charge], whatever its outcome and whatever raises, the
    ledger gains at most what the balances lose; they are equal when the
    ledger write does not raise (a ledger write that raises after the
    debit leaves the balance debited with no entry).  The ledger only
    grows, by entries of positive amounts; no balance grows, and a balance
    that is not negative stays so. *)
Theorem charge_records_at_most_what_it_debits env subscription w :
  let w' := snd (_process_single_charge env subscription w) in
  ledger_total (transactions (live w')) - ledger_total (transactions (live w))
  <= total_balance (users (live w)) - total_balance (users (live w')) /\
  ((forall uid, raises env (OpCreateTransaction uid) = false) ->
   total_balance (users (live w)) - total_balance (users (live w'))
   = ledger_total (transactions (live w')) - ledger_total (transactions (live w))) /\
  (exists new, transactions (live w') = transactions (live w) ++ new /\
               Forall (fun tx => 0 < amount_kopeks tx) new) /\
  (forall uid user, users (live w) !! uid = Some user ->
     exists user', users (live w') !! uid = Some user' /\
       balance_kopeks user' <= balance_kopeks user /\
       (0 <= balance_kopeks user -> 0 <= balance_kopeks user')).
Proof.
  cbv zeta.
  destruct (charge_unit_charged_from env subscription w)
    as ((H1 & H2 & H3 & _) & Hbal & _).
  done.
Qed.

(** X12: the loop of a charge pass records at most what it debits.
    Through the loop of [process_daily_charges] over any list of
    subscriptions, whatever fails in it, in the session: the ledger gains
    at most what the balances lose, and exactly that when no ledger write
    raises; the ledger only grows, by entries of positive amounts; no
    balance grows, no balance that is not negative becomes negative, and
    no user row is added or removed. *)
Theorem charge_loop_records_at_most_what_it_debits env subs st w :
  let w' := snd (snd (for_each subs (charge_iteration env) (st, w))) in
  ledger_total (transactions (live w')) - ledger_total (transactions (live w))
  <= total_balance (users (live w)) - total_balance (users (live w')) /\
  ((forall uid, raises env (OpCreateTransaction uid) = false) ->
   total_balance (users (live w)) - total_balance (users (live w'))
   = ledger_total (transactions (live w')) - ledger_total (transactions (live w))) /\
  (exists new, transactions (live w') = transactions (live w) ++ new /\
               Forall (fun tx => 0 < amount_kopeks tx) new) /\
  (forall uid user, users (live w) !! uid = Some user ->
     exists user', users (live w') !! uid = Some user' /\
       balance_kopeks user' <= balance_kopeks user /\
       (0 <= balance_kopeks user -> 0 <= balance_kopeks user')) /\
  dom (users (live w')) = dom (users (live w)).
Proof.
  cbv zeta. rewrite for_each_charge_run. cbn [snd].
  destruct (charge_units_charged_from env subs w)
    as ((H1 & H2 & H3 & H4) & Hbal & _).
  done.
Qed.

(** ** The notifiers *)

(** X13: a notifier never raises and never touches the store.  Without a
    bot it does nothing; with a bot it sends one message to the chat of the
    user, or logs one warning when the send raises. *)
Theorem notifiers_never_raise env uid user subscription amount device_count sid reset_gb w :
  _notify_daily_charge env uid user subscription amount device_count w
  = (Ok tt,
     push (notice_effects env (telegram_id user)
             (NoticeDailyCharge amount
                (balance_kopeks (default user (users (live w) !! uid))) device_count)
             MsgNotifyChargeFailed) w) /\
  _notify_insufficient_balance env uid user subscription amount w
  = (Ok tt,
     push (notice_effects env (telegram_id user)
             (NoticeInsufficientBalance amount
                (balance_kopeks (default user (users (live w) !! uid))))
             MsgNotifyInsufficientFailed) w) /\
  _notify_traffic_reset env user sid reset_gb w
  = (Ok tt,
     push (notice_effects env (telegram_id user)
             (NoticeTrafficReset reset_gb
                match subscriptions (live w) !! sid with
                | Some s => traffic_limit_gb s
                | None => 0
                end)
             MsgNotifyResetFailed) w).
Proof.
  split_and!.
  - apply _notify_daily_charge_run.
  - apply _notify_insufficient_balance_run.
  - apply _notify_traffic_reset_run.
Qed.

(** ** The monitoring loop *)

Lemma in_world_run {A} (m : M World A) s :
  in_world m s = (fst (m (world s)), set_world (snd (m (world s))) s).
Proof. unfold in_world. by destruct (m (world s)). Qed.

Lemma other_tasks_run sched i a s :
  other_tasks sched i a s
  = (Ok tt,
     if stop_at sched i a
     then record (MonitorLogged INFO MsgMonitorStopped)
            (set_service (set_running false (service s)) s)
     else s).
Proof. unfold other_tasks. by destruct (stop_at sched i a). Qed.

Lemma pass_env_set_running b self env :
  pass_env (set_running b self) env = pass_env self env.
Proof. reflexivity. Qed.

Lemma report_run (b : bool) lvl m s :
  (if b then monitor_logger lvl m else ret tt) s
  = (Ok tt, if b then record (MonitorLogged lvl m) s else s).
Proof. by destruct b. Qed.

(** One iteration: both passes run, the error branch is not taken, the
    loop sleeps once, and the instance is stopped when another task asked
    for it. *)
Lemma monitoring_iteration_journal sched interval_minutes i s :
  exists stats traffic_stats,
    monitoring_iteration sched interval_minutes i s
    = (Ok tt,
       {| service := if stopped_in sched i then set_running false (service s)
                     else service s;
          world :=
            snd (process_traffic_resets (pass_env (service s) (reset_env sched i))
                   (snd (process_daily_charges
                           (pass_env (service s) (charge_env sched i)) (world s))));
          journal :=
            (if stop_at sched i AwaitSleep
             then [MonitorLogged INFO MsgMonitorStopped] else []) ++
            [Slept (interval_minutes * 60)] ++
            (if Nat.ltb 0 (reset traffic_stats)
             then [MonitorLogged INFO (MsgResetsReport traffic_stats)] else []) ++
            (if stop_at sched i AwaitResets
             then [MonitorLogged INFO MsgMonitorStopped] else []) ++
            (if Nat.ltb 0 (charged stats) || Nat.ltb 0 (suspended stats)
             then [MonitorLogged INFO (MsgChargesReport stats)] else []) ++
            (if stop_at sched i AwaitCharges
             then [MonitorLogged INFO MsgMonitorStopped] else []) ++
            journal s |}).
Proof.
  unfold monitoring_iteration, stopped_in.
  destruct (process_daily_charges_run (pass_env (service s) (charge_env sched i)) (world s))
    as [w1 Hrun1].
  rewrite bind_run. unfold try_except.
  rewrite bind_run. cbn [get]. rewrite bind_run, in_world_run, Hrun1. cbn [fst snd].
  rewrite bind_run, other_tasks_run. cbv beta iota.
  set (stats := charge_stats _ _). clearbody stats. clear Hrun1.
  destruct (process_traffic_resets_run
              (pass_env (service s) (reset_env sched i)) w1) as [w2 Hrun2].
  set (stats2 := reset_stats _ _) in Hrun2. clearbody stats2.
  exists stats, stats2. rewrite Hrun2. cbn [snd].
  rewrite bind_run, report_run. cbv beta iota.
  rewrite bind_run. unfold get at 1. cbv beta iota.
  rewrite bind_run, in_world_run.
  destruct (stop_at sched i AwaitCharges),
    (Nat.ltb 0 (charged stats) || Nat.ltb 0 (suspended stats));
    cbn [world service record set_service set_world];
    rewrite ?pass_env_set_running, Hrun2; cbn [fst snd];
    rewrite bind_run, other_tasks_run; cbv beta iota;
    rewrite report_run;
    unfold asyncio_sleep; rewrite bind_run; unfold modify at 1; cbv beta iota;
    rewrite other_tasks_run;
    destruct (stop_at sched i AwaitResets), (stop_at sched i AwaitSleep),
      (Nat.ltb 0 (reset stats2)); reflexivity.
Qed.

Lemma monitoring_iteration_run sched interval_minutes i s :
  exists j,
    monitoring_iteration sched interval_minutes i s
    = (Ok tt,
       {| service := if stopped_in sched i then set_running false (service s)
                     else service s;
          world :=
            snd (process_traffic_resets (pass_env (service s) (reset_env sched i))
                   (snd (process_daily_charges
                           (pass_env (service s) (charge_env sched i)) (world s))));
          journal := j ++ journal s |}) /\
    sleeps j = [interval_minutes * 60] /\
    MonitorLogged ERROR MsgMonitorFailed ∉ j.
Proof.
  destruct (monitoring_iteration_journal sched interval_minutes i s)
    as (stats & traffic_stats & ->).
  eexists. split; [by rewrite !app_assoc|]. unfold sleeps.
  destruct (stop_at sched i AwaitSleep), (Nat.ltb 0 (reset traffic_stats)),
    (stop_at sched i AwaitResets),
    (Nat.ltb 0 (charged stats) || Nat.ltb 0 (suspended stats)),
    (stop_at sched i AwaitCharges);
    (split; [reflexivity|cbn [app]; set_solver]).
Qed.

Lemma sleeps_app j1 j2 : sleeps (j1 ++ j2) = sleeps j1 ++ sleeps j2.
Proof. apply omap_app. Qed.

(** The loop from iteration [i] on, when the first call of
    [stop_monitoring] comes in iteration [i + n]. *)
Lemma while_running_stops sched interval_minutes n :
  forall fuel i s,
    _running (service s) = true ->
    (forall k, (k < n)%nat -> stopped_in sched (i + k) = false) ->
    stopped_in sched (i + n) = true ->
    (n + 2 <= fuel)%nat ->
    exists j,
      while_running fuel sched interval_minutes i s
      = Some (Ok tt,
              {| service := set_running false (service s);
                 world := monitored_world (service s) sched i (S n) (world s);
                 journal := j ++ journal s |}) /\
      sleeps j = replicate (S n) (interval_minutes * 60) /\
      MonitorLogged ERROR MsgMonitorFailed ∉ j.
Proof.
  induction n as [|n IH]; intros fuel i s Hrunning Hbefore Hstop Hfuel.
  - destruct fuel as [|[|fuel]]; [lia|lia|].
    cbn [while_running]. rewrite Hrunning.
    destruct (monitoring_iteration_run sched interval_minutes i s) as (j & -> & Hj & Hno).
    rewrite Nat.add_0_r in Hstop. rewrite Hstop. cbn [service _running set_running].
    exists j. split_and!; done.
  - destruct fuel as [|fuel]; [lia|].
    cbn [while_running]. rewrite Hrunning.
    destruct (monitoring_iteration_run sched interval_minutes i s) as (j & -> & Hj & Hno).
    assert (Hi : stopped_in sched i = false).
    { specialize (Hbefore 0%nat). rewrite Nat.add_0_r in Hbefore. apply Hbefore. lia. }
    rewrite Hi.
    match goal with |- context [ while_running fuel _ _ (S i) ?s1 ] =>
      destruct (IH fuel (S i) s1) as (j' & -> & Hj' & Hno') end.
    + exact Hrunning.
    + intros k Hk. replace (S i + k)%nat with (i + S k)%nat by lia. apply Hbefore. lia.
    + by replace (S i + n)%nat with (i + S n)%nat by lia.
    + lia.
    + cbn [service world journal]. exists (j' ++ j). split_and!.
      * by rewrite app_assoc.
      * rewrite sleeps_app, Hj, Hj'. cbn [replicate].
        change (?x :: replicate n ?x) with (replicate (S n) x).
        by rewrite <- replicate_cons_app.
      * set_solver.
Qed.

(** Without a call of [stop_monitoring] the loop goes on, whatever the
    bound. *)
Lemma while_running_forever sched interval_minutes :
  (forall k a, stop_at sched k a = false) ->
  forall fuel i s,
    _running (service s) = true ->
    while_running fuel sched interval_minutes i s = None.
Proof.
  intros Hnever. induction fuel as [|fuel IH]; intros i s Hrunning; [done|].
  cbn [while_running]. rewrite Hrunning.
  destruct (monitoring_iteration_run sched interval_minutes i s) as (j & -> & _ & _).
  apply IH. unfold stopped_in. by rewrite !Hnever.
Qed.

Lemma monitored_world_set_running b self sched i k w :
  monitored_world (set_running b self) sched i k w = monitored_world self sched i k w.
Proof.
  revert i w. induction k as [|k IH]; intros i w; [done|].
  cbn [monitored_world]. by rewrite IH, !pass_env_set_running.
Qed.

(** X14: a call of [stop_monitoring] takes effect when the loop tests its
    condition the next time.  When the first call comes during iteration
    [n], the loop completes the iterations 0 to [n], each with its charge
    pass, its decay pass and its sleep of the interval that was read at
    the start, and then returns; it never takes its error branch, because
    both passes always return. *)
Theorem monitoring_stops_after_the_iteration fuel settings sched s n :
  (forall k, (k < n)%nat -> stopped_in sched k = false) ->
  stopped_in sched n = true ->
  (n + 2 <= fuel)%nat ->
  exists j,
    start_monitoring fuel settings sched s
    = Some (Ok tt,
            {| service := set_running false (service s);
               world := monitored_world (service s) sched 0 (S n) (world s);
               journal := j ++ journal s |}) /\
    sleeps j = replicate (S n) (get_check_interval_minutes settings * 60) /\
    MonitorLogged ERROR MsgMonitorFailed ∉ j.
Proof.
  intros Hbefore Hstop Hfuel. unfold start_monitoring.
  match goal with |- context [ while_running fuel sched ?m 0 ?s1 ] =>
    destruct (while_running_stops sched m n fuel 0 s1) as (j & -> & Hj & Hno) end;
    try done.
  cbn [service world journal record set_service].
  exists (j ++ [MonitorLogged INFO (MsgMonitorStarted (get_check_interval_minutes settings))]).
  split_and!.
  - rewrite monitored_world_set_running, <- app_assoc. reflexivity.
  - rewrite sleeps_app, Hj. cbn. by rewrite app_nil_r.
  - set_solver.
Qed.

(** A new instance on the database of scenario A, stopped while the loop
    sleeps in iteration 1: the loop returns after two iterations of 1800
    seconds each. *)
Lemma monitoring_stops_after_the_iteration_witness :
  ((forall k, (k < 1)%nat -> stopped_in (stop_in_sleep 1) k = false) /\
   stopped_in (stop_in_sleep 1) 1 = true /\
   (1 + 2 <= 3)%nat) /\
  exists j,
    start_monitoring 3 default_settings (stop_in_sleep 1) example_monitor
    = Some (Ok tt,
            {| service := set_running false (service example_monitor);
               world := monitored_world (service example_monitor) (stop_in_sleep 1) 0 2
                          (world example_monitor);
               journal := j ++ journal example_monitor |}) /\
    sleeps j = [1800; 1800].
Proof.
  assert (Hbefore : forall k, (k < 1)%nat -> stopped_in (stop_in_sleep 1) k = false).
  { intros k Hk. replace k with 0%nat by lia. reflexivity. }
  split; [split_and!; [exact Hbefore|reflexivity|lia]|].
  destruct (monitoring_stops_after_the_iteration 3 default_settings (stop_in_sleep 1)
              example_monitor 1 Hbefore eq_refl) as (j & Hrun & Hj & _); [lia|].
  exists j. split; [exact Hrun|exact Hj].
Defined.

(** X15: [start_monitoring] sets the running flag itself, so a call of
    [stop_monitoring] that comes before the start is lost: when nobody
    calls [stop_monitoring] after the start, the loop does not return
    within any bound. *)
Theorem stop_before_start_is_lost fuel settings sched s :
  (forall k a, stop_at sched k a = false) ->
  _running (service (snd (stop_monitoring s))) = false /\
  start_monitoring fuel settings sched (snd (stop_monitoring s)) = None.
Proof.
  intros Hnever. split; [reflexivity|].
  unfold start_monitoring. by apply while_running_forever.
Qed.

(** A new instance, stopped and then started, with nobody to stop it
    again: the loop has not returned after five tests of its condition. *)
Lemma stop_before_start_is_lost_witness :
  (forall k a, stop_at never_stopped k a = false) /\
  start_monitoring 5 default_settings never_stopped (snd (stop_monitoring example_monitor))
  = None.
Proof.
  split; [reflexivity|].
  apply (stop_before_start_is_lost 5 default_settings never_stopped example_monitor).
  reflexivity.
Defined.

(** ** The trace of a charge *)

Lemma _get_device_count_logs env subscription user w :
  exists n es,
    _get_device_count env subscription user w = (Ok n, push es w) /\
    Forall is_logged es.
Proof.
  unfold _get_device_count.
  destruct (truthy_str (remnawave_uuid user)) eqn:Hu; cbn [negb].
  2:{ eexists 1, [_]. split; [reflexivity|]. repeat constructor. }
  unfold try_except.
  destruct (is_configured env) eqn:Hc; cbn [negb].
  2:{ exists 1, []. rewrite push_nil. split; [reflexivity|constructor]. }
  destruct (get_user_devices env _) as [|total] eqn:Hd.
  - eexists 1, [_]. split; [reflexivity|]. repeat constructor.
  - eexists _, [_]. split; [reflexivity|]. repeat constructor.
Qed.

Lemma charge_unit_trace env subscription w :
  exists r w' es,
    _process_single_charge env subscription w = (r, w') /\
    effects w' = es ++ effects w /\
    ((Forall is_logged es /\ r <> Ok OutCharged /\ r <> Ok OutSuspended)
     \/
     (r = Ok OutSuspended /\
      exists user amount balance es0 lg,
        Forall is_logged es0 /\ is_logged lg /\
        es = lg :: notice_effects env (telegram_id user)
                     (NoticeInsufficientBalance amount balance)
                     MsgNotifyInsufficientFailed ++ es0)
     \/
     (r = Ok OutCharged /\
      exists user amount balance n es0 lg,
        Forall is_logged es0 /\ is_logged lg /\
        es = notice_effects env (telegram_id user)
               (NoticeDailyCharge amount balance n) MsgNotifyChargeFailed ++
             panel_effects env (sub_pk subscription) MsgPanelUpdateFailed ++
             lg :: es0)).
Proof.
  destruct (resolve_user_run env subscription w) as (r & Hr & Huser & _).
  destruct r as [[[uid user]|]|e].
  - specialize (Huser uid user eq_refl).
    pose proof (resolve_tariff_run subscription w) as Ht.
    destruct (match sub_tariff subscription with
              | Some tid => tariffs (live w) !! tid
              | None => None
              end) as [tariff|] eqn:Htar.
    + destruct (Z_lt_le_dec 0 (daily_price_kopeks tariff)) as [Hp|Hp].
      * destruct (_get_device_count_logs env subscription user w) as (n & es & Hn & Hlogs).
        unfold _process_single_charge.
        rewrite (bind_ok _ _ _ _ _ Hr). rewrite (bind_ok _ _ _ _ _ Ht).
        destruct (daily_price_kopeks tariff <=? 0) eqn:Hp'; [lia|].
        rewrite (bind_ok _ _ _ _ _ Hn).
        destruct (balance_kopeks user <? daily_price_kopeks tariff * n) eqn:Hb.
        { rewrite bind_run.
          unfold suspend_daily_subscription_insufficient_balance, update_subscription, modify.
          match goal with |- context [ set_live ?st (push es w) ] =>
            set (w1 := set_live st (push es w)) end.
          rewrite bind_run.
          erewrite if_bot_run by (rewrite _notify_insufficient_balance_run; reflexivity).
          rewrite _notify_insufficient_balance_run, bind_run, logger_run.
          unfold ret, w1. autorewrite with world.
          eexists _, _, _. split; [reflexivity|]. autorewrite with world.
          split; [reflexivity|]. right; left. split; [done|].
          eexists user, _, _, es, _. split; [done|]. split; [|reflexivity]. exact I. }
        unfold try_except at 1. rewrite bind_run.
        rewrite (subtract_user_balance_run _ _ _ _ _ user) by exact Huser.
        destruct (raises env (OpDebit uid)) eqn:Hraise.
        { eexists _, _, (Logged ERROR (MsgChargeFailed (sub_pk subscription)) :: es).
          split; [reflexivity|]. split; [reflexivity|]. left.
          split_and!; [by constructor|done|done]. }
        destruct (debit_refused env uid) eqn:Hrefused.
        { eexists _, _, (Logged WARNING (MsgDebitRefused (sub_pk subscription)) :: es).
          split; [reflexivity|]. split; [reflexivity|]. left.
          split_and!; [by constructor|done|done]. }
        rewrite Hb. cbv beta iota. cbn [negb]. cbv iota.
        rewrite bind_run, create_transaction_run.
        destruct (raises env (OpCreateTransaction (user_pk user))) eqn:Hcreate.
        { eexists _, _, (Logged ERROR (MsgChargeFailed (sub_pk subscription)) :: es).
          split; [reflexivity|]. split; [reflexivity|]. left.
          split_and!; [by constructor|done|done]. }
        cbv beta iota.
        rewrite bind_run, update_daily_charge_time_run.
        destruct (raises env (OpUpdateChargeTime (sub_pk subscription))) eqn:Hupdate.
        { eexists _, _, (Logged ERROR (MsgChargeFailed (sub_pk subscription)) :: es).
          split; [reflexivity|]. split; [reflexivity|]. left.
          split_and!; [by constructor|done|done]. }
        cbv beta iota.
        rewrite bind_run, logger_run. cbv beta iota.
        rewrite bind_run, create_remnawave_user_guarded. cbv beta iota.
        rewrite bind_run.
        erewrite if_bot_run by (rewrite _notify_daily_charge_run; reflexivity).
        rewrite _notify_daily_charge_run.
        unfold ret. autorewrite with world.
        eexists _, _, _. split; [reflexivity|]. autorewrite with world.
        split; [reflexivity|]. right; right. split; [done|].
        eexists user, _, _, _, es, _. split; [done|].
        split; [|rewrite <- !app_assoc; reflexivity]. exact I.
      * rewrite (_process_single_charge_bad_price _ _ _ _ _ _ Hr Ht Hp).
        eexists _, _, [_]. split; [reflexivity|]. split; [reflexivity|]. left.
        split_and!; [repeat constructor|done|done].
    + rewrite (_process_single_charge_no_tariff _ _ _ _ _ Hr Ht).
      eexists _, _, [_]. split; [reflexivity|]. split; [reflexivity|]. left.
      split_and!; [repeat constructor|done|done].
  - rewrite (_process_single_charge_no_user _ _ _ Hr).
    eexists _, _, [_]. split; [reflexivity|]. split; [reflexivity|]. left.
    split_and!; [repeat constructor|done|done].
  - rewrite (_process_single_charge_user_raises _ _ _ _ Hr).
    eexists _, _, []. split; [reflexivity|]. split; [reflexivity|]. left.
    split_and!; [constructor|done|done].
Qed.

Lemma logged_only (l : list Effect) e :
  Forall is_logged l -> e ∈ l -> ~ is_logged e -> False.
Proof. intros Hall Hin Hnot. rewrite Forall_forall in Hall. auto. Qed.

(** X16: a charge tells nobody what it did not do.  A run of
    [_process_single_charge] sends the notice of a charge and pushes the
    subscription to the panel only when its outcome is "charged", and
    sends the notice of insufficient balance only when its outcome is
    "suspended"; with every other outcome, and when it raises, it leaves
    only log records. *)
Theorem charge_tells_what_it_did env subscription w :
  let r := fst (_process_single_charge env subscription w) in
  let w' := snd (_process_single_charge env subscription w) in
  exists es,
    effects w' = es ++ effects w /\
    (forall chat amount balance devices,
       Sent chat (NoticeDailyCharge amount balance devices) ∈ es -> r = Ok OutCharged) /\
    (forall sid, PanelPushed sid ∈ es -> r = Ok OutCharged /\ sid = sub_pk subscription) /\
    (forall chat required balance,
       Sent chat (NoticeInsufficientBalance required balance) ∈ es -> r = Ok OutSuspended) /\
    (r <> Ok OutCharged -> r <> Ok OutSuspended -> Forall is_logged es).
Proof.
  cbv zeta.
  destruct (charge_unit_trace env subscription w) as (r & w' & es & -> & Heff & Hcase).
  cbn [fst snd]. exists es. split; [done|].
  destruct Hcase as [(Hall & Hnc & Hns)
                    |[(-> & user & amount & balance & es0 & lg & Hall & Hlg & ->)
                     |(-> & user & amount & balance & n & es0 & lg & Hall & Hlg & ->)]].
  - split_and!; [| | |done]; intros; exfalso; eapply logged_only; eauto.
  - destruct lg; try done.
    unfold notice_effects. split_and!; [| | |done].
    + intros chat a b d Hin. exfalso.
      destruct (bot env); [destruct (send_fails env (telegram_id user))|]; cbn [app] in Hin;
        repeat (apply elem_of_cons in Hin as [Hin|Hin]; [discriminate Hin|]);
        exact (logged_only _ _ Hall Hin (fun H => H)).
    + intros sid Hin. exfalso.
      destruct (bot env); [destruct (send_fails env (telegram_id user))|]; cbn [app] in Hin;
        repeat (apply elem_of_cons in Hin as [Hin|Hin]; [discriminate Hin|]);
        exact (logged_only _ _ Hall Hin (fun H => H)).
    + done.
  - destruct lg; try done.
    unfold notice_effects, panel_effects. split_and!; [done| | |done].
    + intros sid Hin. split; [done|].
      destruct (bot env); [destruct (send_fails env (telegram_id user))|];
        destruct (panel_fails env (sub_pk subscription)); cbn [app] in Hin;
        repeat (apply elem_of_cons in Hin as [Hin|Hin];
                [first [discriminate Hin|by injection Hin]|]);
        exfalso; exact (logged_only _ _ Hall Hin (fun H => H)).
    + intros chat a b Hin. exfalso.
      destruct (bot env); [destruct (send_fails env (telegram_id user))|];
        destruct (panel_fails env (sub_pk subscription)); cbn [app] in Hin;
        repeat (apply elem_of_cons in Hin as [Hin|Hin]; [discriminate Hin|]);
        exact (logged_only _ _ Hall Hin (fun H => H)).
Qed.
